(** * SPC Campus Connect: role resolution, approval workflow, posts and comments

    A shallow embedding of the page handlers of the campus announcement board
    (LandingPage, SuperAdminDashboard, AdminPanel, Dashboard, Archive and
    PostDetail) together with the properties of the role-resolution and
    approval policy they implement.

    The handlers are asynchronous functions that talk to a hosted store and an
    identity provider.  Here a handler is a computation in a small state and
    exception monad over the store contents, the component's own state
    variables and the log of user-visible effects (toasts, navigation).

    Of a component's state variables the ones the handlers compute with are
    kept (profiles, listings, form data); the display flags (loading, modal
    visibility) and the console output are left out.  A callback a handler
    defers with a timer runs where the handler schedules it. *)

From Stdlib Require Import String Ascii NArith List Bool Lia Sorted.
From stdpp Require Import gmap strings list fin_maps.

Local Open Scope string_scope.

(** ** JavaScript strings

    A string is a sequence of UTF-16 code units; the model covers the code
    units below 256 (one [ascii] each), on which [toLowerCase] and [trim] are
    given exactly. *)
Module JS.

Definition unit_in (lo hi : N) (c : ascii) : bool :=
  ((lo <=? N_of_ascii c) && (N_of_ascii c <=? hi))%N.

(** A-Z, and the Latin-1 capitals U+00C0..U+00DE except the sign U+00D7. *)
Definition lower_unit (c : ascii) : ascii :=
  if unit_in 65 90 c || (unit_in 192 222 c && negb (N_of_ascii c =? 215)%N)
  then ascii_of_N (N_of_ascii c + 32)
  else c.

Fixpoint toLowerCase (s : string) : string :=
  match s with
  | EmptyString => EmptyString
  | String c s' => String (lower_unit c) (toLowerCase s')
  end.

(** WhiteSpace and LineTerminator code units below 256:
    TAB, LF, VT, FF, CR, SP and NBSP. *)
Definition isWhiteSpace (c : ascii) : bool :=
  existsb (N.eqb (N_of_ascii c)) [9; 10; 11; 12; 13; 32; 160]%N.

Fixpoint allWhiteSpace (s : string) : bool :=
  match s with
  | EmptyString => true
  | String c s' => isWhiteSpace c && allWhiteSpace s'
  end.

Fixpoint trimStart (s : string) : string :=
  match s with
  | EmptyString => EmptyString
  | String c s' => if isWhiteSpace c then trimStart s' else s
  end.

Fixpoint trimEnd (s : string) : string :=
  match s with
  | EmptyString => EmptyString
  | String c s' =>
      match trimEnd s' with
      | EmptyString => if isWhiteSpace c then EmptyString else String c EmptyString
      | t => String c t
      end
  end.

Definition trim (s : string) : string := trimEnd (trimStart s).

(** Truthiness of a string value: only the empty string is falsy. *)
Definition truthy (s : string) : bool := negb (s =? "").

(** First and last code unit, when there is one. *)
Definition first_unit (s : string) : option ascii :=
  match s with
  | EmptyString => None
  | String c _ => Some c
  end.

Fixpoint last_unit (s : string) : option ascii :=
  match s with
  | EmptyString => None
  | String c EmptyString => Some c
  | String _ s' => last_unit s'
  end.

End JS.

(** ** The hosted store

    Each collection is a table keyed by its primary key [id]: a finite map
    from the id to the remaining columns.  A selected row is the pair of its
    id and its columns.  The store is taken to be reachable and to grant every
    request; the errors it reports are a primary-key conflict on insert and
    the row-count errors of [single] and [maybeSingle]. *)

Record SuperAdminRow := {
  sa_name : string;
  sa_email : string;
  sa_department : string
}.

Record AdminRow := {
  ad_name : string;
  ad_email : string;
  ad_department : string;
  ad_is_approved : bool
}.

Record UserRow := {
  us_name : string;
  us_email : string;
  us_role : string;
  us_department : string;
  us_is_approved : bool;
  us_approved_by : option string;
  us_approved_at : option N;
  us_profile_picture : option string;
  us_created_at : N
}.

Record PostRow := {
  po_title : string;
  po_content : string;
  po_type : string;
  po_department : string;
  po_author_id : string;
  po_event_date : option string;
  po_status : string;
  po_created_at : N
}.

Record CommentRow := {
  co_post_id : string;
  co_user_id : string;
  co_content : string;
  co_created_at : N
}.

(** Modelled from the spec: the table declarations are not part of the
    sources.  The profile collections are keyed by the account id (spec 3:
    each entity is a record keyed by an opaque identity id), posts and
    comments by an id the store assigns, and deleting a [users] row removes
    the account of the same id (spec 4.3, reject: the Account is also removed,
    cascading; the comment in handleReject says the same).  [accounts] is the
    set of account ids of the identity provider and [session] the account
    that is signed in. *)
Record World := {
  accounts : gset string;
  session : option string;
  super_admins : gmap string SuperAdminRow;
  admins : gmap string AdminRow;
  users : gmap string UserRow;
  posts : gmap string PostRow;
  comments : gmap string CommentRow
}.

Definition set_session (v : option string) (w : World) : World :=
  {| accounts := accounts w; session := v;
     super_admins := super_admins w; admins := admins w; users := users w;
     posts := posts w; comments := comments w |}.

Definition set_accounts (v : gset string) (w : World) : World :=
  {| accounts := v; session := session w;
     super_admins := super_admins w; admins := admins w; users := users w;
     posts := posts w; comments := comments w |}.

Definition set_super_admins (v : gmap string SuperAdminRow) (w : World) : World :=
  {| accounts := accounts w; session := session w;
     super_admins := v; admins := admins w; users := users w;
     posts := posts w; comments := comments w |}.

Definition set_admins (v : gmap string AdminRow) (w : World) : World :=
  {| accounts := accounts w; session := session w;
     super_admins := super_admins w; admins := v; users := users w;
     posts := posts w; comments := comments w |}.

Definition set_users (v : gmap string UserRow) (w : World) : World :=
  {| accounts := accounts w; session := session w;
     super_admins := super_admins w; admins := admins w; users := v;
     posts := posts w; comments := comments w |}.

Definition set_posts (v : gmap string PostRow) (w : World) : World :=
  {| accounts := accounts w; session := session w;
     super_admins := super_admins w; admins := admins w; users := users w;
     posts := v; comments := comments w |}.

Definition set_comments (v : gmap string CommentRow) (w : World) : World :=
  {| accounts := accounts w; session := session w;
     super_admins := super_admins w; admins := admins w; users := users w;
     posts := posts w; comments := v |}.

(** Query results. *)
Module Store.

Definition Selected (R : Type) : Type := (string * R)%type.

(** [.select('*')] with no filter. *)
Definition select {R} (t : gmap string R) : list (Selected R) := map_to_list t.

(** [.eq(column, value)] on a selection. *)
Definition eq {R} (column : R -> string) (value : string)
    (rows : list (Selected R)) : list (Selected R) :=
  List.filter (fun r => column (snd r) =? value) rows.

Definition eq_bool {R} (column : R -> bool) (value : bool)
    (rows : list (Selected R)) : list (Selected R) :=
  List.filter (fun r => Bool.eqb (column (snd r)) value) rows.

(** [.eq('id', value)] on a table: the key lookup. *)
Definition eq_id {R} (value : string) (t : gmap string R) : list (Selected R) :=
  match t !! value with
  | Some r => [(value, r)]
  | None => []
  end.

(** [.maybeSingle()]: the row when exactly one row qualifies, null data
    otherwise (with an error, which no caller reads, when more than one
    qualifies). *)
Definition maybeSingle {R} (rows : list (Selected R)) : option (Selected R) :=
  match rows with
  | [r] => Some r
  | _ => None
  end.

(** [.single()]: the row when exactly one row qualifies, an error
    otherwise. *)
Definition single {R} (rows : list (Selected R)) : string + Selected R :=
  match rows with
  | [r] => inr r
  | _ => inl "JSON object requested, multiple (or no) rows returned"
  end.

(** [.order(column, { ascending })]: a null sorts as the largest value
    (last when ascending, first when descending). *)
Definition key_ge (a b : option N) : bool :=
  match a, b with
  | None, _ => true
  | Some _, None => false
  | Some x, Some y => (y <=? x)%N
  end.

Definition before (ascending : bool) (a b : option N) : bool :=
  if ascending then key_ge b a else key_ge a b.

Fixpoint insert_sorted {A} (ascending : bool) (key : A -> option N)
    (x : A) (l : list A) : list A :=
  match l with
  | [] => [x]
  | y :: l' =>
      if before ascending (key x) (key y) then x :: l
      else y :: insert_sorted ascending key x l'
  end.

Definition order {A} (key : A -> option N) (ascending : bool) (l : list A) : list A :=
  foldr (insert_sorted ascending key) [] l.

(** [.insert([row])] under a primary key. *)
Definition insert {R} (id : string) (row : R) (t : gmap string R)
    : string + gmap string R :=
  match t !! id with
  | Some _ => inl "duplicate key value violates unique constraint"
  | None => inr (<[id := row]> t)
  end.

(** [.update(fields).eq('id', id)] and [.delete().eq('id', id)]: both
    succeed whether or not a row qualifies. *)
Definition update {R} (fields : R -> R) (id : string) (t : gmap string R)
    : gmap string R := alter fields id t.

Definition delete {R} (id : string) (t : gmap string R) : gmap string R :=
  base.delete id t.

(** [.select('*', { count: 'exact', head: true }).eq('post_id', id)]. *)
Definition count_comments (post_id : string) (t : gmap string CommentRow) : nat :=
  length (eq co_post_id post_id (select t)).

End Store.

(** ** User-visible effects *)
Inductive Event :=
| ToastError (message : string)
| ToastSuccess (message : string)
| ToastLoading (message : string)
| ToastInfo (message : string)
| Navigate (path : string).

(** ** The handler monad

    A handler runs over the component's state variables [ui], the store and
    session [db], and the log of effects in the order they occur.  A thrown
    error carries its message. *)
Record Sys (C : Type) := MkSys { ui : C; db : World; log : list Event }.
Arguments MkSys {C} _ _ _.
Arguments ui {C} _.
Arguments db {C} _.
Arguments log {C} _.

Inductive Outcome (A : Type) :=
| Done (a : A)
| Thrown (message : string).
Arguments Done {A} _.
Arguments Thrown {A} _.

Definition Eff (C A : Type) : Type := Sys C -> Outcome A * Sys C.

Definition ret {C A} (a : A) : Eff C A := fun s => (Done a, s).

Definition bind {C A B} (m : Eff C A) (k : A -> Eff C B) : Eff C B :=
  fun s =>
    match m s with
    | (Done a, s') => k a s'
    | (Thrown e, s') => (Thrown e, s')
    end.

Definition throw {C A} (e : string) : Eff C A := fun s => (Thrown e, s).

Definition try_catch {C A} (body : Eff C A) (handler : string -> Eff C A) : Eff C A :=
  fun s =>
    match body s with
    | (Done a, s') => (Done a, s')
    | (Thrown e, s') => handler e s'
    end.

Declare Scope eff_scope.
Delimit Scope eff_scope with eff.
Notation "x <- m ;; k" := (bind m (fun x => k))
  (at level 100, m at level 99, right associativity) : eff_scope.
Notation "m ;;; k" := (bind m (fun _ => k))
  (at level 100, right associativity) : eff_scope.
Local Open Scope eff_scope.

Definition emit {C} (e : Event) : Eff C unit :=
  fun s => (Done tt, MkSys (ui s) (db s) (log s ++ [e])).

Definition get_db {C} : Eff C World := fun s => (Done (db s), s).

Definition put_db {C} (w : World) : Eff C unit :=
  fun s => (Done tt, MkSys (ui s) w (log s)).

Definition get_ui {C} : Eff C C := fun s => (Done (ui s), s).

Definition put_ui {C} (c : C) : Eff C unit :=
  fun s => (Done tt, MkSys c (db s) (log s)).

(** A store or provider response that the caller rethrows
    ([if (error) throw error]). *)
Definition or_throw {C A} (r : string + A) : Eff C A :=
  match r with
  | inl e => throw e
  | inr a => ret a
  end.

(** Reading a property of a null state variable throws a TypeError. *)
Definition TypeError_null (property : string) : string :=
  "Cannot read properties of null (reading '" ++ property ++ "')".

Definition non_null {C A} (property : string) (v : option A) : Eff C A :=
  match v with
  | Some a => ret a
  | None => throw (TypeError_null property)
  end.

(** [supabase.auth.getSession()] and [supabase.auth.signOut()]. *)
Definition getSession {C} : Eff C (option string) :=
  fun s => (Done (session (db s)), s).

Definition signOut {C} : Eff C unit :=
  fun s => (Done tt, MkSys (ui s) (set_session None (db s)) (log s)).

(** The identity provider answers sign-in and sign-up with an account id or
    an error message. *)
Record IdentityProvider := {
  signInWithPassword_response : string -> string -> string + string;
  signUp_response : string -> string -> string + string
}.

Definition signInWithPassword {C} (idp : IdentityProvider) (email password : string)
    : Eff C string :=
  match signInWithPassword_response idp email password with
  | inl e => throw e
  | inr uid =>
      fun s => (Done uid, MkSys (ui s) (set_session (Some uid) (db s)) (log s))
  end.

Definition signUp {C} (idp : IdentityProvider) (email password : string)
    : Eff C string :=
  match signUp_response idp email password with
  | inl e => throw e
  | inr uid =>
      fun s => (Done uid,
                MkSys (ui s) (set_accounts ({[uid]} ∪ accounts (db s)) (db s)) (log s))
  end.

(** Reading a table inside a handler. *)
Definition from {C R} (table : World -> gmap string R) : Eff C (gmap string R) :=
  fun s => (Done (table (db s)), s).

Definition insert_into {C R} (table : World -> gmap string R)
    (set_table : gmap string R -> World -> World) (id : string) (row : R) : Eff C unit :=
  t <- from table ;;
  t' <- or_throw (Store.insert id row t) ;;
  w <- get_db ;;
  put_db (set_table t' w).

Definition update_in {C R} (table : World -> gmap string R)
    (set_table : gmap string R -> World -> World) (fields : R -> R) (id : string)
    : Eff C unit :=
  t <- from table ;;
  w <- get_db ;;
  put_db (set_table (Store.update fields id t) w).

(** Deleting a [users] row takes the account of that id with it. *)
Definition delete_user {C} (id : string) : Eff C unit :=
  t <- from users ;;
  w <- get_db ;;
  match t !! id with
  | Some _ =>
      put_db (set_accounts (accounts w ∖ {[id]}) (set_users (Store.delete id t) w))
  | None => put_db (set_users (Store.delete id t) w)
  end.

(** [.delete().eq('id', id)] on a table without dependants. *)
Definition delete_from {C R} (table : World -> gmap string R)
    (set_table : gmap string R -> World -> World) (id : string) : Eff C unit :=
  t <- from table ;;
  w <- get_db ;;
  put_db (set_table (Store.delete id t) w).

(** ** LandingPage.jsx: sign-in and registration *)
Module LandingPage.

Record LoginData := { login_email : string; login_password : string }.

Record SignupData := {
  signup_name : string;
  signup_email : string;
  signup_password : string;
  signup_confirmPassword : string;
  signup_role : string;
  signup_department : string
}.

Record State := { loginData : LoginData; signupData : SignupData }.

Definition blankSignup : SignupData :=
  {| signup_name := ""; signup_email := ""; signup_password := "";
     signup_confirmPassword := ""; signup_role := "user";
     signup_department := "CCS" |}.

Definition setSignupData (v : SignupData) : Eff State unit :=
  st <- get_ui ;;
  put_ui {| loginData := loginData st; signupData := v |}.

(** The effect on mount: a visitor with a session goes to the dashboard. *)
Definition checkUser : Eff State unit :=
  session <- getSession ;;
  match session with
  | Some _ => emit (Navigate "/dashboard")
  | None => ret tt
  end.

Definition pendingMessage : string :=
  "Your account is pending approval from your Program Head".

Definition handleLogin (idp : IdentityProvider) : Eff State unit :=
  st <- get_ui ;;
  let loginData := loginData st in
  if negb (JS.truthy (login_email loginData))
     || negb (JS.truthy (login_password loginData))
  then emit (ToastError "Please enter both email and password")
  else
    emit (ToastLoading "Logging in...") ;;;
    try_catch
      (id <- signInWithPassword idp (login_email loginData)
               (login_password loginData) ;;
       (* Check if user is a super admin (Program Head) *)
       t <- from super_admins ;;
       match Store.maybeSingle (Store.eq_id id t) with
       | Some superAdmin =>
           emit (ToastSuccess "Welcome, Program Head!") ;;;
           emit (Navigate "/super-admin-dashboard")
       | None =>
           (* Check if user is an admin (President Officer) *)
           t <- from admins ;;
           match Store.maybeSingle (Store.eq_id id t) with
           | Some adminProfile =>
               if negb (ad_is_approved (snd adminProfile))
               then signOut ;;; emit (ToastError pendingMessage)
               else
                 emit (ToastSuccess "Welcome, Admin!") ;;;
                 emit (Navigate "/dashboard")
           | None =>
               (* Check if user is a regular user (Student) *)
               t <- from users ;;
               match Store.maybeSingle (Store.eq_id id t) with
               | Some userProfile =>
                   if negb (us_is_approved (snd userProfile))
                   then signOut ;;; emit (ToastError pendingMessage)
                   else
                     emit (ToastSuccess "Login successful!") ;;;
                     emit (Navigate "/dashboard")
               | None =>
                   (* If no profile found in any table *)
                   signOut ;;;
                   emit (ToastError "Account not found. Please sign up first.")
               end
           end
       end)
      (fun message => emit (ToastError message)).

Definition headEmail (department : string) : string :=
  JS.toLowerCase department ++ "-head@spc.edu".

Definition adminEmail (department : string) : string :=
  JS.toLowerCase department ++ "-admin@spc.edu".

(** The three stages of handleSignup: field validation, the role checks
    (email convention, then the occupied-slot lookup), and account and
    profile creation.  A stage yields [false] when it has reported an error
    and the handler returns. *)
Definition validateFields (d : SignupData) : Eff State bool :=
  if negb (JS.truthy (signup_name d)) || negb (JS.truthy (signup_email d))
     || negb (JS.truthy (signup_password d))
     || negb (JS.truthy (signup_confirmPassword d))
  then emit (ToastError "All fields are required") ;;; ret false
  else if negb (signup_password d =? signup_confirmPassword d)
  then emit (ToastError "Passwords do not match") ;;; ret false
  else if (String.length (signup_password d) <? 6)%nat
  then emit (ToastError "Password must be at least 6 characters") ;;; ret false
  else ret true.

Definition validateSuperAdmin (d : SignupData) : Eff State bool :=
  if signup_role d =? "super_admin" then
    let expectedEmail := headEmail (signup_department d) in
    if negb (JS.toLowerCase (signup_email d) =? expectedEmail)
    then
      emit (ToastError ("Program Head email must be " ++ expectedEmail ++ " for "
                        ++ signup_department d ++ " department")) ;;;
      ret false
    else
      t <- from super_admins ;;
      match Store.maybeSingle
              (Store.eq sa_department (signup_department d) (Store.select t)) with
      | Some existingSuperAdmin =>
          emit (ToastError ("A Program Head for " ++ signup_department d
                            ++ " already exists")) ;;;
          ret false
      | None => ret true
      end
  else ret true.

Definition validateAdmin (d : SignupData) : Eff State bool :=
  if signup_role d =? "admin" then
    let expectedEmail := adminEmail (signup_department d) in
    if negb (JS.toLowerCase (signup_email d) =? expectedEmail)
    then
      emit (ToastError ("Admin email must be " ++ expectedEmail ++ " for "
                        ++ signup_department d ++ " department")) ;;;
      ret false
    else
      t <- from admins ;;
      match Store.maybeSingle
              (Store.eq ad_department (signup_department d) (Store.select t)) with
      | Some existingAdmin =>
          emit (ToastError ("An Admin for " ++ signup_department d
                            ++ " already exists")) ;;;
          ret false
      | None => ret true
      end
  else ret true.

Definition createAccount (idp : IdentityProvider) (now : N) (d : SignupData)
    : Eff State unit :=
  emit (ToastLoading "Creating account...") ;;;
  try_catch
    (id <- signUp idp (signup_email d) (signup_password d) ;;
     if signup_role d =? "super_admin" then
       insert_into super_admins set_super_admins id
         {| sa_name := signup_name d; sa_email := signup_email d;
            sa_department := signup_department d |} ;;;
       emit (ToastSuccess "Program Head account created! Please verify your email.") ;;;
       setSignupData blankSignup ;;;
       emit (ToastInfo "Check your email for verification link")
     else if signup_role d =? "admin" then
       insert_into admins set_admins id
         {| ad_name := signup_name d; ad_email := signup_email d;
            ad_department := signup_department d;
            ad_is_approved := false |} ;;;
       emit (ToastSuccess "Admin account created successfully!") ;;;
       setSignupData blankSignup ;;;
       emit (ToastInfo pendingMessage)
     else
       insert_into users set_users id
         {| us_name := signup_name d; us_email := signup_email d;
            us_role := "user"; us_department := signup_department d;
            us_is_approved := false;
            us_approved_by := None; us_approved_at := None;
            us_profile_picture := None;
            us_created_at := now |} ;;;
       emit (ToastSuccess "Account created successfully!") ;;;
       setSignupData blankSignup ;;;
       emit (ToastInfo pendingMessage))
    (fun message => emit (ToastError message)).

Definition handleSignup (idp : IdentityProvider) (now : N) : Eff State unit :=
  st <- get_ui ;;
  let signupData := signupData st in
  ok <- validateFields signupData ;;
  if negb ok then ret tt else
  ok <- validateSuperAdmin signupData ;;
  if negb ok then ret tt else
  ok <- validateAdmin signupData ;;
  if negb ok then ret tt else
  createAccount idp now signupData.

End LandingPage.

(** ** SuperAdminDashboard.jsx: the approval workflow *)
Module SuperAdminDashboard.

Record State := {
  superAdmin : option (Store.Selected SuperAdminRow);
  pendingUsers : list (Store.Selected UserRow);
  approvedUsers : list (Store.Selected UserRow)
}.

Definition initial : State :=
  {| superAdmin := None; pendingUsers := []; approvedUsers := [] |}.

Definition setSuperAdmin (v : Store.Selected SuperAdminRow) : Eff State unit :=
  st <- get_ui ;;
  put_ui {| superAdmin := Some v; pendingUsers := pendingUsers st;
            approvedUsers := approvedUsers st |}.

Definition setUsers (pending approved : list (Store.Selected UserRow))
    : Eff State unit :=
  st <- get_ui ;;
  put_ui {| superAdmin := superAdmin st; pendingUsers := pending;
            approvedUsers := approved |}.

Definition fetchUsers (department : string) : Eff State unit :=
  (* Fetch pending users in this department *)
  t <- from users ;;
  let pending :=
    Store.order (fun r => Some (us_created_at (snd r))) false
      (Store.eq_bool us_is_approved false
         (Store.eq us_department department (Store.select t))) in
  (* Fetch approved users in this department *)
  t <- from users ;;
  let approved :=
    Store.order (fun r => us_approved_at (snd r)) false
      (Store.eq_bool us_is_approved true
         (Store.eq us_department department (Store.select t))) in
  setUsers pending approved.

Definition checkSuperAdmin : Eff State unit :=
  session <- getSession ;;
  match session with
  | None => emit (Navigate "/")
  | Some id =>
      t <- from super_admins ;;
      match Store.single (Store.eq_id id t) with
      | inl _ =>
          emit (ToastError "Unauthorized access") ;;;
          emit (Navigate "/dashboard")
      | inr superAdminData =>
          setSuperAdmin superAdminData ;;;
          fetchUsers (sa_department (snd superAdminData))
      end
  end.

Definition approved (by_id : string) (at_time : N) (r : UserRow) : UserRow :=
  {| us_name := us_name r; us_email := us_email r; us_role := us_role r;
     us_department := us_department r;
     us_is_approved := true;
     us_approved_by := Some by_id;
     us_approved_at := Some at_time;
     us_profile_picture := us_profile_picture r;
     us_created_at := us_created_at r |}.

Definition unapproved (r : UserRow) : UserRow :=
  {| us_name := us_name r; us_email := us_email r; us_role := us_role r;
     us_department := us_department r;
     us_is_approved := false;
     us_approved_by := None;
     us_approved_at := None;
     us_profile_picture := us_profile_picture r;
     us_created_at := us_created_at r |}.

(** [now] is the value of [new Date().toISOString()]. *)
Definition handleApprove (now : N) (userId userName : string) : Eff State unit :=
  emit (ToastLoading ("Approving " ++ userName ++ "...")) ;;;
  try_catch
    (st <- get_ui ;;
     sa <- non_null "id" (superAdmin st) ;;
     update_in users set_users (approved (fst sa) now) userId ;;;
     emit (ToastSuccess (userName ++ " has been approved!")) ;;;
     fetchUsers (sa_department (snd sa)))
    (fun _ => emit (ToastError "Failed to approve user")).

(** [confirmReject] is the answer to the confirmation dialog. *)
Definition handleReject (confirmReject : bool) (userId userName : string)
    : Eff State unit :=
  if negb confirmReject then ret tt else
  emit (ToastLoading ("Rejecting " ++ userName ++ "...")) ;;;
  try_catch
    ((* Delete from users table (this will also delete from auth.users due to CASCADE) *)
     delete_user userId ;;;
     emit (ToastSuccess (userName ++ " has been rejected and removed")) ;;;
     st <- get_ui ;;
     sa <- non_null "department" (superAdmin st) ;;
     fetchUsers (sa_department (snd sa)))
    (fun _ => emit (ToastError "Failed to reject user")).

Definition handleRevokeApproval (confirmRevoke : bool) (userId userName : string)
    : Eff State unit :=
  if negb confirmRevoke then ret tt else
  emit (ToastLoading ("Revoking approval for " ++ userName ++ "...")) ;;;
  try_catch
    (update_in users set_users unapproved userId ;;;
     emit (ToastSuccess ("Approval revoked for " ++ userName)) ;;;
     st <- get_ui ;;
     sa <- non_null "department" (superAdmin st) ;;
     fetchUsers (sa_department (snd sa)))
    (fun _ => emit (ToastError "Failed to revoke approval")).

Definition handleLogout : Eff State unit :=
  signOut ;;;
  emit (Navigate "/") ;;;
  emit (ToastSuccess "Logged out successfully").

End SuperAdminDashboard.

(** ** Posts as the pages hold them

    A fetched post carries its id and columns, the embedded author columns
    [(name, department)] when the query asks for them and the author row
    exists, and the comment count the page adds. *)
Record PostView := {
  pv_id : string;
  pv_row : PostRow;
  pv_author : option (string * string);
  pv_comment_count : nat
}.

Definition embed_author {R} (name department : R -> string) (t : gmap string R)
    (author_id : string) : option (string * string) :=
  match t !! author_id with
  | Some r => Some (name r, department r)
  | None => None
  end.

(** [{ ...post, comment_count: count || 0 }] for each fetched post. *)
Definition postsWithComments (author : string -> option (string * string))
    (cs : gmap string CommentRow) (data : list (Store.Selected PostRow))
    : list PostView :=
  map (fun post =>
         {| pv_id := fst post; pv_row := snd post;
            pv_author := author (po_author_id (snd post));
            pv_comment_count := Store.count_comments (fst post) cs |})
      data.

Definition by_created_at (post : Store.Selected PostRow) : option N :=
  Some (po_created_at (snd post)).

(** [.update({ status })] on a post. *)
Definition with_status (status : string) (r : PostRow) : PostRow :=
  {| po_title := po_title r;
     po_content := po_content r;
     po_type := po_type r;
     po_department := po_department r;
     po_author_id := po_author_id r;
     po_event_date := po_event_date r;
     po_status := status;
     po_created_at := po_created_at r |}.

(** ** AdminPanel (part_000): post management *)
Module AdminPanel.

Record FormData := {
  fd_title : string;
  fd_content : string;
  fd_type : string;
  fd_event_date : string
}.

Definition blankForm : FormData :=
  {| fd_title := ""; fd_content := ""; fd_type := "announcement";
     fd_event_date := "" |}.

Record State := {
  user : option string;
  userProfile : option (Store.Selected UserRow);
  st_posts : list PostView;   (* the state variable [posts] *)
  formData : FormData;
  editingPost : option PostView
}.

Definition initial : State :=
  {| user := None; userProfile := None; st_posts := []; formData := blankForm;
     editingPost := None |}.

Definition setUser (v : string) : Eff State unit :=
  st <- get_ui ;;
  put_ui {| user := Some v; userProfile := userProfile st; st_posts := st_posts st;
            formData := formData st; editingPost := editingPost st |}.

Definition setUserProfile (v : Store.Selected UserRow) : Eff State unit :=
  st <- get_ui ;;
  put_ui {| user := user st; userProfile := Some v; st_posts := st_posts st;
            formData := formData st; editingPost := editingPost st |}.

Definition setPosts (v : list PostView) : Eff State unit :=
  st <- get_ui ;;
  put_ui {| user := user st; userProfile := userProfile st; st_posts := v;
            formData := formData st; editingPost := editingPost st |}.

Definition setFormData (v : FormData) : Eff State unit :=
  st <- get_ui ;;
  put_ui {| user := user st; userProfile := userProfile st; st_posts := st_posts st;
            formData := v; editingPost := editingPost st |}.

Definition setEditingPost (v : option PostView) : Eff State unit :=
  st <- get_ui ;;
  put_ui {| user := user st; userProfile := userProfile st; st_posts := st_posts st;
            formData := formData st; editingPost := v |}.

(** Check authentication and verify admin role. *)
Definition checkAuth : Eff State unit :=
  try_catch
    (session <- getSession ;;
     match session with
     | None => emit (Navigate "/")
     | Some id =>
         setUser id ;;;
         (* Fetch user profile *)
         t <- from users ;;
         profile <- or_throw (Store.single (Store.eq_id id t)) ;;
         (* Check if user is admin *)
         if negb (us_role (snd profile) =? "admin")
         then
           emit (ToastError "Access denied. Admin only.") ;;;
           emit (Navigate "/dashboard")
         else setUserProfile profile
     end)
    (fun _ => emit (Navigate "/")).

(** Fetch admin's posts. *)
Definition fetchPosts : Eff State unit :=
  try_catch
    (st <- get_ui ;;
     profile <- non_null "id" (userProfile st) ;;
     t <- from posts ;;
     let data :=
       Store.order by_created_at false
         (Store.eq po_author_id (fst profile) (Store.select t)) in
     cs <- from comments ;;
     setPosts (postsWithComments (fun _ => None) cs data))
    (fun _ => emit (ToastError "Failed to load posts")).

Definition event_date_of (fd : FormData) : option string :=
  if fd_type fd =? "event" then Some (fd_event_date fd) else None.

(** [store_id] is the primary key the store assigns to the new row and
    [now] its creation time. *)
Definition handleCreatePost (store_id : string) (now : N) : Eff State unit :=
  st <- get_ui ;;
  let formData := formData st in
  if negb (JS.truthy (fd_title formData)) || negb (JS.truthy (fd_content formData))
  then emit (ToastError "Title and content are required")
  else if (fd_type formData =? "event") && negb (JS.truthy (fd_event_date formData))
  then emit (ToastError "Event date is required for events")
  else
    emit (ToastLoading "Creating post...") ;;;
    try_catch
      (profile <- non_null "department" (userProfile st) ;;
       insert_into posts set_posts store_id
         {| po_title := fd_title formData;
            po_content := fd_content formData;
            po_type := fd_type formData;
            po_department := us_department (snd profile);
            po_author_id := fst profile;
            po_event_date := event_date_of formData;
            po_status := "active";
            po_created_at := now |} ;;;
       emit (ToastSuccess "Post created successfully!") ;;;
       setFormData blankForm ;;;
       fetchPosts)
      (fun message => emit (ToastError message)).

Definition edited (fd : FormData) (r : PostRow) : PostRow :=
  {| po_title := fd_title fd;
     po_content := fd_content fd;
     po_type := fd_type fd;
     po_department := po_department r;
     po_author_id := po_author_id r;
     po_event_date := event_date_of fd;
     po_status := po_status r;
     po_created_at := po_created_at r |}.

Definition handleEditPost : Eff State unit :=
  st <- get_ui ;;
  let formData := formData st in
  if negb (JS.truthy (fd_title formData)) || negb (JS.truthy (fd_content formData))
  then emit (ToastError "Title and content are required")
  else if (fd_type formData =? "event") && negb (JS.truthy (fd_event_date formData))
  then emit (ToastError "Event date is required for events")
  else
    emit (ToastLoading "Updating post...") ;;;
    try_catch
      (post <- non_null "id" (editingPost st) ;;
       update_in posts set_posts (edited formData) (pv_id post) ;;;
       emit (ToastSuccess "Post updated successfully!") ;;;
       setEditingPost None ;;;
       setFormData blankForm ;;;
       fetchPosts)
      (fun message => emit (ToastError message)).

(** [confirmed] is the answer to the confirmation dialog. *)
Definition handleDeletePost (confirmed : bool) (postId : string) : Eff State unit :=
  if negb confirmed then ret tt else
  emit (ToastLoading "Deleting post...") ;;;
  try_catch
    (delete_from posts set_posts postId ;;;
     emit (ToastSuccess "Post deleted successfully!") ;;;
     fetchPosts)
    (fun message => emit (ToastError message)).

Definition handleArchivePost (confirmed : bool) (postId : string) : Eff State unit :=
  if negb confirmed then ret tt else
  emit (ToastLoading "Archiving post...") ;;;
  try_catch
    (update_in posts set_posts (with_status "archived") postId ;;;
     emit (ToastSuccess "Post archived successfully!") ;;;
     fetchPosts)
    (fun message => emit (ToastError message)).

(** [isoMinutes d] stands for [new Date(d).toISOString().slice(0, 16)]:
    the first 16 code units of the ISO form when [d] reads as a date, and
    nothing when it does not, in which case [toISOString] throws a
    RangeError.  The handler has no [try], so the error leaves it after
    [setEditingPost] and before [setFormData]. *)
Definition openEditModal (isoMinutes : string -> option string) (post : PostView)
    : Eff State unit :=
  setEditingPost (Some post) ;;;
  event_date <-
    match po_event_date (pv_row post) with
    | Some d =>
        if JS.truthy d then
          match isoMinutes d with
          | Some m => ret m
          | None => throw "Invalid time value"
          end
        else ret ""
    | None => ret ""
    end ;;
  setFormData
    {| fd_title := po_title (pv_row post);
       fd_content := po_content (pv_row post);
       fd_type := po_type (pv_row post);
       fd_event_date := event_date |}.

End AdminPanel.

(** ** Dashboard (part_001): the general feed *)
Module Dashboard.

Record State := {
  user : option string;
  userProfile : option (Store.Selected UserRow);
  st_posts : list PostView;          (* the state variable [posts] *)
  filteredPosts : list PostView;
  selectedDepartment : string
}.

Definition initial : State :=
  {| user := None; userProfile := None; st_posts := []; filteredPosts := [];
     selectedDepartment := "all" |}.

Definition setUser (v : string) : Eff State unit :=
  st <- get_ui ;;
  put_ui {| user := Some v; userProfile := userProfile st;
            st_posts := st_posts st; filteredPosts := filteredPosts st;
            selectedDepartment := selectedDepartment st |}.

Definition setUserProfile (v : Store.Selected UserRow) : Eff State unit :=
  st <- get_ui ;;
  put_ui {| user := user st; userProfile := Some v;
            st_posts := st_posts st; filteredPosts := filteredPosts st;
            selectedDepartment := selectedDepartment st |}.

Definition setPosts (v : list PostView) : Eff State unit :=
  st <- get_ui ;;
  put_ui {| user := user st; userProfile := userProfile st;
            st_posts := v; filteredPosts := filteredPosts st;
            selectedDepartment := selectedDepartment st |}.

Definition setFilteredPosts (v : list PostView) : Eff State unit :=
  st <- get_ui ;;
  put_ui {| user := user st; userProfile := userProfile st;
            st_posts := st_posts st; filteredPosts := v;
            selectedDepartment := selectedDepartment st |}.

Definition setSelectedDepartment (v : string) : Eff State unit :=
  st <- get_ui ;;
  put_ui {| user := user st; userProfile := userProfile st;
            st_posts := st_posts st; filteredPosts := filteredPosts st;
            selectedDepartment := v |}.

Definition checkAuth : Eff State unit :=
  session <- getSession ;;
  match session with
  | None => emit (Navigate "/")
  | Some id =>
      setUser id ;;;
      t <- from users ;;
      match Store.single (Store.eq_id id t) with
      | inl _ => emit (ToastError "Failed to load user profile")
      | inr profile => setUserProfile profile
      end
  end.

Definition fetchPosts : Eff State unit :=
  t <- from posts ;;
  let data :=
    Store.order by_created_at false
      (Store.eq po_status "active" (Store.select t)) in
  us <- from users ;;
  cs <- from comments ;;
  let postsWithComments :=
    postsWithComments (embed_author us_name us_department us) cs data in
  setPosts postsWithComments ;;;
  setFilteredPosts postsWithComments.

(** The effect that follows every change of [selectedDepartment] or
    [posts]. *)
Definition applyDepartmentFilter : Eff State unit :=
  st <- get_ui ;;
  if selectedDepartment st =? "all"
  then setFilteredPosts (st_posts st)
  else
    setFilteredPosts
      (List.filter
         (fun post => po_department (pv_row post) =? selectedDepartment st)
         (st_posts st)).

(** What the page shows once it has mounted for a session: the profile
    is loaded, the posts are fetched and the filter effect has run. *)
Definition mount : Eff State unit :=
  checkAuth ;;;
  st <- get_ui ;;
  match user st with
  | None => ret tt
  | Some _ => fetchPosts ;;; applyDepartmentFilter
  end.

Definition handleDepartmentSelect (dept : string) : Eff State unit :=
  setSelectedDepartment dept.

(** The listener that the page registers with
    [supabase.auth.onAuthStateChange] while it is mounted. *)
Definition onAuthStateChange (event : string) (session : option string)
    : Eff State unit :=
  if event =? "SIGNED_OUT" then emit (Navigate "/")
  else
    match session with
    | Some id => setUser id
    | None => ret tt
    end.

(** [signOut] notifies the page's listener of SIGNED_OUT before it
    returns. *)
Definition handleLogout : Eff State unit :=
  emit (ToastLoading "Logging out...") ;;;
  try_catch
    (signOut ;;;
     onAuthStateChange "SIGNED_OUT" None ;;;
     emit (ToastSuccess "Logged out successfully") ;;;
     emit (Navigate "/"))
    (fun _ => emit (ToastError "Failed to log out")).

Definition truncateText (text : string) (maxLength : nat) : string :=
  if (String.length text <=? maxLength)%nat then text
  else String.substring 0 maxLength text ++ "...".

End Dashboard.

(** ** Archive.jsx: the archive view *)
Module Archive.

(** The profile row of whichever collection the session's id is in. *)
Inductive Profile :=
| SuperAdminProfile (r : Store.Selected SuperAdminRow)
| AdminProfile (r : Store.Selected AdminRow)
| UserProfile (r : Store.Selected UserRow).

Definition profile_id (p : Profile) : string :=
  match p with
  | SuperAdminProfile r => fst r
  | AdminProfile r => fst r
  | UserProfile r => fst r
  end.

Definition profile_department (p : Profile) : string :=
  match p with
  | SuperAdminProfile r => sa_department (snd r)
  | AdminProfile r => ad_department (snd r)
  | UserProfile r => us_department (snd r)
  end.

Record State := {
  user : option string;
  userProfile : option Profile;
  userType : option string;     (* 'user', 'admin', or 'super_admin' *)
  st_posts : list PostView      (* the state variable [posts] *)
}.

Definition initial : State :=
  {| user := None; userProfile := None; userType := None; st_posts := [] |}.

Definition setUser (v : string) : Eff State unit :=
  st <- get_ui ;;
  put_ui {| user := Some v; userProfile := userProfile st;
            userType := userType st; st_posts := st_posts st |}.

Definition setUserProfile (v : Profile) : Eff State unit :=
  st <- get_ui ;;
  put_ui {| user := user st; userProfile := Some v;
            userType := userType st; st_posts := st_posts st |}.

Definition setUserType (v : string) : Eff State unit :=
  st <- get_ui ;;
  put_ui {| user := user st; userProfile := userProfile st;
            userType := Some v; st_posts := st_posts st |}.

Definition setPosts (v : list PostView) : Eff State unit :=
  st <- get_ui ;;
  put_ui {| user := user st; userProfile := userProfile st;
            userType := userType st; st_posts := v |}.

(** Check authentication and determine user type. *)
Definition checkAuth : Eff State unit :=
  session <- getSession ;;
  match session with
  | None => emit (Navigate "/")
  | Some id =>
      setUser id ;;;
      t <- from super_admins ;;
      match Store.maybeSingle (Store.eq_id id t) with
      | Some superAdmin =>
          setUserProfile (SuperAdminProfile superAdmin) ;;;
          setUserType "super_admin"
      | None =>
          t <- from admins ;;
          match Store.maybeSingle (Store.eq_id id t) with
          | Some admin =>
              setUserProfile (AdminProfile admin) ;;;
              setUserType "admin"
          | None =>
              t <- from users ;;
              match Store.maybeSingle (Store.eq_id id t) with
              | Some regularUser =>
                  setUserProfile (UserProfile regularUser) ;;;
                  setUserType "user"
              | None =>
                  emit (ToastError "User profile not found") ;;;
                  emit (Navigate "/")
              end
          end
      end
  end.

Definition is_type (v : option string) (s : string) : bool :=
  match v with
  | Some t => t =? s
  | None => false
  end.

(** Fetch archived posts based on user type. *)
Definition fetchPosts : Eff State unit :=
  try_catch
    (st <- get_ui ;;
     t <- from posts ;;
     let query := Store.eq po_status "archived" (Store.select t) in
     (* Filter based on user type *)
     query <-
       (if is_type (userType st) "admin" then
          (* Admins see only their own archived posts *)
          profile <- non_null "id" (userProfile st) ;;
          ret (Store.eq po_author_id (profile_id profile) query)
        else if is_type (userType st) "user" then
          (* Regular users see archived posts from their department *)
          profile <- non_null "department" (userProfile st) ;;
          ret (Store.eq po_department (profile_department profile) query)
        else
          (* Super admins see all archived posts (no filter) *)
          ret query) ;;
     let data := Store.order by_created_at false query in
     (* admins:author_id (name, department): the row that author_id refers to,
        a users row as in the other pages, under the key 'admins' *)
     us <- from users ;;
     cs <- from comments ;;
     setPosts (postsWithComments (embed_author us_name us_department us) cs data))
    (fun _ => emit (ToastError "Failed to load archived posts")).

(** The page once it has mounted for a session: the posts are fetched only
    when [user], [userProfile] and [userType] are all set. *)
Definition mount : Eff State unit :=
  checkAuth ;;;
  st <- get_ui ;;
  match user st, userProfile st, userType st with
  | Some _, Some _, Some _ => fetchPosts
  | _, _, _ => ret tt
  end.

Definition handleRestorePost (confirmed : bool) (postId : string) : Eff State unit :=
  if negb confirmed then ret tt else
  emit (ToastLoading "Restoring post...") ;;;
  try_catch
    (update_in posts set_posts (with_status "active") postId ;;;
     emit (ToastSuccess "Post restored successfully!") ;;;
     fetchPosts)
    (fun message => emit (ToastError message)).

End Archive.

(** ** PostDetail (part_002): comments *)
Module PostDetail.

Record CommentView := {
  cv_id : string;
  cv_row : CommentRow;
  (* users:user_id (name, department, role, profile_picture) *)
  cv_user : option (string * string * string * option string)
}.

Record State := {
  id : string;                  (* the route parameter *)
  user : option string;
  userProfile : option (Store.Selected UserRow);
  st_comments : list CommentView;   (* the state variable [comments] *)
  newComment : string
}.

Definition setComments (v : list CommentView) : Eff State unit :=
  st <- get_ui ;;
  put_ui {| id := id st; user := user st; userProfile := userProfile st;
            st_comments := v; newComment := newComment st |}.

Definition setNewComment (v : string) : Eff State unit :=
  st <- get_ui ;;
  put_ui {| id := id st; user := user st; userProfile := userProfile st;
            st_comments := st_comments st; newComment := v |}.

Definition fetchComments : Eff State unit :=
  st <- get_ui ;;
  t <- from comments ;;
  us <- from users ;;
  let data :=
    Store.order (fun c : Store.Selected CommentRow => Some (co_created_at (snd c)))
      true (Store.eq co_post_id (id st) (Store.select t)) in
  setComments
    (map (fun c : Store.Selected CommentRow =>
            {| cv_id := fst c; cv_row := snd c;
               cv_user :=
                 match us !! co_user_id (snd c) with
                 | Some u => Some (us_name u, us_department u, us_role u,
                                   us_profile_picture u)
                 | None => None
                 end |})
         data).

(** [store_id] is the primary key the store assigns to the new row and
    [now] its creation time. *)
Definition handleAddComment (store_id : string) (now : N) : Eff State unit :=
  st <- get_ui ;;
  if negb (JS.truthy (JS.trim (newComment st)))
  then emit (ToastError "Comment cannot be empty")
  else
    emit (ToastLoading "Adding comment...") ;;;
    try_catch
      (profile <- non_null "id" (userProfile st) ;;
       insert_into comments set_comments store_id
         {| co_post_id := id st;
            co_user_id := fst profile;
            co_content := JS.trim (newComment st);
            co_created_at := now |} ;;;
       emit (ToastSuccess "Comment added successfully!") ;;;
       setNewComment "" ;;;
       fetchComments)
      (fun message => emit (ToastError message)).

Definition handleDeleteComment (confirmed : bool) (commentId : string)
    : Eff State unit :=
  if negb confirmed then ret tt else
  emit (ToastLoading "Deleting comment...") ;;;
  try_catch
    (delete_from comments set_comments commentId ;;;
     emit (ToastSuccess "Comment deleted successfully!") ;;;
     fetchComments)
    (fun message => emit (ToastError message)).

End PostDetail.

(** ** ProfileSettings (part_002): the viewer's own profile *)
Module ProfileSettings.

Record FormData := { fd_name : string; fd_email : string }.

Record PasswordData := { newPassword : string; confirmPassword : string }.

Record State := {
  user : option string;
  userProfile : option (Store.Selected UserRow);
  formData : FormData;
  passwordData : PasswordData
}.

Definition initial : State :=
  {| user := None; userProfile := None;
     formData := {| fd_name := ""; fd_email := "" |};
     passwordData := {| newPassword := ""; confirmPassword := "" |} |}.

Definition setUser (v : string) : Eff State unit :=
  st <- get_ui ;;
  put_ui {| user := Some v; userProfile := userProfile st;
            formData := formData st; passwordData := passwordData st |}.

Definition setUserProfile (v : Store.Selected UserRow) : Eff State unit :=
  st <- get_ui ;;
  put_ui {| user := user st; userProfile := Some v;
            formData := formData st; passwordData := passwordData st |}.

Definition setFormData (v : FormData) : Eff State unit :=
  st <- get_ui ;;
  put_ui {| user := user st; userProfile := userProfile st;
            formData := v; passwordData := passwordData st |}.

Definition setPasswordData (v : PasswordData) : Eff State unit :=
  st <- get_ui ;;
  put_ui {| user := user st; userProfile := userProfile st;
            formData := formData st; passwordData := v |}.

Definition checkAuth : Eff State unit :=
  try_catch
    (session <- getSession ;;
     match session with
     | None => emit (Navigate "/")
     | Some id =>
         setUser id ;;;
         t <- from users ;;
         profile <- or_throw (Store.single (Store.eq_id id t)) ;;
         setUserProfile profile ;;;
         setFormData {| fd_name := us_name (snd profile);
                        fd_email := us_email (snd profile) |}
     end)
    (fun _ => emit (Navigate "/")).

(** [.update({ name })] on a users row, and [{ ...userProfile, name }]. *)
Definition with_name (name : string) (r : UserRow) : UserRow :=
  {| us_name := name; us_email := us_email r; us_role := us_role r;
     us_department := us_department r;
     us_is_approved := us_is_approved r;
     us_approved_by := us_approved_by r;
     us_approved_at := us_approved_at r;
     us_profile_picture := us_profile_picture r;
     us_created_at := us_created_at r |}.

Definition handleUpdateProfile : Eff State unit :=
  st <- get_ui ;;
  if negb (JS.truthy (fd_name (formData st)))
  then emit (ToastError "Name is required")
  else
    emit (ToastLoading "Updating profile...") ;;;
    try_catch
      (profile <- non_null "id" (userProfile st) ;;
       update_in users set_users (with_name (fd_name (formData st))) (fst profile) ;;;
       setUserProfile (fst profile, with_name (fd_name (formData st)) (snd profile)) ;;;
       emit (ToastSuccess "Profile updated successfully!"))
      (fun message => emit (ToastError message)).

(** [updateUser_response] is the identity provider's answer to
    [supabase.auth.updateUser({ password })]: an error message, or none. *)
Definition handleChangePassword (updateUser_response : string -> option string)
    : Eff State unit :=
  st <- get_ui ;;
  let passwordData := passwordData st in
  if negb (JS.truthy (newPassword passwordData))
     || negb (JS.truthy (confirmPassword passwordData))
  then emit (ToastError "Please fill in all password fields")
  else if (String.length (newPassword passwordData) <? 6)%nat
  then emit (ToastError "Password must be at least 6 characters")
  else if negb (newPassword passwordData =? confirmPassword passwordData)
  then emit (ToastError "Passwords do not match")
  else
    emit (ToastLoading "Changing password...") ;;;
    try_catch
      (match updateUser_response (newPassword passwordData) with
       | Some e => throw e
       | None => ret tt
       end ;;;
       emit (ToastSuccess "Password changed successfully!") ;;;
       setPasswordData {| newPassword := ""; confirmPassword := "" |})
      (fun message => emit (ToastError message)).

(** The storage path of a profile picture.  [split sep s] is
    [s.split(sep)] for a one-character separator, [slice_last n l] is
    [l.slice(-n)] and [join sep l] is [l.join(sep)]. *)
Fixpoint split (sep : ascii) (s : string) : list string :=
  match s with
  | EmptyString => [EmptyString]
  | String c s' =>
      if Ascii.eqb c sep then EmptyString :: split sep s'
      else
        match split sep s' with
        | w :: ws => String c w :: ws
        | [] => [String c EmptyString]
        end
  end.

Definition slice_last {A} (n : nat) (l : list A) : list A :=
  skipn (length l - n) l.

Fixpoint join (sep : string) (l : list string) : string :=
  match l with
  | [] => EmptyString
  | [w] => w
  | w :: ws => w ++ sep ++ join sep ws
  end.

(** [file.name.split('.').pop()] *)
Definition fileExt (name : string) : string :=
  List.last (split "." name) EmptyString.

(** [`${userProfile.id}/${Date.now()}.${fileExt}`], with [stamp] the decimal
    numeral of [Date.now()]. *)
Definition fileName (id stamp ext : string) : string :=
  id ++ "/" ++ stamp ++ "." ++ ext.

(** [userProfile.profile_picture.split('/').slice(-2).join('/')] *)
Definition oldPath (profile_picture : string) : string :=
  join "/" (slice_last 2 (split "/" profile_picture)).

End ProfileSettings.

(** * Specification vocabulary and sample data *)

Ltac eff_unfold :=
  unfold insert_into, update_in, delete_user in *;
  unfold or_throw, non_null in *;
  unfold bind, ret, throw, try_catch, emit, get_db, put_db, get_ui, put_ui,
    getSession, signOut, from in *.

(** The system after a sign-in attempt that got as far as the identity
    provider: the session as given, the tables as they were, and the events
    after the loading toast. *)
Definition after_login (s : Sys LandingPage.State) (session : option string)
    (events : list Event) : Outcome unit * Sys LandingPage.State :=
  (Done tt,
   MkSys (ui s) (set_session session (db s))
     (log s ++ ToastLoading "Logging in..." :: events)).

Definition sample_idp : IdentityProvider :=
  {| signInWithPassword_response :=
       fun email password =>
         if email =? "ccs-admin@spc.edu" then inr "acct-1"
         else inl "Invalid login credentials";
     signUp_response := fun email password => inr "acct-2" |}.

Definition sample_admin : AdminRow :=
  {| ad_name := "Ana"; ad_email := "ccs-admin@spc.edu";
     ad_department := "CCS"; ad_is_approved := false |}.

Definition sample_world : World :=
  {| accounts := {["acct-1"]};
     session := None;
     super_admins := ∅;
     admins :=
       {[ "acct-1" := sample_admin ]};
     users := ∅; posts := ∅; comments := ∅ |}.

Definition sample_login : Sys LandingPage.State :=
  MkSys
    {| LandingPage.loginData :=
         {| LandingPage.login_email := "ccs-admin@spc.edu";
            LandingPage.login_password := "secret1" |};
       LandingPage.signupData := LandingPage.blankSignup |}
    sample_world [].

(** The field validation that handleSignup runs before any role check. *)
Definition valid_fields (d : LandingPage.SignupData) : Prop :=
  LandingPage.signup_name d <> ""
  /\ LandingPage.signup_email d <> ""
  /\ LandingPage.signup_password d <> ""
  /\ LandingPage.signup_confirmPassword d = LandingPage.signup_password d
  /\ 6 <= String.length (LandingPage.signup_password d).

(** The reports of the error taxonomy, as the handler words them. *)
Definition AdminEmailConventionError (d : LandingPage.SignupData) : Event :=
  ToastError ("Admin email must be "
              ++ LandingPage.adminEmail (LandingPage.signup_department d)
              ++ " for " ++ LandingPage.signup_department d ++ " department").

Definition DuplicateAdminError (d : LandingPage.SignupData) : Event :=
  ToastError ("An Admin for " ++ LandingPage.signup_department d ++ " already exists").

Definition newAdminRow (d : LandingPage.SignupData) : AdminRow :=
  {| ad_name := LandingPage.signup_name d;
     ad_email := LandingPage.signup_email d;
     ad_department := LandingPage.signup_department d;
     ad_is_approved := false |}.

Definition admin_registered (s : Sys LandingPage.State)
    (d : LandingPage.SignupData) (id : string) : Sys LandingPage.State :=
  MkSys
    {| LandingPage.loginData := LandingPage.loginData (ui s);
       LandingPage.signupData := LandingPage.blankSignup |}
    (set_admins (<[id := newAdminRow d]> (admins (db s)))
       (set_accounts ({[id]} ∪ accounts (db s)) (db s)))
    (log s ++ [ToastLoading "Creating account...";
               ToastSuccess "Admin account created successfully!";
               ToastInfo LandingPage.pendingMessage]).

Definition reported {C} (s : Sys C) (e : Event) : Sys C :=
  MkSys (ui s) (db s) (log s ++ [e]).

Definition empty_world : World :=
  {| accounts := ∅; session := None; super_admins := ∅; admins := ∅;
     users := ∅; posts := ∅; comments := ∅ |}.

Definition signup_sys (d : LandingPage.SignupData) (w : World)
    : Sys LandingPage.State :=
  MkSys
    {| LandingPage.loginData :=
         {| LandingPage.login_email := ""; LandingPage.login_password := "" |};
       LandingPage.signupData := d |}
    w [].

(** Scenario A: the CCS admin registers with a conforming email. *)
Definition scenarioA_form : LandingPage.SignupData :=
  {| LandingPage.signup_name := "Ana";
     LandingPage.signup_email := "CCS-Admin@spc.edu";
     LandingPage.signup_password := "secret1";
     LandingPage.signup_confirmPassword := "secret1";
     LandingPage.signup_role := "admin";
     LandingPage.signup_department := "CCS" |}.

Definition scenarioA : Sys LandingPage.State := signup_sys scenarioA_form empty_world.

Definition short_password_form : LandingPage.SignupData :=
  {| LandingPage.signup_name := "Ana";
     LandingPage.signup_email := "ana@spc.edu";
     LandingPage.signup_password := "abc";
     LandingPage.signup_confirmPassword := "abc";
     LandingPage.signup_role := "admin";
     LandingPage.signup_department := "CCS" |}.

Definition two_admins_world : World :=
  set_admins
    {[ "acct-7" := sample_admin;
       "acct-8" := {| ad_name := "Ben"; ad_email := "ccs-admin@spc.edu";
                      ad_department := "CCS"; ad_is_approved := true |} ]}
    empty_world.

Definition refusing_idp : IdentityProvider :=
  {| signInWithPassword_response := fun _ _ => inl "Invalid login credentials";
     signUp_response := fun _ _ => inl "User already registered" |}.

(** The two listings fetchUsers computes from the users table. *)
Definition pending_of (department : string) (t : gmap string UserRow)
    : list (Store.Selected UserRow) :=
  Store.order (fun r : Store.Selected UserRow => Some (us_created_at (snd r))) false
    (Store.eq_bool us_is_approved false
       (Store.eq us_department department (Store.select t))).

Definition approved_of (department : string) (t : gmap string UserRow)
    : list (Store.Selected UserRow) :=
  Store.order (fun r : Store.Selected UserRow => us_approved_at (snd r)) false
    (Store.eq_bool us_is_approved true
       (Store.eq us_department department (Store.select t))).

Definition listed (department : string) (st : SuperAdminDashboard.State)
    (t : gmap string UserRow) : SuperAdminDashboard.State :=
  {| SuperAdminDashboard.superAdmin := SuperAdminDashboard.superAdmin st;
     SuperAdminDashboard.pendingUsers := pending_of department t;
     SuperAdminDashboard.approvedUsers := approved_of department t |}.

(** The store after [.delete().eq('id', userId)] on users. *)
Definition rejected (userId : string) (w : World) : World :=
  match users w !! userId with
  | Some _ =>
      set_accounts (accounts w ∖ {[userId]})
        (set_users (Store.delete userId (users w)) w)
  | None => set_users (Store.delete userId (users w)) w
  end.

(** The state the handlers leave: the new store, the listings refreshed for
    the super admin's department when there is one, and the events. *)
Definition refreshed (s : Sys SuperAdminDashboard.State) (w : World)
    (events : list Event) (failure : string) : Sys SuperAdminDashboard.State :=
  match SuperAdminDashboard.superAdmin (ui s) with
  | Some sa =>
      MkSys (listed (sa_department (snd sa)) (ui s) (users w)) w (log s ++ events)
  | None => MkSys (ui s) w (log s ++ events ++ [ToastError failure])
  end.

(** approve followed by revoke, as one run. *)
Definition approve_then_revoke (now : N) (userId userName : string)
    : Eff SuperAdminDashboard.State unit :=
  SuperAdminDashboard.handleApprove now userId userName ;;;
  SuperAdminDashboard.handleRevokeApproval true userId userName.

Definition sample_head : Store.Selected SuperAdminRow :=
  ("head-ccs",
   {| sa_name := "Prof. Cruz"; sa_email := "ccs-head@spc.edu";
      sa_department := "CCS" |}).

Definition sample_student (department : string) : UserRow :=
  {| us_name := "Lia"; us_email := "lia@spc.edu"; us_role := "user";
     us_department := department; us_is_approved := false;
     us_approved_by := None; us_approved_at := None;
     us_profile_picture := None; us_created_at := 10 |}.

Definition dashboard_sys (department : string) : Sys SuperAdminDashboard.State :=
  MkSys
    {| SuperAdminDashboard.superAdmin := Some sample_head;
       SuperAdminDashboard.pendingUsers := [];
       SuperAdminDashboard.approvedUsers := [] |}
    {| accounts := {["head-ccs"; "stu-1"]};
       session := Some "head-ccs";
       super_admins := {[ "head-ccs" := snd sample_head ]};
       admins := ∅;
       users := {[ "stu-1" := sample_student department ]};
       posts := ∅; comments := ∅ |}
    [].

Definition ced_admin_world : World :=
  set_admins
    {[ "adm-ced" := {| ad_name := "Ced"; ad_email := "ced-admin@spc.edu";
                       ad_department := "CED"; ad_is_approved := false |} ]}
    (db (dashboard_sys "CCS")).

(** The program head's dashboard over a store that also holds an approved
    AdminProfile of the head's own department. *)
Definition approved_admin_sys : Sys SuperAdminDashboard.State :=
  MkSys (ui (dashboard_sys "CCS"))
    (set_admins
       {[ "adm-ccs" := {| ad_name := "Ana"; ad_email := "ccs-admin@spc.edu";
                          ad_department := "CCS"; ad_is_approved := true |} ]}
       (db (dashboard_sys "CCS")))
    [].

Definition is_failure_report (e : Event) : bool :=
  match e with
  | ToastError _ => true
  | _ => false
  end.

(** The approval-workflow operations of the dashboard. *)
Inductive ApprovalOp :=
| ListProfiles (department : string)
| Approve (now : N) (userId userName : string)
| Reject (confirmReject : bool) (userId userName : string)
| Revoke (confirmRevoke : bool) (userId userName : string).

Definition run_op (op : ApprovalOp) : Eff SuperAdminDashboard.State unit :=
  match op with
  | ListProfiles department => SuperAdminDashboard.fetchUsers department
  | Approve now userId userName => SuperAdminDashboard.handleApprove now userId userName
  | Reject c userId userName => SuperAdminDashboard.handleReject c userId userName
  | Revoke c userId userName => SuperAdminDashboard.handleRevokeApproval c userId userName
  end.

(** The same system with other contents in admins and super_admins. *)
Definition with_other_profiles (a : gmap string AdminRow)
    (sa : gmap string SuperAdminRow) (s : Sys SuperAdminDashboard.State)
    : Sys SuperAdminDashboard.State :=
  MkSys (ui s) (set_super_admins sa (set_admins a (db s))) (log s).

Definition admin_posts (profile : Store.Selected UserRow) (w : World) : list PostView :=
  postsWithComments (fun _ => None) (comments w)
    (Store.order by_created_at false
       (Store.eq po_author_id (fst profile) (Store.select (posts w)))).

(** The form passes the checks of handleCreatePost and handleEditPost. *)
Definition form_accepted (fd : AdminPanel.FormData) : bool :=
  JS.truthy (AdminPanel.fd_title fd) && JS.truthy (AdminPanel.fd_content fd)
  && negb ((AdminPanel.fd_type fd =? "event")
           && negb (JS.truthy (AdminPanel.fd_event_date fd))).

Definition form_rejection (fd : AdminPanel.FormData) : Event :=
  if negb (JS.truthy (AdminPanel.fd_title fd))
     || negb (JS.truthy (AdminPanel.fd_content fd))
  then ToastError "Title and content are required"
  else ToastError "Event date is required for events".

Definition new_post (fd : AdminPanel.FormData) (profile : Store.Selected UserRow)
    (now : N) : PostRow :=
  {| po_title := AdminPanel.fd_title fd;
     po_content := AdminPanel.fd_content fd;
     po_type := AdminPanel.fd_type fd;
     po_department := us_department (snd profile);
     po_author_id := fst profile;
     po_event_date := AdminPanel.event_date_of fd;
     po_status := "active";
     po_created_at := now |}.

Definition created (store_id : string) (now : N) (s : Sys AdminPanel.State)
    : Sys AdminPanel.State :=
  match AdminPanel.userProfile (ui s), posts (db s) !! store_id with
  | Some profile, None =>
      MkSys
        {| AdminPanel.user := AdminPanel.user (ui s);
           AdminPanel.userProfile := Some profile;
           AdminPanel.st_posts :=
             admin_posts profile
               (set_posts
                  (<[store_id := new_post (AdminPanel.formData (ui s)) profile now]>
                     (posts (db s)))
                  (db s));
           AdminPanel.formData := AdminPanel.blankForm;
           AdminPanel.editingPost := AdminPanel.editingPost (ui s) |}
        (set_posts
           (<[store_id := new_post (AdminPanel.formData (ui s)) profile now]>
              (posts (db s)))
           (db s))
        (log s ++ [ToastLoading "Creating post...";
                   ToastSuccess "Post created successfully!"])
  | Some _, Some _ =>
      MkSys (ui s) (db s)
        (log s ++ [ToastLoading "Creating post...";
                   ToastError "duplicate key value violates unique constraint"])
  | None, _ =>
      MkSys (ui s) (db s)
        (log s ++ [ToastLoading "Creating post...";
                   ToastError (TypeError_null "department")])
  end.

Definition edit_applied (s : Sys AdminPanel.State) : Sys AdminPanel.State :=
  match AdminPanel.editingPost (ui s) with
  | Some post =>
      let w :=
        set_posts
          (Store.update (AdminPanel.edited (AdminPanel.formData (ui s))) (pv_id post)
             (posts (db s)))
          (db s) in
      match AdminPanel.userProfile (ui s) with
      | Some profile =>
          MkSys
            {| AdminPanel.user := AdminPanel.user (ui s);
               AdminPanel.userProfile := Some profile;
               AdminPanel.st_posts := admin_posts profile w;
               AdminPanel.formData := AdminPanel.blankForm;
               AdminPanel.editingPost := None |}
            w
            (log s ++ [ToastLoading "Updating post...";
                       ToastSuccess "Post updated successfully!"])
      | None =>
          MkSys
            {| AdminPanel.user := AdminPanel.user (ui s);
               AdminPanel.userProfile := None;
               AdminPanel.st_posts := AdminPanel.st_posts (ui s);
               AdminPanel.formData := AdminPanel.blankForm;
               AdminPanel.editingPost := None |}
            w
            (log s ++ [ToastLoading "Updating post...";
                       ToastSuccess "Post updated successfully!";
                       ToastError "Failed to load posts"])
      end
  | None =>
      MkSys (ui s) (db s)
        (log s ++ [ToastLoading "Updating post...";
                   ToastError (TypeError_null "id")])
  end.

(** The event-date invariant of a stored post: event_date is non-null
    exactly when the type is 'event', and then it is the non-empty date that
    was entered. *)
Definition event_date_ok (r : PostRow) : Prop :=
  match po_event_date r with
  | Some d => po_type r = "event" /\ d <> ""
  | None => po_type r <> "event"
  end.

(** Post creation and post editing. *)
Inductive PostOp :=
| CreatePost (store_id : string) (now : N)
| EditPost.

Definition run_post_op (op : PostOp) : Eff AdminPanel.State unit :=
  match op with
  | CreatePost store_id now => AdminPanel.handleCreatePost store_id now
  | EditPost => AdminPanel.handleEditPost
  end.

Definition panel_sys (fd : AdminPanel.FormData) : Sys AdminPanel.State :=
  MkSys
    {| AdminPanel.user := Some "adm-1";
       AdminPanel.userProfile :=
         Some ("adm-1",
               {| us_name := "Ana"; us_email := "ana@spc.edu"; us_role := "admin";
                  us_department := "CCS"; us_is_approved := true;
                  us_approved_by := None; us_approved_at := None;
                  us_profile_picture := None; us_created_at := 1 |});
       AdminPanel.st_posts := [];
       AdminPanel.formData := fd;
       AdminPanel.editingPost := None |}
    empty_world [].

Definition with_user (id : string) (st : AdminPanel.State) : AdminPanel.State :=
  {| AdminPanel.user := Some id;
     AdminPanel.userProfile := AdminPanel.userProfile st;
     AdminPanel.st_posts := AdminPanel.st_posts st;
     AdminPanel.formData := AdminPanel.formData st;
     AdminPanel.editingPost := AdminPanel.editingPost st |}.

Definition with_profile (id : string) (r : UserRow) (st : AdminPanel.State)
    : AdminPanel.State :=
  {| AdminPanel.user := Some id;
     AdminPanel.userProfile := Some (id, r);
     AdminPanel.st_posts := AdminPanel.st_posts st;
     AdminPanel.formData := AdminPanel.formData st;
     AdminPanel.editingPost := AdminPanel.editingPost st |}.

(** The panel state with the form filled in. *)
Definition filled (fd : AdminPanel.FormData) (s : Sys AdminPanel.State)
    : Sys AdminPanel.State :=
  snd (AdminPanel.setFormData fd s).

(** The department admin of [sample_world], signed in: the account is in
    admins only. *)
Definition admin_session : Sys AdminPanel.State :=
  MkSys AdminPanel.initial (set_session (Some "acct-1") sample_world) [].

Definition feed_posts (w : World) : list PostView :=
  postsWithComments (embed_author us_name us_department (users w)) (comments w)
    (Store.order by_created_at false
       (Store.eq po_status "active" (Store.select (posts w)))).

Definition shown (selected : string) (l : list PostView) : list PostView :=
  if selected =? "all" then l
  else List.filter (fun post => po_department (pv_row post) =? selected) l.

Definition archive_posts_of_user (profile : Store.Selected UserRow) (w : World)
    : list PostView :=
  postsWithComments (embed_author us_name us_department (users w)) (comments w)
    (Store.order by_created_at false
       (Store.eq po_department (us_department (snd profile))
          (Store.eq po_status "archived" (Store.select (posts w))))).

Definition approved_student (department : string) : UserRow :=
  {| us_name := "Lia"; us_email := "lia@spc.edu"; us_role := "user";
     us_department := department; us_is_approved := true;
     us_approved_by := Some "head-ccs"; us_approved_at := Some 20%N;
     us_profile_picture := None; us_created_at := 10 |}.

Definition ced_post (status : string) : PostRow :=
  {| po_title := "Practice teaching"; po_content := "Schedules are out";
     po_type := "announcement"; po_department := "CED";
     po_author_id := "adm-ced"; po_event_date := None;
     po_status := status; po_created_at := 30 |}.

Definition ccs_post (status : string) : PostRow :=
  {| po_title := "Hackathon"; po_content := "Results are in";
     po_type := "event"; po_department := "CCS";
     po_author_id := "adm-ccs"; po_event_date := Some "2025-03-01T09:00";
     po_status := status; po_created_at := 25 |}.

Definition feed_world : World :=
  {| accounts := {["stu-1"]};
     session := Some "stu-1";
     super_admins := ∅; admins := ∅;
     users := {[ "stu-1" := approved_student "CCS" ]};
     posts := {[ "post-ced" := ced_post "active";
                 "post-old" := ced_post "archived";
                 "post-ccs" := ccs_post "archived" ]};
     comments := ∅ |}.

Definition new_comment (s : Sys PostDetail.State) (profile : Store.Selected UserRow)
    (now : N) : CommentRow :=
  {| co_post_id := PostDetail.id (ui s);
     co_user_id := fst profile;
     co_content := JS.trim (PostDetail.newComment (ui s));
     co_created_at := now |}.

(** What a run of handleSignup can do to the store. *)
Inductive signup_effect (d : LandingPage.SignupData) (now : N) (w : World)
    : World -> Prop :=
| signup_nothing : signup_effect d now w w
| signup_account_only (id : string) :
    signup_effect d now w (set_accounts ({[id]} ∪ accounts w) w)
| signup_super_admin (id : string) :
    LandingPage.signup_role d = "super_admin" ->
    Store.maybeSingle
      (Store.eq sa_department (LandingPage.signup_department d)
         (Store.select (super_admins w))) = None ->
    super_admins w !! id = None ->
    signup_effect d now w
      (set_super_admins
         (<[id := {| sa_name := LandingPage.signup_name d;
                     sa_email := LandingPage.signup_email d;
                     sa_department := LandingPage.signup_department d |}]>
            (super_admins w))
         (set_accounts ({[id]} ∪ accounts w) w))
| signup_admin (id : string) :
    LandingPage.signup_role d = "admin" ->
    Store.maybeSingle
      (Store.eq ad_department (LandingPage.signup_department d)
         (Store.select (admins w))) = None ->
    admins w !! id = None ->
    signup_effect d now w
      (set_admins (<[id := newAdminRow d]> (admins w))
         (set_accounts ({[id]} ∪ accounts w) w))
| signup_user (id : string) :
    LandingPage.signup_role d <> "super_admin" ->
    LandingPage.signup_role d <> "admin" ->
    users w !! id = None ->
    signup_effect d now w
      (set_users
         (<[id := {| us_name := LandingPage.signup_name d;
                     us_email := LandingPage.signup_email d;
                     us_role := "user";
                     us_department := LandingPage.signup_department d;
                     us_is_approved := false;
                     us_approved_by := None; us_approved_at := None;
                     us_profile_picture := None;
                     us_created_at := now |}]>
            (users w))
         (set_accounts ({[id]} ∪ accounts w) w)).

(** The store a run of handleSignup leaves. *)
Definition after_signup (idp : IdentityProvider) (now : N)
    (s : Sys LandingPage.State) : World :=
  db (snd (LandingPage.handleSignup idp now s)).

(** At most one profile of the collection per department. *)
Definition one_per_department {R} (department : R -> string)
    (t : gmap string R) : Prop :=
  forall k1 k2 r1 r2,
    t !! k1 = Some r1 -> t !! k2 = Some r2 ->
    department r1 = department r2 -> k1 = k2.

(** The reports of the field validation. *)
Definition field_errors : list string :=
  ["All fields are required"; "Passwords do not match";
   "Password must be at least 6 characters"].

Definition newUserRow (d : LandingPage.SignupData) (now : N) : UserRow :=
  {| us_name := LandingPage.signup_name d;
     us_email := LandingPage.signup_email d;
     us_role := "user";
     us_department := LandingPage.signup_department d;
     us_is_approved := false;
     us_approved_by := None; us_approved_at := None;
     us_profile_picture := None;
     us_created_at := now |}.

Definition newSuperAdminRow (d : LandingPage.SignupData) : SuperAdminRow :=
  {| sa_name := LandingPage.signup_name d;
     sa_email := LandingPage.signup_email d;
     sa_department := LandingPage.signup_department d |}.

Definition HeadEmailConventionError (d : LandingPage.SignupData) : Event :=
  ToastError ("Program Head email must be "
              ++ LandingPage.headEmail (LandingPage.signup_department d)
              ++ " for " ++ LandingPage.signup_department d ++ " department").

Definition DuplicateHeadError (d : LandingPage.SignupData) : Event :=
  ToastError ("A Program Head for " ++ LandingPage.signup_department d
              ++ " already exists").

(** A sign-in form with the given credentials, over a store. *)
Definition login_sys (email password : string) (w : World) : Sys LandingPage.State :=
  MkSys
    {| LandingPage.loginData :=
         {| LandingPage.login_email := email; LandingPage.login_password := password |};
       LandingPage.signupData := LandingPage.blankSignup |}
    w [].

Definition student_form : LandingPage.SignupData :=
  {| LandingPage.signup_name := "Lia";
     LandingPage.signup_email := "ccs-admin@spc.edu";
     LandingPage.signup_password := "secret1";
     LandingPage.signup_confirmPassword := "secret1";
     LandingPage.signup_role := "user";
     LandingPage.signup_department := "COE" |}.

Definition head_form (email : string) : LandingPage.SignupData :=
  {| LandingPage.signup_name := "Prof. Cruz";
     LandingPage.signup_email := email;
     LandingPage.signup_password := "secret1";
     LandingPage.signup_confirmPassword := "secret1";
     LandingPage.signup_role := "super_admin";
     LandingPage.signup_department := "CCS" |}.

Definition head_idp : IdentityProvider :=
  {| signInWithPassword_response := fun _ _ => inr "head-ccs";
     signUp_response := fun _ _ => inr "head-ccs" |}.

(** The account has a profile that lets it in: a super_admins row, or an
    approved admins or users row. *)
Definition has_entry (w : World) (id : string) : Prop :=
  is_Some (super_admins w !! id)
  \/ (exists a, admins w !! id = Some a /\ ad_is_approved a = true)
  \/ (exists u, users w !! id = Some u /\ us_is_approved u = true).

(** [x] comes no later than [y] in the requested order. *)
Definition in_order (ascending : bool) (a b : option N) : Prop :=
  if ascending then Store.key_ge b a = true else Store.key_ge a b = true.

Definition student_idp : IdentityProvider :=
  {| signInWithPassword_response := fun _ _ => inr "stu-1";
     signUp_response := fun _ _ => inl "User already registered" |}.

Definition relisted (s : Sys AdminPanel.State) (w : World) (events : list Event)
    : Sys AdminPanel.State :=
  match AdminPanel.userProfile (ui s) with
  | Some profile =>
      MkSys
        {| AdminPanel.user := AdminPanel.user (ui s);
           AdminPanel.userProfile := Some profile;
           AdminPanel.st_posts := admin_posts profile w;
           AdminPanel.formData := AdminPanel.formData (ui s);
           AdminPanel.editingPost := AdminPanel.editingPost (ui s) |}
        w (log s ++ events)
  | None => MkSys (ui s) w (log s ++ events ++ [ToastError "Failed to load posts"])
  end.

Definition ccs_panel (w : World) : Sys AdminPanel.State :=
  MkSys
    {| AdminPanel.user := Some "adm-ccs";
       AdminPanel.userProfile :=
         Some ("adm-ccs",
               {| us_name := "Ana"; us_email := "ana@spc.edu"; us_role := "admin";
                  us_department := "CCS"; us_is_approved := true;
                  us_approved_by := None; us_approved_at := None;
                  us_profile_picture := None; us_created_at := 1 |});
       AdminPanel.st_posts := [];
       AdminPanel.formData := AdminPanel.blankForm;
       AdminPanel.editingPost := None |}
    w [].

Definition event_form : AdminPanel.FormData :=
  {| AdminPanel.fd_title := "Fair"; AdminPanel.fd_content := "Come";
     AdminPanel.fd_type := "event";
     AdminPanel.fd_event_date := "2025-01-01T10:00" |}.

(** The archive page over the store a panel run has left. *)
Definition archive_over (a : Archive.State) (s : Sys AdminPanel.State)
    : Sys Archive.State :=
  MkSys a (db s) [].

(** The panel once the edit modal has been opened on a post. *)
Definition opened (isoMinutes : string -> option string) (post : PostView)
    (s : Sys AdminPanel.State) : Sys AdminPanel.State :=
  snd (AdminPanel.openEditModal isoMinutes post s).

(** The comments of a post as PostDetail lists them. *)
Definition comment_views (post_id : string) (w : World) : list PostDetail.CommentView :=
  map (fun c : Store.Selected CommentRow =>
         {| PostDetail.cv_id := fst c; PostDetail.cv_row := snd c;
            PostDetail.cv_user :=
              match users w !! co_user_id (snd c) with
              | Some u => Some (us_name u, us_department u, us_role u,
                                us_profile_picture u)
              | None => None
              end |})
      (Store.order (fun c : Store.Selected CommentRow => Some (co_created_at (snd c)))
         true (Store.eq co_post_id post_id (Store.select (comments w)))).

(** The page after an operation left the store [w], reported [events] and
    reloaded the comments, with [draft] in the comment box. *)
Definition reloaded (s : Sys PostDetail.State) (w : World) (events : list Event)
    (draft : string) : Sys PostDetail.State :=
  MkSys
    {| PostDetail.id := PostDetail.id (ui s);
       PostDetail.user := PostDetail.user (ui s);
       PostDetail.userProfile := PostDetail.userProfile (ui s);
       PostDetail.st_comments := comment_views (PostDetail.id (ui s)) w;
       PostDetail.newComment := draft |}
    w (log s ++ events)%list.

Definition comment_sys (draft : string) : Sys PostDetail.State :=
  MkSys
    {| PostDetail.id := "post-ced"; PostDetail.user := Some "stu-1";
       PostDetail.userProfile := Some ("stu-1", approved_student "CCS");
       PostDetail.st_comments := [];
       PostDetail.newComment := draft |}
    feed_world [].

(** [contains c s]: the code unit [c] occurs in [s]. *)
Fixpoint contains (c : ascii) (s : string) : bool :=
  match s with
  | EmptyString => false
  | String c' s' => Ascii.eqb c' c || contains c s'
  end.

Definition profile_sys (id : string) (r : UserRow) (name : string)
    : Sys ProfileSettings.State :=
  MkSys
    {| ProfileSettings.user := Some id;
       ProfileSettings.userProfile := Some (id, r);
       ProfileSettings.formData :=
         {| ProfileSettings.fd_name := name;
            ProfileSettings.fd_email := "someone.else@spc.edu" |};
       ProfileSettings.passwordData :=
         {| ProfileSettings.newPassword := ""; ProfileSettings.confirmPassword := "" |} |}
    feed_world [].

Definition password_sys (newPassword confirmPassword : string)
    : Sys ProfileSettings.State :=
  MkSys
    {| ProfileSettings.user := Some "stu-1";
       ProfileSettings.userProfile := Some ("stu-1", approved_student "CCS");
       ProfileSettings.formData :=
         {| ProfileSettings.fd_name := ""; ProfileSettings.fd_email := "" |};
       ProfileSettings.passwordData :=
         {| ProfileSettings.newPassword := newPassword;
            ProfileSettings.confirmPassword := confirmPassword |} |}
    feed_world [].

(** The password form passes the three checks of handleChangePassword. *)
Definition password_accepted (p : ProfileSettings.PasswordData) : bool :=
  JS.truthy (ProfileSettings.newPassword p)
  && JS.truthy (ProfileSettings.confirmPassword p)
  && negb (String.length (ProfileSettings.newPassword p) <? 6)%nat
  && (ProfileSettings.newPassword p =? ProfileSettings.confirmPassword p).

Definition password_errors : list string :=
  ["Please fill in all password fields";
   "Password must be at least 6 characters";
   "Passwords do not match"].

(** The archived posts in the order and with the additions of the archive
    view, restricted by [keep]. *)
Definition archive_posts (keep : Store.Selected PostRow -> bool) (w : World)
    : list PostView :=
  postsWithComments (embed_author us_name us_department (users w)) (comments w)
    (Store.order by_created_at false
       (List.filter keep (Store.eq po_status "archived" (Store.select (posts w))))).

(** Every page that asks for a session sends a visitor of the store [w] to
    the landing page, and the landing page keeps the visitor. *)
Definition closed_to_visitors (w : World) : Prop :=
  (forall c l, LandingPage.checkUser (MkSys c w l) = (Done tt, MkSys c w l))
  /\ (forall c l, Dashboard.checkAuth (MkSys c w l)
                  = (Done tt, MkSys c w (l ++ [Navigate "/"])%list))
  /\ (forall c l, AdminPanel.checkAuth (MkSys c w l)
                  = (Done tt, MkSys c w (l ++ [Navigate "/"])%list))
  /\ (forall c l, Archive.checkAuth (MkSys c w l)
                  = (Done tt, MkSys c w (l ++ [Navigate "/"])%list))
  /\ (forall c l, ProfileSettings.checkAuth (MkSys c w l)
                  = (Done tt, MkSys c w (l ++ [Navigate "/"])%list))
  /\ (forall c l, SuperAdminDashboard.checkSuperAdmin (MkSys c w l)
                  = (Done tt, MkSys c w (l ++ [Navigate "/"])%list)).

Definition head_world : World :=
  set_session (Some "head-ccs")
    (set_super_admins {[ "head-ccs" := snd sample_head ]} feed_world).

(** The archive page once it has mounted over the store [w]. *)
Definition archive_page (w : World) : Sys Archive.State :=
  snd (Archive.mount (MkSys Archive.initial w [])).

(** What the general dashboard lists once it has fetched from the store
    [w]. *)
Definition dashboard_feed (w : World) : list PostView :=
  Dashboard.st_posts
    (ui (snd (Dashboard.fetchPosts (MkSys Dashboard.initial w [])))).

(** What the archive view lists for the student [viewer] once it has fetched
    from the store [w]. *)
Definition archive_feed (viewer : Store.Selected UserRow) (w : World)
    : list PostView :=
  Archive.st_posts
    (ui (snd (Archive.fetchPosts
                (MkSys
                   {| Archive.user := Some (fst viewer);
                      Archive.userProfile := Some (Archive.UserProfile viewer);
                      Archive.userType := Some "user";
                      Archive.st_posts := [] |}
                   w [])))).

(** * Properties *)

Example toLowerCase_CCS : JS.toLowerCase "CCS-Admin@SPC.edu" = "ccs-admin@spc.edu".
Proof. reflexivity. Qed.

Example trim_sample : JS.trim "  hello world 	" = "hello world".
Proof. reflexivity. Qed.

(** ** Strings *)
Section JSFacts.
Import JS.

Lemma append_String c a b : String c a ++ b = String c (a ++ b).
Proof. reflexivity. Qed.

Lemma append_Empty b : "" ++ b = b.
Proof. reflexivity. Qed.

Lemma trimStart_allWhiteSpace s : allWhiteSpace s = true -> trimStart s = "".
Proof.
induction s as [|c s IH]; simpl; [reflexivity|].
intros H. apply andb_true_iff in H as [Hc Hs]. rewrite Hc. auto.
Qed.

Lemma trimStart_empty s : trimStart s = "" -> allWhiteSpace s = true.
Proof.
induction s as [|c s IH]; simpl; [reflexivity|].
destruct (isWhiteSpace c); simpl; [exact IH | discriminate].
Qed.

Lemma trimEnd_allWhiteSpace s : allWhiteSpace s = true -> trimEnd s = "".
Proof.
induction s as [|c s IH]; simpl; [reflexivity|].
intros H. apply andb_true_iff in H as [Hc Hs]. rewrite (IH Hs), Hc. reflexivity.
Qed.

Lemma trimEnd_empty s : trimEnd s = "" -> allWhiteSpace s = true.
Proof.
induction s as [|c s IH]; simpl; [reflexivity|].
destruct (trimEnd s) eqn:E; [|discriminate].
destruct (isWhiteSpace c); [|discriminate].
intros _. simpl. auto.
Qed.

Lemma allWhiteSpace_trimStart s : allWhiteSpace s = true -> allWhiteSpace (trimStart s) = true.
Proof. intros H. rewrite (trimStart_allWhiteSpace _ H). reflexivity. Qed.

Lemma trim_allWhiteSpace s : allWhiteSpace s = true -> trim s = "".
Proof.
intros H. unfold trim. rewrite (trimStart_allWhiteSpace _ H). reflexivity.
Qed.

Lemma trimStart_split s :
exists pre, s = pre ++ trimStart s /\ allWhiteSpace pre = true.
Proof.
induction s as [|c s [pre [E W]]]; simpl.
- exists "". split; reflexivity.
- destruct (isWhiteSpace c) eqn:Hc.
  + exists (String c pre). simpl. rewrite append_String, Hc, W.
    split; [congruence | reflexivity].
  + exists "". split; reflexivity.
Qed.

Lemma trimEnd_split s :
exists post, s = trimEnd s ++ post /\ allWhiteSpace post = true.
Proof.
induction s as [|c s [post [E W]]]; simpl.
- exists "". split; reflexivity.
- destruct (trimEnd s) as [|c' t] eqn:Et.
  + destruct (isWhiteSpace c) eqn:Hc.
    * exists (String c post). rewrite append_Empty in *. simpl.
      rewrite Hc, W. split; [congruence | reflexivity].
    * exists post. rewrite append_String, append_Empty in *.
      split; [congruence | exact W].
  + exists post. split; [|exact W]. rewrite append_String. congruence.
Qed.

Lemma trim_split s :
exists pre post,
  s = pre ++ trim s ++ post
  /\ allWhiteSpace pre = true /\ allWhiteSpace post = true.
Proof.
destruct (trimStart_split s) as [pre [E1 W1]].
destruct (trimEnd_split (trimStart s)) as [post [E2 W2]].
exists pre, post. unfold trim. rewrite <- E2. auto.
Qed.

Lemma first_unit_trimStart s c :
first_unit (trimStart s) = Some c -> isWhiteSpace c = false.
Proof.
induction s as [|a s IH]; simpl; [discriminate|].
destruct (isWhiteSpace a) eqn:Ha; [exact IH|].
simpl. intros [= <-]. exact Ha.
Qed.

Lemma first_unit_trimEnd s c :
first_unit (trimEnd s) = Some c -> first_unit s = Some c.
Proof.
destruct s as [|a s]; simpl; [discriminate|].
destruct (trimEnd s); [destruct (isWhiteSpace a)|]; simpl; congruence.
Qed.

Lemma last_unit_trimEnd s c :
last_unit (trimEnd s) = Some c -> isWhiteSpace c = false.
Proof.
induction s as [|a s IH]; simpl; [discriminate|].
destruct (trimEnd s) as [|b t] eqn:Et.
- destruct (isWhiteSpace a) eqn:Ha; simpl; [discriminate|].
  intros [= <-]. exact Ha.
- simpl. simpl in IH. exact IH.
Qed.

Lemma trim_trimmed s :
(forall c, first_unit (trim s) = Some c -> isWhiteSpace c = false)
/\ (forall c, last_unit (trim s) = Some c -> isWhiteSpace c = false).
Proof.
unfold trim. split; intros c H.
- apply first_unit_trimEnd in H. eapply first_unit_trimStart; eauto.
- eapply last_unit_trimEnd; eauto.
Qed.

Lemma trim_empty_iff s : trim s = "" <-> allWhiteSpace s = true.
Proof.
split; [|apply trim_allWhiteSpace].
unfold trim. intros H. apply trimEnd_empty in H.
destruct (trimStart_split s) as [pre [E W]].
rewrite E. clear E. induction pre as [|a pre IH]; [exact H|].
rewrite append_String. simpl in *.
apply andb_true_iff in W as [Wa Wp]. rewrite Wa. simpl. auto.
Qed.
End JSFacts.

(** ** Store queries *)
Section StoreFacts.
Context {R : Type}.

Lemma maybeSingle_eq_id (id : string) (t : gmap string R) :
  Store.maybeSingle (Store.eq_id id t) = (fun r => (id, r)) <$> (t !! id).
Proof. unfold Store.eq_id. destruct (t !! id); reflexivity. Qed.

Lemma single_eq_id_Some (id : string) (t : gmap string R) (r : R) :
  t !! id = Some r -> Store.single (Store.eq_id id t) = inr (id, r).
Proof. unfold Store.eq_id. intros ->. reflexivity. Qed.

Lemma single_eq_id_None (id : string) (t : gmap string R) :
  t !! id = None -> exists e, Store.single (Store.eq_id id t) = inl e.
Proof. unfold Store.eq_id. intros ->. eexists. reflexivity. Qed.

Lemma In_select (t : gmap string R) (k : string) (r : R) :
  In (k, r) (Store.select t) <-> t !! k = Some r.
Proof.
  unfold Store.select. rewrite <- list_elem_of_In. apply elem_of_map_to_list.
Qed.

Lemma In_eq (column : R -> string) (v : string) rows (x : Store.Selected R) :
  In x (Store.eq column v rows) <-> In x rows /\ column (snd x) = v.
Proof.
  unfold Store.eq. rewrite filter_In, String.eqb_eq. reflexivity.
Qed.

Lemma In_eq_bool (column : R -> bool) (v : bool) rows (x : Store.Selected R) :
  In x (Store.eq_bool column v rows) <-> In x rows /\ column (snd x) = v.
Proof.
  unfold Store.eq_bool. rewrite filter_In, Bool.eqb_true_iff. reflexivity.
Qed.

(** No row qualifies: the filtered selection is empty. *)
Lemma eq_select_nil (column : R -> string) (v : string) (t : gmap string R) :
  (forall k r, t !! k = Some r -> column r <> v) ->
  Store.eq column v (Store.select t) = [].
Proof.
  intros H. destruct (Store.eq column v (Store.select t)) as [|[k r] l] eqn:E;
    [reflexivity|].
  assert (Hin : In (k, r) (Store.eq column v (Store.select t)))
    by (rewrite E; left; reflexivity).
  apply In_eq in Hin as [Hin Hc]. apply In_select in Hin.
  exfalso. exact (H k r Hin Hc).
Qed.

(** Exactly one row qualifies: the filtered selection is that row. *)
Lemma eq_select_one (column : R -> string) (v : string) (t : gmap string R) k r :
  t !! k = Some r -> column r = v ->
  (forall k' r', t !! k' = Some r' -> column r' = v -> k' = k) ->
  Store.eq column v (Store.select t) = [(k, r)].
Proof.
  intros Hk Hc Huniq.
  assert (Hall : forall x, In x (Store.eq column v (Store.select t)) -> x = (k, r)).
  { intros [k' r'] Hx. apply In_eq in Hx as [Hx Hc']. apply In_select in Hx.
    simpl in Hc'. pose proof (Huniq k' r' Hx Hc') as ->. congruence. }
  assert (Hin : In (k, r) (Store.eq column v (Store.select t))).
  { apply In_eq. split; [apply In_select; exact Hk | exact Hc]. }
  assert (Hnd : List.NoDup (Store.eq column v (Store.select t))).
  { unfold Store.eq. apply List.NoDup_filter. apply NoDup_ListNoDup.
    unfold Store.select. apply NoDup_map_to_list. }
  destruct (Store.eq column v (Store.select t)) as [|x l]; [destruct Hin|].
  pose proof (Hall x (or_introl Logic.eq_refl)) as ->.
  destruct l as [|y l]; [reflexivity|].
  pose proof (Hall y (or_intror (or_introl Logic.eq_refl))) as ->.
  inversion Hnd as [|? ? Hnot _]. exfalso. apply Hnot. left. reflexivity.
Qed.

End StoreFacts.

Lemma In_insert_sorted {A} asc (key : A -> option N) (x y : A) l :
  In y (Store.insert_sorted asc key x l) <-> y = x \/ In y l.
Proof.
  induction l as [|z l IH]; simpl.
  - intuition.
  - destruct (Store.before asc (key x) (key z)); simpl; [intuition|].
    rewrite IH. intuition.
Qed.

(** Ordering a selection neither adds nor drops rows. *)
Lemma In_order {A} (key : A -> option N) asc (l : list A) (x : A) :
  In x (Store.order key asc l) <-> In x l.
Proof.
  unfold Store.order. induction l as [|y l IH]; simpl; [reflexivity|].
  rewrite In_insert_sorted, IH. intuition.
Qed.

Lemma In_postsWithComments author cs data (p : PostView) :
  In p (postsWithComments author cs data) ->
  In (pv_id p, pv_row p) data.
Proof.
  unfold postsWithComments. rewrite in_map_iff. intros [[k r] [<- Hin]]. exact Hin.
Qed.

(** ** Running handlers *)
Lemma truthy_true s : s <> "" -> JS.truthy s = true.
Proof.
  intros H. unfold JS.truthy. apply negb_true_iff, String.eqb_neq. exact H.
Qed.

Lemma truthy_false s : s = "" -> JS.truthy s = false.
Proof. intros ->. reflexivity. Qed.

(** ** Sign-in (C1) *)

(** The run of handleLogin once the identity provider has accepted the
    credentials. *)
Lemma handleLogin_authenticated
    (idp : IdentityProvider) (s : Sys LandingPage.State) (id : string) :
  LandingPage.login_email (LandingPage.loginData (ui s)) <> "" ->
  LandingPage.login_password (LandingPage.loginData (ui s)) <> "" ->
  signInWithPassword_response idp
    (LandingPage.login_email (LandingPage.loginData (ui s)))
    (LandingPage.login_password (LandingPage.loginData (ui s))) = inr id ->
  LandingPage.handleLogin idp s =
    match super_admins (db s) !! id with
    | Some _ =>
        after_login s (Some id)
          [ToastSuccess "Welcome, Program Head!"; Navigate "/super-admin-dashboard"]
    | None =>
        match admins (db s) !! id with
        | Some a =>
            if ad_is_approved a
            then after_login s (Some id)
                   [ToastSuccess "Welcome, Admin!"; Navigate "/dashboard"]
            else after_login s None [ToastError LandingPage.pendingMessage]
        | None =>
            match users (db s) !! id with
            | Some u =>
                if us_is_approved u
                then after_login s (Some id)
                       [ToastSuccess "Login successful!"; Navigate "/dashboard"]
                else after_login s None [ToastError LandingPage.pendingMessage]
            | None =>
                after_login s None
                  [ToastError "Account not found. Please sign up first."]
            end
        end
    end.
Proof.
  intros He Hp Hr.
  unfold LandingPage.handleLogin, after_login, signInWithPassword.
  eff_unfold. simpl.
  rewrite (truthy_true _ He), (truthy_true _ Hp), Hr. simpl.
  rewrite maybeSingle_eq_id.
  destruct (super_admins (db s) !! id); simpl;
    [rewrite <- !app_assoc; reflexivity|].
  rewrite maybeSingle_eq_id.
  destruct (admins (db s) !! id) as [a|]; simpl.
  { destruct (ad_is_approved a); simpl; rewrite <- ?app_assoc; reflexivity. }
  rewrite maybeSingle_eq_id.
  destruct (users (db s) !! id) as [u|]; simpl.
  { destruct (us_is_approved u); simpl; rewrite <- ?app_assoc; reflexivity. }
  rewrite <- ?app_assoc. reflexivity.
Qed.

(** C1: for a freshly authenticated account id, handleLogin resolves the
    tier by strict priority.  A row in super_admins lets the account in
    unconditionally (program-head welcome, route to the program-head
    dashboard).  Otherwise a row in admins decides: unapproved, the session
    is signed out and pending approval is reported; approved, the account is
    let in as admin.  Otherwise a row in users decides in the same way.  With
    no row in any of the three, the session is signed out and account not
    found is reported. *)
Theorem handleLogin_resolves_by_priority
    (idp : IdentityProvider) (s : Sys LandingPage.State) (id : string) :
  LandingPage.login_email (LandingPage.loginData (ui s)) <> "" ->
  LandingPage.login_password (LandingPage.loginData (ui s)) <> "" ->
  signInWithPassword_response idp
    (LandingPage.login_email (LandingPage.loginData (ui s)))
    (LandingPage.login_password (LandingPage.loginData (ui s))) = inr id ->
  (forall sa, super_admins (db s) !! id = Some sa ->
     LandingPage.handleLogin idp s =
       after_login s (Some id)
         [ToastSuccess "Welcome, Program Head!"; Navigate "/super-admin-dashboard"])
  /\ (super_admins (db s) !! id = None ->
      forall a, admins (db s) !! id = Some a ->
        LandingPage.handleLogin idp s =
          if ad_is_approved a
          then after_login s (Some id)
                 [ToastSuccess "Welcome, Admin!"; Navigate "/dashboard"]
          else after_login s None [ToastError LandingPage.pendingMessage])
  /\ (super_admins (db s) !! id = None -> admins (db s) !! id = None ->
      forall u, users (db s) !! id = Some u ->
        LandingPage.handleLogin idp s =
          if us_is_approved u
          then after_login s (Some id)
                 [ToastSuccess "Login successful!"; Navigate "/dashboard"]
          else after_login s None [ToastError LandingPage.pendingMessage])
  /\ (super_admins (db s) !! id = None -> admins (db s) !! id = None ->
      users (db s) !! id = None ->
        LandingPage.handleLogin idp s =
          after_login s None [ToastError "Account not found. Please sign up first."]).
Proof.
  intros He Hp Hr.
  rewrite (handleLogin_authenticated idp s id He Hp Hr).
  repeat split.
  - intros sa ->. reflexivity.
  - intros -> a ->. reflexivity.
  - intros -> -> u ->. reflexivity.
  - intros -> -> ->. reflexivity.
Qed.

(** Scenario B: an unapproved admin signs in; the session is ended and
    pending approval is reported. *)
Lemma handleLogin_resolves_by_priority_witness :
  LandingPage.handleLogin sample_idp sample_login =
    after_login sample_login None [ToastError LandingPage.pendingMessage].
Proof.
  destruct (handleLogin_resolves_by_priority sample_idp sample_login "acct-1")
    as (_ & H & _).
  - discriminate.
  - discriminate.
  - reflexivity.
  - assert (Hsa : super_admins (db sample_login) !! "acct-1" = None)
      by reflexivity.
    assert (Had : admins (db sample_login) !! "acct-1" = Some sample_admin)
      by reflexivity.
    exact (H Hsa sample_admin Had).
Defined.

(** ** Registration of an admin (C2) *)

Lemma validateFields_ok d (s : Sys LandingPage.State) :
  valid_fields d -> LandingPage.validateFields d s = (Done true, s).
Proof.
  intros (Hn & He & Hp & Hc & Hl). unfold LandingPage.validateFields.
  rewrite Hc, (truthy_true _ Hn), (truthy_true _ He), (truthy_true _ Hp).
  simpl. rewrite String.eqb_refl. simpl.
  apply Nat.ltb_ge in Hl. rewrite Hl. reflexivity.
Qed.

Lemma validateSuperAdmin_other_role d (s : Sys LandingPage.State) :
  LandingPage.signup_role d <> "super_admin" ->
  LandingPage.validateSuperAdmin d s = (Done true, s).
Proof.
  intros H. unfold LandingPage.validateSuperAdmin.
  apply String.eqb_neq in H. rewrite H. reflexivity.
Qed.

(** handleSignup for role 'admin' once the fields are valid: the role
    checks followed by the creation. *)
Lemma handleSignup_admin_run idp now (s : Sys LandingPage.State) d :
  LandingPage.signupData (ui s) = d ->
  LandingPage.signup_role d = "admin" ->
  valid_fields d ->
  LandingPage.handleSignup idp now s =
    match LandingPage.validateAdmin d s with
    | (Done true, s') => LandingPage.createAccount idp now d s'
    | (Done false, s') => (Done tt, s')
    | (Thrown e, s') => (Thrown e, s')
    end.
Proof.
  intros Hd Hrole Hv. unfold LandingPage.handleSignup.
  unfold bind at 1, get_ui at 1. cbv beta iota. rewrite Hd.
  unfold bind at 1. rewrite (validateFields_ok d s Hv). cbv beta iota delta [negb].
  unfold bind at 1. rewrite validateSuperAdmin_other_role
    by (rewrite Hrole; discriminate).
  cbv beta iota delta [negb].
  unfold bind. destruct (LandingPage.validateAdmin d s) as [[[]|e] s']; reflexivity.
Qed.

Lemma createAccount_admin idp now d (s : Sys LandingPage.State) id :
  LandingPage.signup_role d = "admin" ->
  signUp_response idp (LandingPage.signup_email d) (LandingPage.signup_password d)
    = inr id ->
  admins (db s) !! id = None ->
  LandingPage.createAccount idp now d s = (Done tt, admin_registered s d id).
Proof.
  intros Hrole Hup Hfree.
  unfold LandingPage.createAccount, signUp, LandingPage.setSignupData,
    admin_registered.
  eff_unfold. rewrite Hup, Hrole. simpl. unfold Store.insert. rewrite Hfree.
  simpl. rewrite <- !app_assoc. reflexivity.
Qed.

Lemma validateAdmin_convention d (s : Sys LandingPage.State) :
  LandingPage.signup_role d = "admin" ->
  JS.toLowerCase (LandingPage.signup_email d)
    <> LandingPage.adminEmail (LandingPage.signup_department d) ->
  LandingPage.validateAdmin d s = (Done false, reported s (AdminEmailConventionError d)).
Proof.
  intros Hrole Hne. unfold LandingPage.validateAdmin. rewrite Hrole. simpl.
  apply String.eqb_neq in Hne. rewrite Hne. reflexivity.
Qed.

Lemma validateAdmin_lookup d (s : Sys LandingPage.State) :
  LandingPage.signup_role d = "admin" ->
  JS.toLowerCase (LandingPage.signup_email d)
    = LandingPage.adminEmail (LandingPage.signup_department d) ->
  LandingPage.validateAdmin d s =
    match Store.maybeSingle
            (Store.eq ad_department (LandingPage.signup_department d)
               (Store.select (admins (db s)))) with
    | Some _ => (Done false, reported s (DuplicateAdminError d))
    | None => (Done true, s)
    end.
Proof.
  intros Hrole He. unfold LandingPage.validateAdmin. rewrite Hrole. simpl.
  rewrite He, String.eqb_refl. simpl. eff_unfold.
  destruct (Store.maybeSingle _); reflexivity.
Qed.

(** C2, as the handler has it: a registration with role 'admin' whose fields
    pass the field validation (nothing empty, the two passwords equal, at
    least 6 characters) is refused with the email-convention error unless the
    lower-cased email is the lower-cased department code followed by
    -admin@spc.edu; with a conforming email it is refused with the
    duplicate-role error when exactly one AdminProfile of that department
    exists; with none, and when the identity provider returns a new account
    id, the account is created and exactly one AdminProfile row is inserted,
    for that department and with is_approved = false; the same registration
    submitted again is then refused with the duplicate-role error. *)
Theorem handleSignup_admin_registration
    (idp : IdentityProvider) (now : N) (s : Sys LandingPage.State)
    (d : LandingPage.SignupData) :
  LandingPage.signupData (ui s) = d ->
  LandingPage.signup_role d = "admin" ->
  valid_fields d ->
  (JS.toLowerCase (LandingPage.signup_email d)
     <> LandingPage.adminEmail (LandingPage.signup_department d) ->
   LandingPage.handleSignup idp now s
     = (Done tt, reported s (AdminEmailConventionError d)))
  /\ (JS.toLowerCase (LandingPage.signup_email d)
        = LandingPage.adminEmail (LandingPage.signup_department d) ->
      (forall k a,
          admins (db s) !! k = Some a ->
          ad_department a = LandingPage.signup_department d ->
          (forall k' a', admins (db s) !! k' = Some a' ->
                         ad_department a' = LandingPage.signup_department d ->
                         k' = k) ->
          LandingPage.handleSignup idp now s
            = (Done tt, reported s (DuplicateAdminError d)))
      /\ ((forall k a, admins (db s) !! k = Some a ->
                       ad_department a <> LandingPage.signup_department d) ->
          forall id,
            signUp_response idp (LandingPage.signup_email d)
              (LandingPage.signup_password d) = inr id ->
            admins (db s) !! id = None ->
            LandingPage.handleSignup idp now s = (Done tt, admin_registered s d id)
            /\ (forall k a, admins (db (admin_registered s d id)) !! k = Some a ->
                  admins (db s) !! k = Some a \/ (k = id /\ a = newAdminRow d))
            /\ LandingPage.handleSignup idp now
                 (MkSys (ui s) (db (admin_registered s d id))
                    (log (admin_registered s d id)))
               = (Done tt,
                  reported (MkSys (ui s) (db (admin_registered s d id))
                              (log (admin_registered s d id)))
                    (DuplicateAdminError d)))).
Proof.
  intros Hd Hrole Hv. split; [|intros He; split].
  - intros Hne. rewrite (handleSignup_admin_run idp now s d Hd Hrole Hv).
    rewrite (validateAdmin_convention d s Hrole Hne). reflexivity.
  - intros k a Hk Ha Huniq.
    rewrite (handleSignup_admin_run idp now s d Hd Hrole Hv).
    rewrite (validateAdmin_lookup d s Hrole He).
    rewrite (eq_select_one ad_department _ _ k a Hk Ha Huniq). reflexivity.
  - intros Hnone id Hup Hfree. split; [|split].
    + rewrite (handleSignup_admin_run idp now s d Hd Hrole Hv).
      rewrite (validateAdmin_lookup d s Hrole He).
      rewrite (eq_select_nil ad_department _ _ Hnone). simpl.
      apply createAccount_admin; assumption.
    + intros k a. simpl. rewrite lookup_insert.
      destruct (decide (id = k)) as [->|Hne]; [|auto].
      intros [= <-]. right. split; reflexivity.
    + set (s2 := MkSys (ui s) (db (admin_registered s d id))
                   (log (admin_registered s d id))).
      rewrite (handleSignup_admin_run idp now s2 d Hd Hrole Hv).
      rewrite (validateAdmin_lookup d s2 Hrole He).
      rewrite (eq_select_one ad_department _ _ id (newAdminRow d)).
      * reflexivity.
      * simpl. apply lookup_insert_eq.
      * reflexivity.
      * simpl. intros k' a'. rewrite lookup_insert.
        destruct (decide (id = k')) as [->|Hne]; [reflexivity|].
        intros Hk' Ha'. exfalso. exact (Hnone k' a' Hk' Ha').
Qed.

Lemma handleSignup_admin_registration_witness :
  LandingPage.handleSignup sample_idp 0 scenarioA
    = (Done tt, admin_registered scenarioA scenarioA_form "acct-2")
  /\ LandingPage.handleSignup sample_idp 0
       (MkSys (ui scenarioA) (db (admin_registered scenarioA scenarioA_form "acct-2"))
          (log (admin_registered scenarioA scenarioA_form "acct-2")))
     = (Done tt,
        reported
          (MkSys (ui scenarioA)
             (db (admin_registered scenarioA scenarioA_form "acct-2"))
             (log (admin_registered scenarioA scenarioA_form "acct-2")))
          (DuplicateAdminError scenarioA_form)).
Proof.
  destruct (handleSignup_admin_registration sample_idp 0 scenarioA scenarioA_form)
    as (_ & H).
  - reflexivity.
  - reflexivity.
  - unfold valid_fields. simpl. repeat split; try discriminate. lia.
  - destruct (H Logic.eq_refl) as (_ & H2).
    assert (Hnone : forall k a, admins (db scenarioA) !! k = Some a ->
                      ad_department a <> LandingPage.signup_department scenarioA_form).
    { intros k a Hk. simpl in Hk. rewrite lookup_empty in Hk. discriminate. }
    destruct (H2 Hnone "acct-2" Logic.eq_refl Logic.eq_refl) as (H3 & _ & H4).
    split; assumption.
Defined.

(** A registration with role 'admin', a non-conforming email and a password
    of three characters is refused by the field validation, not with the
    email-convention error. *)
Lemma handleSignup_admin_validation_first :
  LandingPage.signup_role short_password_form = "admin"
  /\ JS.toLowerCase (LandingPage.signup_email short_password_form)
       <> LandingPage.adminEmail (LandingPage.signup_department short_password_form)
  /\ LandingPage.handleSignup sample_idp 0 (signup_sys short_password_form empty_world)
     = (Done tt,
        reported (signup_sys short_password_form empty_world)
          (ToastError "Password must be at least 6 characters"))
  /\ LandingPage.handleSignup sample_idp 0 (signup_sys short_password_form empty_world)
     <> (Done tt,
         reported (signup_sys short_password_form empty_world)
           (AdminEmailConventionError short_password_form)).
Proof.
  assert (Hrun :
    LandingPage.handleSignup sample_idp 0 (signup_sys short_password_form empty_world)
    = (Done tt,
       reported (signup_sys short_password_form empty_world)
         (ToastError "Password must be at least 6 characters")))
    by reflexivity.
  split; [reflexivity|]. split; [discriminate|]. split; [exact Hrun|].
  rewrite Hrun. discriminate.
Qed.

(** The occupied-slot lookup is a single-row query: with two AdminProfiles of
    the department already stored it yields no row, and the registration goes
    through. *)
Example handleSignup_two_admins_stored :
  log (snd (LandingPage.handleSignup sample_idp 0
              (signup_sys scenarioA_form two_admins_world)))
    = [ToastLoading "Creating account...";
       ToastSuccess "Admin account created successfully!";
       ToastInfo LandingPage.pendingMessage]
  /\ admins (db (snd (LandingPage.handleSignup sample_idp 0
                        (signup_sys scenarioA_form two_admins_world))))
       !! "acct-2" = Some (newAdminRow scenarioA_form).
Proof. split; vm_compute; reflexivity. Qed.

(** When the identity provider refuses the sign-up, its message is reported
    and no row is inserted. *)
Example handleSignup_provider_refuses :
  LandingPage.handleSignup refusing_idp 0 scenarioA
    = (Done tt,
       MkSys (ui scenarioA) (db scenarioA)
         [ToastLoading "Creating account..."; ToastError "User already registered"]).
Proof. reflexivity. Qed.

(** ** The approval workflow (C3, C4, C7, C8) *)

Lemma fetchUsers_run department (s : Sys SuperAdminDashboard.State) :
  SuperAdminDashboard.fetchUsers department s
    = (Done tt, MkSys (listed department (ui s) (users (db s))) (db s) (log s)).
Proof. reflexivity. Qed.

Lemma handleApprove_run now userId userName (s : Sys SuperAdminDashboard.State) :
  SuperAdminDashboard.handleApprove now userId userName s =
    match SuperAdminDashboard.superAdmin (ui s) with
    | Some sa =>
        (Done tt,
         refreshed s
           (set_users
              (Store.update (SuperAdminDashboard.approved (fst sa) now) userId
                 (users (db s))) (db s))
           [ToastLoading ("Approving " ++ userName ++ "...");
            ToastSuccess (userName ++ " has been approved!")]
           "Failed to approve user")
    | None =>
        (Done tt,
         MkSys (ui s) (db s)
           (log s ++ [ToastLoading ("Approving " ++ userName ++ "...");
                      ToastError "Failed to approve user"]))
    end.
Proof.
  unfold SuperAdminDashboard.handleApprove, refreshed.
  destruct (SuperAdminDashboard.superAdmin (ui s)) as [sa|] eqn:E.
  - unfold SuperAdminDashboard.fetchUsers, SuperAdminDashboard.setUsers.
    eff_unfold. simpl. rewrite E. simpl. rewrite <- !app_assoc. reflexivity.
  - eff_unfold. simpl. rewrite E. simpl. rewrite <- !app_assoc. reflexivity.
Qed.

Lemma handleReject_run userId userName (s : Sys SuperAdminDashboard.State) :
  SuperAdminDashboard.handleReject true userId userName s =
    (Done tt,
     refreshed s (rejected userId (db s))
       [ToastLoading ("Rejecting " ++ userName ++ "...");
        ToastSuccess (userName ++ " has been rejected and removed")]
       "Failed to reject user").
Proof.
  unfold SuperAdminDashboard.handleReject, refreshed, rejected.
  unfold SuperAdminDashboard.fetchUsers, SuperAdminDashboard.setUsers.
  eff_unfold. simpl.
  destruct (users (db s) !! userId); simpl;
    destruct (SuperAdminDashboard.superAdmin (ui s)); simpl;
    rewrite <- ?app_assoc; reflexivity.
Qed.

Lemma handleRevokeApproval_run userId userName (s : Sys SuperAdminDashboard.State) :
  SuperAdminDashboard.handleRevokeApproval true userId userName s =
    (Done tt,
     refreshed s
       (set_users (Store.update SuperAdminDashboard.unapproved userId (users (db s)))
          (db s))
       [ToastLoading ("Revoking approval for " ++ userName ++ "...");
        ToastSuccess ("Approval revoked for " ++ userName)]
       "Failed to revoke approval").
Proof.
  unfold SuperAdminDashboard.handleRevokeApproval, refreshed.
  unfold SuperAdminDashboard.fetchUsers, SuperAdminDashboard.setUsers.
  eff_unfold. simpl.
  destruct (SuperAdminDashboard.superAdmin (ui s)); simpl;
    rewrite <- ?app_assoc; reflexivity.
Qed.

Lemma refreshed_superAdmin s w events failure :
  SuperAdminDashboard.superAdmin (ui (refreshed s w events failure))
    = SuperAdminDashboard.superAdmin (ui s).
Proof.
  unfold refreshed. destruct (SuperAdminDashboard.superAdmin (ui s)) eqn:E;
    simpl; exact E.
Qed.

Lemma refreshed_db s w events failure : db (refreshed s w events failure) = w.
Proof.
  unfold refreshed. destruct (SuperAdminDashboard.superAdmin (ui s)); reflexivity.
Qed.

Lemma set_users_same w : set_users (users w) w = w.
Proof. destruct w. reflexivity. Qed.

Lemma revoke_after_approve by_id at_time userId (t : gmap string UserRow) :
  Store.update SuperAdminDashboard.unapproved userId
    (Store.update (SuperAdminDashboard.approved by_id at_time) userId t)
  = Store.update SuperAdminDashboard.unapproved userId t.
Proof.
  apply map_eq. intros k. unfold Store.update.
  destruct (decide (userId = k)) as [<-|Hne].
  - rewrite !lookup_alter_eq. destruct (t !! userId); reflexivity.
  - rewrite !lookup_alter_ne by exact Hne. reflexivity.
Qed.

Lemma unapproved_pending (r : UserRow) :
  us_is_approved r = false -> us_approved_by r = None -> us_approved_at r = None ->
  SuperAdminDashboard.unapproved r = r.
Proof. destruct r. simpl. intros -> -> ->. reflexivity. Qed.

(** C3, as the handlers have it: approve and revoke write the users
    collection and no other.  For a users profile, approve followed by revoke
    returns the profile to its pre-approval state: in between the row is
    approved (is_approved set, approved_by the super admin, approved_at the
    time of approval); after the revoke it has is_approved = false,
    approved_by = null and approved_at = null with every other column as
    before, no other row and no other collection has changed, and a profile
    that was pending before leaves the whole store as it was.  For an
    AdminProfile, which is a row of admins, both operations leave the row as
    it is, approved or not; and for an id without a users row the two
    operations change nothing in the store and still report success
    twice. *)
Theorem approve_then_revoke_round_trip
    (now : N) (userId userName : string) (s : Sys SuperAdminDashboard.State)
    (sa : Store.Selected SuperAdminRow) :
  SuperAdminDashboard.superAdmin (ui s) = Some sa ->
  (forall r,
      users (db s) !! userId = Some r ->
      users (db (snd (SuperAdminDashboard.handleApprove now userId userName s))) !! userId
        = Some (SuperAdminDashboard.approved (fst sa) now r)
      /\ fst (approve_then_revoke now userId userName s) = Done tt
      /\ users (db (snd (approve_then_revoke now userId userName s))) !! userId
         = Some (SuperAdminDashboard.unapproved r)
      /\ us_is_approved (SuperAdminDashboard.unapproved r) = false
      /\ us_approved_by (SuperAdminDashboard.unapproved r) = None
      /\ us_approved_at (SuperAdminDashboard.unapproved r) = None
      /\ db (snd (approve_then_revoke now userId userName s))
         = set_users (<[userId := SuperAdminDashboard.unapproved r]> (users (db s)))
             (db s)
      /\ (us_is_approved r = false -> us_approved_by r = None ->
          us_approved_at r = None ->
          db (snd (approve_then_revoke now userId userName s)) = db s))
  /\ (forall a,
        admins (db s) !! userId = Some a ->
        admins (db (snd (SuperAdminDashboard.handleApprove now userId userName s)))
          !! userId = Some a
        /\ admins (db (snd (approve_then_revoke now userId userName s))) !! userId
           = Some a)
  /\ (users (db s) !! userId = None ->
      fst (approve_then_revoke now userId userName s) = Done tt
      /\ db (snd (SuperAdminDashboard.handleApprove now userId userName s)) = db s
      /\ db (snd (approve_then_revoke now userId userName s)) = db s
      /\ log (snd (approve_then_revoke now userId userName s))
         = (log s ++ [ToastLoading ("Approving " ++ userName ++ "...");
                      ToastSuccess (userName ++ " has been approved!");
                      ToastLoading ("Revoking approval for " ++ userName ++ "...");
                      ToastSuccess ("Approval revoked for " ++ userName)])%list).
Proof.
  intros Hsa.
  assert (Hrun : approve_then_revoke now userId userName s
            = SuperAdminDashboard.handleRevokeApproval true userId userName
                (snd (SuperAdminDashboard.handleApprove now userId userName s))).
  { unfold approve_then_revoke, bind. rewrite handleApprove_run, Hsa. reflexivity. }
  assert (Hdb : db (snd (approve_then_revoke now userId userName s))
            = set_users (Store.update SuperAdminDashboard.unapproved userId
                           (users (db s))) (db s)).
  { rewrite Hrun, handleRevokeApproval_run, handleApprove_run, Hsa. simpl.
    rewrite !refreshed_db. simpl. rewrite revoke_after_approve. reflexivity. }
  assert (Hdb1 : db (snd (SuperAdminDashboard.handleApprove now userId userName s))
            = set_users (Store.update (SuperAdminDashboard.approved (fst sa) now)
                           userId (users (db s))) (db s)).
  { rewrite handleApprove_run, Hsa. cbn [snd]. apply refreshed_db. }
  split; [|split].
  - intros r Hr.
    assert (Hins : Store.update SuperAdminDashboard.unapproved userId (users (db s))
              = <[userId := SuperAdminDashboard.unapproved r]> (users (db s))).
    { apply map_eq. intros k. unfold Store.update.
      rewrite lookup_alter, lookup_insert.
      destruct (decide (userId = k)); [rewrite Hr|]; reflexivity. }
    split; [|split; [|split; [|split; [|split; [|split; [|split]]]]]].
    + rewrite Hdb1. cbn [users set_users].
      unfold Store.update. rewrite lookup_alter_eq, Hr. reflexivity.
    + rewrite Hrun, handleRevokeApproval_run. reflexivity.
    + rewrite Hdb, Hins. simpl. apply lookup_insert_eq.
    + reflexivity.
    + reflexivity.
    + reflexivity.
    + rewrite Hdb, Hins. reflexivity.
    + intros H1 H2 H3. rewrite Hdb, Hins, (unapproved_pending r H1 H2 H3).
      rewrite insert_id by exact Hr. apply set_users_same.
  - intros a Ha. rewrite Hdb1, Hdb. cbn [admins set_users]. split; exact Ha.
  - intros Hnone.
    assert (Hid : forall f : UserRow -> UserRow,
              set_users (Store.update f userId (users (db s))) (db s) = db s).
    { intros f. unfold Store.update. rewrite alter_id'; [apply set_users_same|].
      exact Hnone. }
    split; [rewrite Hrun, handleRevokeApproval_run; reflexivity|].
    split; [rewrite Hdb1; apply Hid|]. split; [rewrite Hdb; apply Hid|].
    rewrite Hrun, handleRevokeApproval_run, handleApprove_run, Hsa.
    cbn [snd]. unfold refreshed at 1. rewrite refreshed_superAdmin, Hsa.
    cbn [log]. unfold refreshed. rewrite Hsa. cbn [log].
    rewrite <- app_assoc. reflexivity.
Qed.

Lemma approve_then_revoke_round_trip_witness :
  users (db (snd (SuperAdminDashboard.handleApprove 20 "stu-1" "Lia"
                    (dashboard_sys "CCS")))) !! "stu-1"
    = Some (SuperAdminDashboard.approved "head-ccs" 20 (sample_student "CCS"))
  /\ db (snd (approve_then_revoke 20 "stu-1" "Lia" (dashboard_sys "CCS")))
     = db (dashboard_sys "CCS").
Proof.
  destruct (approve_then_revoke_round_trip 20 "stu-1" "Lia" (dashboard_sys "CCS")
              sample_head) as (H & _).
  - reflexivity.
  - destruct (H (sample_student "CCS")) as (H1 & _ & _ & _ & _ & _ & _ & H2).
    + reflexivity.
    + split; [exact H1 | apply H2; reflexivity].
Defined.

(** An approved AdminProfile of the program head's own department: approve
    followed by revoke reports success twice and the profile is approved as
    before, not returned to isApproved = false.  And approve alone, on the
    pending AdminProfile of another store, reports success and leaves it
    pending. *)
Lemma approve_then_revoke_leaves_admin_approved :
  fst (approve_then_revoke 20 "adm-ccs" "Ana" approved_admin_sys) = Done tt
  /\ log (snd (approve_then_revoke 20 "adm-ccs" "Ana" approved_admin_sys))
     = [ToastLoading "Approving Ana..."; ToastSuccess "Ana has been approved!";
        ToastLoading "Revoking approval for Ana...";
        ToastSuccess "Approval revoked for Ana"]
  /\ db (snd (approve_then_revoke 20 "adm-ccs" "Ana" approved_admin_sys))
     = db approved_admin_sys
  /\ admins (db approved_admin_sys) !! "adm-ccs"
     = Some {| ad_name := "Ana"; ad_email := "ccs-admin@spc.edu";
               ad_department := "CCS"; ad_is_approved := true |}
  /\ admins (db (snd (approve_then_revoke 20 "adm-ccs" "Ana" approved_admin_sys)))
       !! "adm-ccs"
     = Some {| ad_name := "Ana"; ad_email := "ccs-admin@spc.edu";
               ad_department := "CCS"; ad_is_approved := true |}
  /\ users (db approved_admin_sys) !! "adm-ccs" = None
  /\ admins (db (snd (SuperAdminDashboard.handleApprove 20 "adm-ced" "Ced"
                        (MkSys (ui (dashboard_sys "CCS")) ced_admin_world []))))
       !! "adm-ced"
     = Some {| ad_name := "Ced"; ad_email := "ced-admin@spc.edu";
               ad_department := "CED"; ad_is_approved := false |}.
Proof.
  assert (Hdb : db (snd (approve_then_revoke 20 "adm-ccs" "Ana" approved_admin_sys))
                = db approved_admin_sys).
  { unfold approve_then_revoke, bind.
    rewrite handleApprove_run. cbn [ui approved_admin_sys dashboard_sys
                                      SuperAdminDashboard.superAdmin].
    rewrite handleRevokeApproval_run. cbn [snd]. rewrite !refreshed_db.
    cbn [users set_users]. rewrite revoke_after_approve.
    unfold Store.update. rewrite alter_id'; [apply set_users_same|].
    reflexivity. }
  split; [reflexivity|]. split; [reflexivity|]. split; [exact Hdb|].
  split; [reflexivity|]. split; [rewrite Hdb; reflexivity|].
  split; [reflexivity|].
  rewrite handleApprove_run. cbn [ui dashboard_sys SuperAdminDashboard.superAdmin snd].
  rewrite refreshed_db. reflexivity.
Qed.

Lemma In_pending_of department (t : gmap string UserRow) (u : Store.Selected UserRow) :
  In u (pending_of department t) <->
  t !! fst u = Some (snd u) /\ us_department (snd u) = department
  /\ us_is_approved (snd u) = false.
Proof.
  unfold pending_of. rewrite In_order, In_eq_bool, In_eq.
  destruct u as [k r]. rewrite In_select. simpl. tauto.
Qed.

Lemma In_approved_of department (t : gmap string UserRow) (u : Store.Selected UserRow) :
  In u (approved_of department t) <->
  t !! fst u = Some (snd u) /\ us_department (snd u) = department
  /\ us_is_approved (snd u) = true.
Proof.
  unfold approved_of. rewrite In_order, In_eq_bool, In_eq.
  destruct u as [k r]. rewrite In_select. simpl. tauto.
Qed.

Lemma checkSuperAdmin_run (s : Sys SuperAdminDashboard.State) id sa :
  session (db s) = Some id ->
  super_admins (db s) !! id = Some sa ->
  SuperAdminDashboard.checkSuperAdmin s =
    (Done tt,
     MkSys
       {| SuperAdminDashboard.superAdmin := Some (id, sa);
          SuperAdminDashboard.pendingUsers := pending_of (sa_department sa) (users (db s));
          SuperAdminDashboard.approvedUsers := approved_of (sa_department sa) (users (db s)) |}
       (db s) (log s)).
Proof.
  intros Hs Hsa. unfold SuperAdminDashboard.checkSuperAdmin. eff_unfold.
  rewrite Hs. simpl. rewrite (single_eq_id_Some id _ sa Hsa). reflexivity.
Qed.

(** C4, as the handlers have it: the dashboard opened by a super admin lists
    only users profiles of the super admin's own department, so approve,
    reject and revoke are offered for those alone; the handlers themselves
    compare no departments and report no scope error: called with the id of a
    users profile of whatever department, approve sets the approval columns,
    revoke clears them and reject deletes the row, each reporting success. *)
Theorem approval_scope_is_the_listing
    (s : Sys SuperAdminDashboard.State) (id : string) (sa : SuperAdminRow) :
  session (db s) = Some id ->
  super_admins (db s) !! id = Some sa ->
  SuperAdminDashboard.superAdmin (ui (snd (SuperAdminDashboard.checkSuperAdmin s)))
    = Some (id, sa)
  /\ (forall u,
        In u (SuperAdminDashboard.pendingUsers
                (ui (snd (SuperAdminDashboard.checkSuperAdmin s))))
        \/ In u (SuperAdminDashboard.approvedUsers
                   (ui (snd (SuperAdminDashboard.checkSuperAdmin s)))) ->
        users (db s) !! fst u = Some (snd u)
        /\ us_department (snd u) = sa_department sa)
  /\ (forall now userId userName r,
        users (db s) !! userId = Some r ->
        (users (db (snd (SuperAdminDashboard.handleApprove now userId userName
                           (snd (SuperAdminDashboard.checkSuperAdmin s))))) !! userId
           = Some (SuperAdminDashboard.approved id now r)
         /\ log (snd (SuperAdminDashboard.handleApprove now userId userName
                        (snd (SuperAdminDashboard.checkSuperAdmin s))))
            = (log s ++ [ToastLoading ("Approving " ++ userName ++ "...");
                        ToastSuccess (userName ++ " has been approved!")])%list)
        /\ (users (db (snd (SuperAdminDashboard.handleRevokeApproval true userId userName
                              (snd (SuperAdminDashboard.checkSuperAdmin s))))) !! userId
              = Some (SuperAdminDashboard.unapproved r)
            /\ log (snd (SuperAdminDashboard.handleRevokeApproval true userId userName
                           (snd (SuperAdminDashboard.checkSuperAdmin s))))
               = (log s ++ [ToastLoading ("Revoking approval for " ++ userName ++ "...");
                           ToastSuccess ("Approval revoked for " ++ userName)])%list)
        /\ (users (db (snd (SuperAdminDashboard.handleReject true userId userName
                              (snd (SuperAdminDashboard.checkSuperAdmin s))))) !! userId
              = None
            /\ log (snd (SuperAdminDashboard.handleReject true userId userName
                           (snd (SuperAdminDashboard.checkSuperAdmin s))))
               = (log s ++ [ToastLoading ("Rejecting " ++ userName ++ "...");
                           ToastSuccess (userName ++ " has been rejected and removed")])%list)).
Proof.
  intros Hs Hsa. rewrite (checkSuperAdmin_run s id sa Hs Hsa).
  cbn [snd fst ui db log SuperAdminDashboard.superAdmin
         SuperAdminDashboard.pendingUsers SuperAdminDashboard.approvedUsers].
  split; [reflexivity|]. split.
  - intros u [Hu|Hu];
      [apply In_pending_of in Hu | apply In_approved_of in Hu]; tauto.
  - intros now userId userName r Hr.
    rewrite handleApprove_run, handleRevokeApproval_run, handleReject_run.
    unfold refreshed, rejected, Store.update, Store.delete. simpl. rewrite Hr. simpl.
    rewrite !lookup_alter_eq, lookup_delete_eq, Hr. simpl. tauto.
Qed.

Lemma approval_scope_is_the_listing_witness :
  SuperAdminDashboard.superAdmin
    (ui (snd (SuperAdminDashboard.checkSuperAdmin (dashboard_sys "CED"))))
    = Some sample_head
  /\ users (db (snd (SuperAdminDashboard.handleApprove 20 "stu-1" "Lia"
                       (snd (SuperAdminDashboard.checkSuperAdmin (dashboard_sys "CED"))))))
       !! "stu-1"
     = Some (SuperAdminDashboard.approved "head-ccs" 20 (sample_student "CED")).
Proof.
  destruct (approval_scope_is_the_listing (dashboard_sys "CED") "head-ccs"
              (snd sample_head)) as (H1 & _ & H3).
  - reflexivity.
  - reflexivity.
  - split; [exact H1|].
    assert (Hr : users (db (dashboard_sys "CED")) !! "stu-1"
                 = Some (sample_student "CED")) by reflexivity.
    destruct (H3 20%N "stu-1" "Lia" (sample_student "CED") Hr) as ((H4 & _) & _).
    exact H4.
Defined.

(** Scenario C on a users profile: the CCS super admin approves a CED
    student.  The approval goes through and success is reported. *)
Lemma handleApprove_across_departments :
  sa_department (snd sample_head) = "CCS"
  /\ users (db (dashboard_sys "CED")) !! "stu-1" = Some (sample_student "CED")
  /\ us_department (sample_student "CED") = "CED"
  /\ log (snd (SuperAdminDashboard.handleApprove 20 "stu-1" "Lia" (dashboard_sys "CED")))
     = [ToastLoading "Approving Lia..."; ToastSuccess "Lia has been approved!"]
  /\ existsb is_failure_report
       (log (snd (SuperAdminDashboard.handleApprove 20 "stu-1" "Lia"
                    (dashboard_sys "CED")))) = false
  /\ users (db (snd (SuperAdminDashboard.handleApprove 20 "stu-1" "Lia"
                       (dashboard_sys "CED")))) !! "stu-1"
     = Some (SuperAdminDashboard.approved "head-ccs" 20 (sample_student "CED"))
  /\ users (db (snd (SuperAdminDashboard.handleApprove 20 "stu-1" "Lia"
                       (dashboard_sys "CED")))) !! "stu-1"
     <> users (db (dashboard_sys "CED")) !! "stu-1".
Proof.
  assert (Hafter :
    users (db (snd (SuperAdminDashboard.handleApprove 20 "stu-1" "Lia"
                      (dashboard_sys "CED")))) !! "stu-1"
    = Some (SuperAdminDashboard.approved "head-ccs" 20 (sample_student "CED")))
    by reflexivity.
  assert (Hbefore :
    users (db (dashboard_sys "CED")) !! "stu-1" = Some (sample_student "CED"))
    by reflexivity.
  split; [reflexivity|]. split; [exact Hbefore|]. split; [reflexivity|].
  split; [reflexivity|]. split; [reflexivity|]. split; [exact Hafter|].
  rewrite Hafter, Hbefore. discriminate.
Qed.

(** Scenario C as the spec words it, on an admins profile: the handler
    updates users only, so the CED admin is left as it was, and the handler
    still reports success. *)
Example handleApprove_admin_of_other_department :
  SuperAdminDashboard.handleApprove 20 "adm-ced" "Ced"
    (MkSys (ui (dashboard_sys "CCS")) ced_admin_world [])
  = (Done tt,
     MkSys
       (listed "CCS" (ui (dashboard_sys "CCS")) (users ced_admin_world))
       (set_users (Store.update (SuperAdminDashboard.approved "head-ccs" 20) "adm-ced"
                     (users ced_admin_world)) ced_admin_world)
       [ToastLoading "Approving Ced..."; ToastSuccess "Ced has been approved!"])
  /\ Store.update (SuperAdminDashboard.approved "head-ccs" 20) "adm-ced"
       (users ced_admin_world) = users ced_admin_world.
Proof.
  split.
  - rewrite handleApprove_run. reflexivity.
  - apply alter_id'. reflexivity.
Qed.

Lemma rejected_again userId w : rejected userId (rejected userId w) = rejected userId w.
Proof.
  assert (Hgone : forall w', users w' = Store.delete userId (users w) ->
                    rejected userId w' = w').
  { intros w' Hw'. unfold rejected. unfold Store.delete in *. rewrite Hw'.
    rewrite lookup_delete_eq, delete_delete_eq, <- Hw'.
    destruct w'. reflexivity. }
  apply Hgone. unfold rejected. destruct (users w !! userId); reflexivity.
Qed.

(** C7, as the handler has it: a confirmed reject of a users profile removes
    the row entirely, the account going with it, and reports success; a
    second reject of the same, now deleted id does not crash and changes
    nothing in the store, and it reports the same success once more: no
    not-found outcome is told apart. *)
Theorem handleReject_removes_and_repeats
    (userId userName : string) (s : Sys SuperAdminDashboard.State)
    (sa : Store.Selected SuperAdminRow) (r : UserRow) :
  SuperAdminDashboard.superAdmin (ui s) = Some sa ->
  users (db s) !! userId = Some r ->
  fst (SuperAdminDashboard.handleReject true userId userName s) = Done tt
  /\ users (db (snd (SuperAdminDashboard.handleReject true userId userName s)))
     = base.delete userId (users (db s))
  /\ users (db (snd (SuperAdminDashboard.handleReject true userId userName s))) !! userId
     = None
  /\ accounts (db (snd (SuperAdminDashboard.handleReject true userId userName s)))
     = accounts (db s) ∖ {[userId]}
  /\ log (snd (SuperAdminDashboard.handleReject true userId userName s))
     = (log s ++ [ToastLoading ("Rejecting " ++ userName ++ "...");
                  ToastSuccess (userName ++ " has been rejected and removed")])%list
  /\ fst (SuperAdminDashboard.handleReject true userId userName
            (snd (SuperAdminDashboard.handleReject true userId userName s)))
     = Done tt
  /\ db (snd (SuperAdminDashboard.handleReject true userId userName
                (snd (SuperAdminDashboard.handleReject true userId userName s))))
     = db (snd (SuperAdminDashboard.handleReject true userId userName s))
  /\ log (snd (SuperAdminDashboard.handleReject true userId userName
                 (snd (SuperAdminDashboard.handleReject true userId userName s))))
     = (log (snd (SuperAdminDashboard.handleReject true userId userName s))
        ++ [ToastLoading ("Rejecting " ++ userName ++ "...");
            ToastSuccess (userName ++ " has been rejected and removed")])%list.
Proof.
  intros Hsa Hr.
  assert (H1 : SuperAdminDashboard.handleReject true userId userName s
            = (Done tt,
               MkSys
                 (listed (sa_department (snd sa)) (ui s)
                    (Store.delete userId (users (db s))))
                 (rejected userId (db s))
                 (log s ++ [ToastLoading ("Rejecting " ++ userName ++ "...");
                            ToastSuccess (userName ++ " has been rejected and removed")]))).
  { rewrite handleReject_run. unfold refreshed, rejected. rewrite Hsa, Hr.
    reflexivity. }
  rewrite H1. cbn [fst snd db log].
  rewrite handleReject_run. unfold refreshed.
  cbn [ui db log listed SuperAdminDashboard.superAdmin fst snd].
  rewrite Hsa. cbn [fst snd db log]. rewrite rejected_again.
  unfold rejected. rewrite Hr. cbn [users accounts set_accounts set_users].
  unfold Store.delete. rewrite lookup_delete_eq. tauto.
Qed.

Lemma handleReject_removes_and_repeats_witness :
  users (db (snd (SuperAdminDashboard.handleReject true "stu-1" "Lia"
                    (dashboard_sys "CCS")))) !! "stu-1" = None
  /\ db (snd (SuperAdminDashboard.handleReject true "stu-1" "Lia"
                (snd (SuperAdminDashboard.handleReject true "stu-1" "Lia"
                        (dashboard_sys "CCS")))))
     = db (snd (SuperAdminDashboard.handleReject true "stu-1" "Lia"
                  (dashboard_sys "CCS"))).
Proof.
  destruct (handleReject_removes_and_repeats "stu-1" "Lia" (dashboard_sys "CCS")
              sample_head (sample_student "CCS"))
    as (_ & _ & H1 & _ & _ & _ & H2 & _).
  - reflexivity.
  - reflexivity.
  - split; [exact H1 | exact H2].
Defined.

(** Scenario E: the second reject of the same id reports
    [has been rejected and removed], as the first did, and no failure. *)
Lemma handleReject_twice_reports_success :
  users (db (snd (SuperAdminDashboard.handleReject true "stu-1" "Lia"
                    (dashboard_sys "CCS")))) !! "stu-1" = None
  /\ SuperAdminDashboard.handleReject true "stu-1" "Lia"
       (MkSys (ui (dashboard_sys "CCS"))
          (db (snd (SuperAdminDashboard.handleReject true "stu-1" "Lia"
                      (dashboard_sys "CCS")))) [])
     = (Done tt,
        MkSys
          (ui (snd (SuperAdminDashboard.handleReject true "stu-1" "Lia"
                      (dashboard_sys "CCS"))))
          (db (snd (SuperAdminDashboard.handleReject true "stu-1" "Lia"
                      (dashboard_sys "CCS"))))
          [ToastLoading "Rejecting Lia...";
           ToastSuccess "Lia has been rejected and removed"])
  /\ existsb is_failure_report
       (log (snd (SuperAdminDashboard.handleReject true "stu-1" "Lia"
                    (MkSys (ui (dashboard_sys "CCS"))
                       (db (snd (SuperAdminDashboard.handleReject true "stu-1" "Lia"
                                   (dashboard_sys "CCS")))) []))))
     = false.
Proof.
  split; [reflexivity|]. split; vm_compute; reflexivity.
Qed.

(** C8: every approval-workflow operation of the dashboard (listing,
    approve, reject, revoke) reads and mutates the users collection only.  It
    leaves admins and super_admins (and posts and comments) as they were, and
    its outcome, its listings, its events and the store it leaves are the
    same whatever admins and super_admins hold; so a profile stored in admins
    is never approved, revoked or rejected through the dashboard. *)
Theorem approval_workflow_frames_other_profiles
    (op : ApprovalOp) (s : Sys SuperAdminDashboard.State) :
  admins (db (snd (run_op op s))) = admins (db s)
  /\ super_admins (db (snd (run_op op s))) = super_admins (db s)
  /\ posts (db (snd (run_op op s))) = posts (db s)
  /\ comments (db (snd (run_op op s))) = comments (db s)
  /\ (forall a sa,
        run_op op (with_other_profiles a sa s)
        = (fst (run_op op s), with_other_profiles a sa (snd (run_op op s))))
  /\ (forall id, admins (db (snd (run_op op s))) !! id = admins (db s) !! id).
Proof.
  destruct s as [st [acc ses sas ads us ps cs] l].
  destruct op as [department | now userId userName | [] userId userName
                  | [] userId userName];
    cbn [run_op];
    rewrite ?fetchUsers_run, ?handleApprove_run, ?handleReject_run,
      ?handleRevokeApproval_run;
    unfold refreshed, rejected, with_other_profiles;
    cbn [ui db log users accounts set_users set_accounts set_admins
           set_super_admins];
    try destruct (SuperAdminDashboard.superAdmin st) eqn:E;
    try destruct (us !! userId) eqn:Hu;
    cbn [fst snd db admins super_admins posts comments set_users set_accounts];
    (split; [reflexivity|]); (split; [reflexivity|]); (split; [reflexivity|]);
    (split; [reflexivity|]); (split; [|reflexivity]);
    intros a sa;
    rewrite ?fetchUsers_run, ?handleApprove_run, ?handleReject_run,
      ?handleRevokeApproval_run;
    unfold refreshed, rejected;
    cbn [ui db log users accounts set_users set_accounts set_admins
           set_super_admins];
    rewrite ?E, ?Hu; reflexivity.
Qed.

(** ** The admin panel (C5, C9) *)

Lemma AdminPanel_fetchPosts_run (s : Sys AdminPanel.State) :
  AdminPanel.fetchPosts s =
    match AdminPanel.userProfile (ui s) with
    | Some profile =>
        (Done tt,
         MkSys
           {| AdminPanel.user := AdminPanel.user (ui s);
              AdminPanel.userProfile := AdminPanel.userProfile (ui s);
              AdminPanel.st_posts := admin_posts profile (db s);
              AdminPanel.formData := AdminPanel.formData (ui s);
              AdminPanel.editingPost := AdminPanel.editingPost (ui s) |}
           (db s) (log s))
    | None => (Done tt, reported s (ToastError "Failed to load posts"))
    end.
Proof.
  unfold AdminPanel.fetchPosts, AdminPanel.setPosts. eff_unfold. simpl.
  destruct (AdminPanel.userProfile (ui s)) eqn:E; simpl; rewrite ?E; reflexivity.
Qed.

Lemma AdminPanel_fetchPosts_db (s : Sys AdminPanel.State) :
  fst (AdminPanel.fetchPosts s) = Done tt
  /\ db (snd (AdminPanel.fetchPosts s)) = db s.
Proof.
  rewrite AdminPanel_fetchPosts_run.
  destruct (AdminPanel.userProfile (ui s)); split; reflexivity.
Qed.

Lemma handleCreatePost_rejected store_id now (s : Sys AdminPanel.State) :
  form_accepted (AdminPanel.formData (ui s)) = false ->
  AdminPanel.handleCreatePost store_id now s
    = (Done tt, reported s (form_rejection (AdminPanel.formData (ui s)))).
Proof.
  unfold form_accepted, form_rejection, AdminPanel.handleCreatePost.
  eff_unfold. simpl.
  destruct (JS.truthy (AdminPanel.fd_title _)); simpl; [|reflexivity].
  destruct (JS.truthy (AdminPanel.fd_content _)); simpl; [|reflexivity].
  destruct (AdminPanel.fd_type _ =? "event"); simpl; [|discriminate].
  destruct (JS.truthy (AdminPanel.fd_event_date _)); simpl;
    [discriminate | reflexivity].
Qed.

Lemma form_accepted_true fd :
  form_accepted fd = true ->
  JS.truthy (AdminPanel.fd_title fd) = true
  /\ JS.truthy (AdminPanel.fd_content fd) = true
  /\ (AdminPanel.fd_type fd =? "event")
     && negb (JS.truthy (AdminPanel.fd_event_date fd)) = false.
Proof.
  unfold form_accepted. intros H.
  apply andb_true_iff in H as [H Hd]. apply andb_true_iff in H as [Ht Hc].
  apply negb_true_iff in Hd. auto.
Qed.

Lemma handleCreatePost_accepted store_id now (s : Sys AdminPanel.State) :
  form_accepted (AdminPanel.formData (ui s)) = true ->
  AdminPanel.handleCreatePost store_id now s = (Done tt, created store_id now s).
Proof.
  intros H. apply form_accepted_true in H as (Ht & Hc & Hd).
  unfold AdminPanel.handleCreatePost, AdminPanel.fetchPosts,
    AdminPanel.setFormData, AdminPanel.setPosts, created, admin_posts.
  eff_unfold. unfold Store.insert. simpl. simpl in Hd. rewrite Ht, Hc, Hd. simpl.
  destruct (AdminPanel.userProfile (ui s)) as [profile|] eqn:E; simpl;
    [|rewrite <- !app_assoc; reflexivity].
  destruct (posts (db s) !! store_id) eqn:Hk; simpl; rewrite ?E; simpl;
    rewrite <- !app_assoc; reflexivity.
Qed.

Lemma handleEditPost_rejected (s : Sys AdminPanel.State) :
  form_accepted (AdminPanel.formData (ui s)) = false ->
  AdminPanel.handleEditPost s
    = (Done tt, reported s (form_rejection (AdminPanel.formData (ui s)))).
Proof.
  unfold form_accepted, form_rejection, AdminPanel.handleEditPost.
  eff_unfold. simpl.
  destruct (JS.truthy (AdminPanel.fd_title _)); simpl; [|reflexivity].
  destruct (JS.truthy (AdminPanel.fd_content _)); simpl; [|reflexivity].
  destruct (AdminPanel.fd_type _ =? "event"); simpl; [|discriminate].
  destruct (JS.truthy (AdminPanel.fd_event_date _)); simpl;
    [discriminate | reflexivity].
Qed.

Lemma handleEditPost_accepted (s : Sys AdminPanel.State) :
  form_accepted (AdminPanel.formData (ui s)) = true ->
  AdminPanel.handleEditPost s = (Done tt, edit_applied s).
Proof.
  intros H. apply form_accepted_true in H as (Ht & Hc & Hd).
  unfold AdminPanel.handleEditPost, AdminPanel.fetchPosts,
    AdminPanel.setFormData, AdminPanel.setEditingPost, AdminPanel.setPosts,
    edit_applied, admin_posts.
  eff_unfold. simpl. simpl in Hd. rewrite Ht, Hc, Hd. simpl.
  destruct (AdminPanel.editingPost (ui s)) as [post|] eqn:E; simpl;
    [|rewrite <- !app_assoc; reflexivity].
  destruct (AdminPanel.userProfile (ui s)) as [profile|] eqn:Ep; simpl;
    rewrite <- !app_assoc; reflexivity.
Qed.

Lemma event_date_ok_iff r :
  event_date_ok r -> (po_event_date r <> None <-> po_type r = "event").
Proof.
  unfold event_date_ok. destruct (po_event_date r); intros H; split; intros H';
    try tauto; try discriminate.
Qed.

Lemma truthy_nonempty s : JS.truthy s = true -> s <> "".
Proof.
  unfold JS.truthy. intros H. apply negb_true_iff in H.
  apply String.eqb_neq. exact H.
Qed.

Lemma event_date_of_ok fd :
  form_accepted fd = true ->
  match AdminPanel.event_date_of fd with
  | Some d => AdminPanel.fd_type fd = "event" /\ d <> ""
  | None => AdminPanel.fd_type fd <> "event"
  end.
Proof.
  intros H. apply form_accepted_true in H as (_ & _ & Hd).
  unfold AdminPanel.event_date_of.
  destruct (AdminPanel.fd_type fd =? "event") eqn:E.
  - apply String.eqb_eq in E. simpl in Hd. apply negb_false_iff in Hd.
    split; [exact E | apply truthy_nonempty; exact Hd].
  - apply String.eqb_neq. exact E.
Qed.

Lemma event_without_date_rejected fd :
  AdminPanel.fd_type fd = "event" -> AdminPanel.fd_event_date fd = "" ->
  form_accepted fd = false.
Proof.
  intros Ht Hd. unfold form_accepted. rewrite Ht, Hd. simpl.
  apply andb_false_r.
Qed.

Lemma run_post_op_written (op : PostOp) (s : Sys AdminPanel.State) k r :
  posts (db (snd (run_post_op op s))) !! k = Some r ->
  posts (db s) !! k = Some r
  \/ (form_accepted (AdminPanel.formData (ui s)) = true
      /\ po_type r = AdminPanel.fd_type (AdminPanel.formData (ui s))
      /\ po_event_date r = AdminPanel.event_date_of (AdminPanel.formData (ui s))).
Proof.
  destruct (form_accepted (AdminPanel.formData (ui s))) eqn:Hacc.
  - destruct op as [store_id now|]; cbn [run_post_op].
    + rewrite (handleCreatePost_accepted store_id now s Hacc). cbn [snd].
      unfold created.
      destruct (AdminPanel.userProfile (ui s)) as [profile|]; [|auto].
      destruct (posts (db s) !! store_id) eqn:Hk; [auto|].
      cbn [db posts set_posts]. rewrite lookup_insert.
      destruct (decide (store_id = k)) as [->|Hne]; [|auto].
      intros [= <-]. right. auto.
    + rewrite (handleEditPost_accepted s Hacc). cbn [snd]. unfold edit_applied.
      destruct (AdminPanel.editingPost (ui s)) as [post|]; [|auto].
      unfold Store.update.
      destruct (AdminPanel.userProfile (ui s)); cbn [db posts set_posts];
        (rewrite lookup_alter_Some; intros [[_ (x & _ & ->)] | [_ Hr]];
         [right; auto | left; exact Hr]).
  - destruct op as [store_id now|]; cbn [run_post_op];
      rewrite ?(handleCreatePost_rejected store_id now s Hacc),
        ?(handleEditPost_rejected s Hacc); auto.
Qed.

(** C5: for every post that post creation or post editing accepts,
    event_date is non-null exactly when the type is 'event'.  A form of type
    'event' with no event date is rejected before any storage write: the
    handler only reports the error.  Every row the handler writes has a
    non-null, non-empty event_date if its type is 'event' and a null
    event_date otherwise (so an announcement is saved with event_date null),
    and a posts table that satisfies the invariant still does afterwards. *)
Theorem post_event_date_iff_event (op : PostOp) (s : Sys AdminPanel.State) :
  (AdminPanel.fd_type (AdminPanel.formData (ui s)) = "event" ->
   AdminPanel.fd_event_date (AdminPanel.formData (ui s)) = "" ->
   run_post_op op s
     = (Done tt, reported s (form_rejection (AdminPanel.formData (ui s)))))
  /\ (forall k r,
        posts (db (snd (run_post_op op s))) !! k = Some r ->
        posts (db s) !! k = Some r
        \/ (event_date_ok r
            /\ (po_event_date r <> None <-> po_type r = "event")
            /\ (po_type r = "announcement" -> po_event_date r = None)))
  /\ ((forall k r, posts (db s) !! k = Some r -> event_date_ok r) ->
      forall k r, posts (db (snd (run_post_op op s))) !! k = Some r ->
                  event_date_ok r).
Proof.
  assert (Hw : forall k r,
             posts (db (snd (run_post_op op s))) !! k = Some r ->
             posts (db s) !! k = Some r \/ event_date_ok r).
  { intros k r Hr. destruct (run_post_op_written op s k r Hr)
      as [Hold | (Hacc & Ht & Hd)]; [auto|].
    right. unfold event_date_ok. rewrite Hd, Ht.
    apply event_date_of_ok. exact Hacc. }
  split; [|split].
  - intros Ht Hd. pose proof (event_without_date_rejected _ Ht Hd) as Hrej.
    destruct op as [store_id now|]; cbn [run_post_op].
    + apply handleCreatePost_rejected. exact Hrej.
    + apply handleEditPost_rejected. exact Hrej.
  - intros k r Hr. destruct (Hw k r Hr) as [Hold | Hok]; [auto|].
    right. split; [exact Hok|]. split; [apply event_date_ok_iff; exact Hok|].
    intros Ha. unfold event_date_ok in Hok.
    destruct (po_event_date r); [|reflexivity].
    destruct Hok as [He _]. rewrite Ha in He. discriminate.
  - intros Hinv k r Hr. destruct (Hw k r Hr) as [Hold | Hok]; eauto.
Qed.

(** Scenario D: an event without a date never reaches the store. *)
Example handleCreatePost_event_without_date :
  AdminPanel.handleCreatePost "post-1" 5
    (panel_sys {| AdminPanel.fd_title := "Fair"; AdminPanel.fd_content := "Come";
                  AdminPanel.fd_type := "event"; AdminPanel.fd_event_date := "" |})
  = (Done tt,
     reported
       (panel_sys {| AdminPanel.fd_title := "Fair"; AdminPanel.fd_content := "Come";
                     AdminPanel.fd_type := "event"; AdminPanel.fd_event_date := "" |})
       (ToastError "Event date is required for events")).
Proof. reflexivity. Qed.

(** An announcement is saved with a null event date even when the form
    still holds a date. *)
Example handleCreatePost_announcement_drops_date :
  posts (db (snd (AdminPanel.handleCreatePost "post-1" 5
    (panel_sys {| AdminPanel.fd_title := "Exams"; AdminPanel.fd_content := "Soon";
                  AdminPanel.fd_type := "announcement";
                  AdminPanel.fd_event_date := "2025-01-01T10:00" |})))) !! "post-1"
  = Some {| po_title := "Exams"; po_content := "Soon"; po_type := "announcement";
            po_department := "CCS"; po_author_id := "adm-1"; po_event_date := None;
            po_status := "active"; po_created_at := 5 |}.
Proof. vm_compute. reflexivity. Qed.

Example handleCreatePost_event_keeps_date :
  posts (db (snd (AdminPanel.handleCreatePost "post-1" 5
    (panel_sys {| AdminPanel.fd_title := "Fair"; AdminPanel.fd_content := "Come";
                  AdminPanel.fd_type := "event";
                  AdminPanel.fd_event_date := "2025-01-01T10:00" |})))) !! "post-1"
  = Some {| po_title := "Fair"; po_content := "Come"; po_type := "event";
            po_department := "CCS"; po_author_id := "adm-1";
            po_event_date := Some "2025-01-01T10:00";
            po_status := "active"; po_created_at := 5 |}.
Proof. vm_compute. reflexivity. Qed.

Lemma AdminPanel_checkAuth_run (s : Sys AdminPanel.State) :
  AdminPanel.checkAuth s =
    (Done tt,
     match session (db s) with
     | None => reported s (Navigate "/")
     | Some id =>
         match users (db s) !! id with
         | None => MkSys (with_user id (ui s)) (db s) (log s ++ [Navigate "/"])
         | Some r =>
             if us_role r =? "admin"
             then MkSys (with_profile id r (ui s)) (db s) (log s)
             else MkSys (with_user id (ui s)) (db s)
                    (log s ++ [ToastError "Access denied. Admin only.";
                               Navigate "/dashboard"])
         end
     end).
Proof.
  unfold AdminPanel.checkAuth, AdminPanel.setUser, AdminPanel.setUserProfile,
    reported, with_user, with_profile, Store.single, Store.eq_id.
  eff_unfold. simpl.
  destruct (session (db s)) as [id|]; simpl; [|reflexivity].
  destruct (users (db s) !! id) as [r|]; simpl; [|reflexivity].
  destruct (us_role r =? "admin"); simpl; rewrite <- ?app_assoc; reflexivity.
Qed.

Lemma run_post_op_without_profile (op : PostOp) (s : Sys AdminPanel.State) :
  AdminPanel.userProfile (ui s) = None ->
  AdminPanel.editingPost (ui s) = None ->
  db (snd (run_post_op op s)) = db s.
Proof.
  intros Hp He. destruct (form_accepted (AdminPanel.formData (ui s))) eqn:Hacc;
    destruct op as [store_id now|]; cbn [run_post_op].
  - rewrite (handleCreatePost_accepted _ _ _ Hacc). unfold created.
    rewrite Hp. reflexivity.
  - rewrite (handleEditPost_accepted _ Hacc). unfold edit_applied.
    rewrite He. reflexivity.
  - rewrite (handleCreatePost_rejected _ _ _ Hacc). reflexivity.
  - rewrite (handleEditPost_rejected _ Hacc). reflexivity.
Qed.

Lemma AdminPanel_checkAuth_frame (s : Sys AdminPanel.State) :
  db (snd (AdminPanel.checkAuth s)) = db s
  /\ AdminPanel.editingPost (ui (snd (AdminPanel.checkAuth s)))
     = AdminPanel.editingPost (ui s)
  /\ AdminPanel.st_posts (ui (snd (AdminPanel.checkAuth s)))
     = AdminPanel.st_posts (ui s)
  /\ (AdminPanel.userProfile (ui (snd (AdminPanel.checkAuth s))) = None ->
      log (snd (AdminPanel.checkAuth s)) = (log s ++ [Navigate "/"])%list
      \/ log (snd (AdminPanel.checkAuth s))
         = (log s ++ [ToastError "Access denied. Admin only.";
                      Navigate "/dashboard"])%list).
Proof.
  rewrite AdminPanel_checkAuth_run. cbn [snd].
  destruct (session (db s)) as [id|]; [|cbn; auto].
  destruct (users (db s) !! id) as [r|]; [|cbn; auto].
  destruct (us_role r =? "admin"); cbn; auto.
  repeat split; try reflexivity. discriminate.
Qed.

(** C9: the Admin Panel lets a session in (sets userProfile) if and only if
    the users collection has a row under the session's account id whose role
    is 'admin'.  Every other session is redirected: to the landing page when
    there is no session or no users row, and to the dashboard, with access
    denied, when the row has another role.  An id that is only in the admins
    collection is among the redirected ones.  A redirected session has no
    profile and no listing, and post creation and post editing write nothing
    for it. *)
Theorem adminPanel_admission (s : Sys AdminPanel.State) :
  AdminPanel.userProfile (ui s) = None ->
  AdminPanel.editingPost (ui s) = None ->
  (is_Some (AdminPanel.userProfile (ui (snd (AdminPanel.checkAuth s))))
   <-> exists id r,
         session (db s) = Some id /\ users (db s) !! id = Some r
         /\ us_role r = "admin")
  /\ (AdminPanel.userProfile (ui (snd (AdminPanel.checkAuth s))) = None ->
      (log (snd (AdminPanel.checkAuth s)) = log s ++ [Navigate "/"]
       \/ log (snd (AdminPanel.checkAuth s))
          = log s ++ [ToastError "Access denied. Admin only."; Navigate "/dashboard"])%list
      /\ AdminPanel.st_posts (ui (snd (AdminPanel.checkAuth s)))
         = AdminPanel.st_posts (ui s)
      /\ forall fd op,
           db (snd (run_post_op op (filled fd (snd (AdminPanel.checkAuth s)))))
           = db s)
  /\ (forall id a,
        session (db s) = Some id -> admins (db s) !! id = Some a ->
        users (db s) !! id = None ->
        AdminPanel.userProfile (ui (snd (AdminPanel.checkAuth s))) = None
        /\ log (snd (AdminPanel.checkAuth s)) = (log s ++ [Navigate "/"])%list).
Proof.
  intros Hp He. split; [|split].
  - rewrite AdminPanel_checkAuth_run. cbn [snd].
    destruct (session (db s)) as [id|]; cbn.
    + destruct (users (db s) !! id) as [r|] eqn:Hr; cbn.
      * destruct (us_role r =? "admin") eqn:Hrole; cbn.
        -- apply String.eqb_eq in Hrole. split; [|eauto].
           intros _. exists id, r. auto.
        -- apply String.eqb_neq in Hrole. rewrite Hp. split.
           ++ intros [x Hx]. discriminate.
           ++ intros (id' & r' & [= <-] & Hr' & Hrole').
              rewrite Hr in Hr'. injection Hr' as <-. contradiction.
      * rewrite Hp. split.
        -- intros [x Hx]. discriminate.
        -- intros (id' & r' & [= <-] & Hr' & _). rewrite Hr in Hr'. discriminate.
    + rewrite Hp. split.
      * intros [x Hx]. discriminate.
      * intros (id' & r' & Hs & _). discriminate.
  - intros Hnone.
    destruct (AdminPanel_checkAuth_frame s) as (Hdb & Hed & Hposts & Hlog).
    split; [exact (Hlog Hnone)|]. split; [exact Hposts|].
    intros fd op. rewrite <- Hdb.
    apply (run_post_op_without_profile op (filled fd (snd (AdminPanel.checkAuth s)))).
    + exact Hnone.
    + cbn. rewrite Hed. exact He.
  - intros id a Hs _ Hu. rewrite AdminPanel_checkAuth_run, Hs, Hu. cbn. auto.
Qed.

Lemma adminPanel_admission_witness :
  AdminPanel.userProfile (ui (snd (AdminPanel.checkAuth admin_session))) = None
  /\ log (snd (AdminPanel.checkAuth admin_session)) = [Navigate "/"].
Proof.
  destruct (adminPanel_admission admin_session) as (_ & _ & H).
  - reflexivity.
  - reflexivity.
  - assert (Ha : admins (db admin_session) !! "acct-1" = Some sample_admin)
      by reflexivity.
    assert (Hu : users (db admin_session) !! "acct-1" = None) by reflexivity.
    exact (H "acct-1" sample_admin Logic.eq_refl Ha Hu).
Defined.

(** ** Post visibility (C6) *)

Lemma Dashboard_fetchPosts_then_filter (s : Sys Dashboard.State) :
  (bind Dashboard.fetchPosts (fun _ => Dashboard.applyDepartmentFilter)) s =
    (Done tt,
     MkSys
       {| Dashboard.user := Dashboard.user (ui s);
          Dashboard.userProfile := Dashboard.userProfile (ui s);
          Dashboard.st_posts := feed_posts (db s);
          Dashboard.filteredPosts :=
            shown (Dashboard.selectedDepartment (ui s)) (feed_posts (db s));
          Dashboard.selectedDepartment := Dashboard.selectedDepartment (ui s) |}
       (db s) (log s)).
Proof.
  unfold Dashboard.fetchPosts, Dashboard.applyDepartmentFilter,
    Dashboard.setPosts, Dashboard.setFilteredPosts, shown, feed_posts.
  eff_unfold. simpl.
  destruct (Dashboard.selectedDepartment (ui s) =? "all"); reflexivity.
Qed.

Lemma In_feed_posts (w : World) (p : PostView) :
  In p (feed_posts w) ->
  posts w !! pv_id p = Some (pv_row p) /\ po_status (pv_row p) = "active".
Proof.
  unfold feed_posts. intros H. apply In_postsWithComments in H.
  apply In_order, In_eq in H as [H Hs]. apply In_select in H. auto.
Qed.

Lemma feed_posts_complete (w : World) k r :
  posts w !! k = Some r -> po_status r = "active" ->
  exists p, In p (feed_posts w) /\ pv_id p = k /\ pv_row p = r.
Proof.
  intros Hk Hs. unfold feed_posts, postsWithComments.
  eexists. split.
  - apply in_map_iff. exists (k, r). split; [reflexivity|].
    apply In_order, In_eq. split; [apply In_select; exact Hk | exact Hs].
  - split; reflexivity.
Qed.

Lemma Archive_fetchPosts_user (s : Sys Archive.State) profile :
  Archive.userType (ui s) = Some "user" ->
  Archive.userProfile (ui s) = Some (Archive.UserProfile profile) ->
  Archive.fetchPosts s =
    (Done tt,
     MkSys
       {| Archive.user := Archive.user (ui s);
          Archive.userProfile := Archive.userProfile (ui s);
          Archive.userType := Archive.userType (ui s);
          Archive.st_posts := archive_posts_of_user profile (db s) |}
       (db s) (log s)).
Proof.
  intros Ht Hp. unfold Archive.fetchPosts, Archive.setPosts, archive_posts_of_user.
  eff_unfold. simpl. rewrite Ht, Hp. simpl. rewrite ?Ht, ?Hp. reflexivity.
Qed.

Lemma Archive_checkAuth_user (s : Sys Archive.State) id r :
  session (db s) = Some id ->
  super_admins (db s) !! id = None -> admins (db s) !! id = None ->
  users (db s) !! id = Some r ->
  Archive.checkAuth s =
    (Done tt,
     MkSys
       {| Archive.user := Some id;
          Archive.userProfile := Some (Archive.UserProfile (id, r));
          Archive.userType := Some "user";
          Archive.st_posts := Archive.st_posts (ui s) |}
       (db s) (log s)).
Proof.
  intros Hs Hsa Had Hus.
  unfold Archive.checkAuth, Archive.setUser, Archive.setUserProfile,
    Archive.setUserType.
  eff_unfold. simpl. rewrite Hs. simpl.
  rewrite maybeSingle_eq_id, Hsa. simpl.
  rewrite maybeSingle_eq_id, Had. simpl.
  rewrite maybeSingle_eq_id, Hus. reflexivity.
Qed.

Lemma Dashboard_checkAuth_user (s : Sys Dashboard.State) id r :
  session (db s) = Some id -> users (db s) !! id = Some r ->
  Dashboard.checkAuth s =
    (Done tt,
     MkSys
       {| Dashboard.user := Some id;
          Dashboard.userProfile := Some (id, r);
          Dashboard.st_posts := Dashboard.st_posts (ui s);
          Dashboard.filteredPosts := Dashboard.filteredPosts (ui s);
          Dashboard.selectedDepartment := Dashboard.selectedDepartment (ui s) |}
       (db s) (log s)).
Proof.
  intros Hs Hus.
  unfold Dashboard.checkAuth, Dashboard.setUser, Dashboard.setUserProfile.
  eff_unfold. simpl. rewrite Hs. simpl.
  rewrite (single_eq_id_Some id _ r Hus). reflexivity.
Qed.

Lemma Archive_mount_user (w : World) id r :
  session w = Some id ->
  super_admins w !! id = None -> admins w !! id = None ->
  users w !! id = Some r ->
  Archive.mount (MkSys Archive.initial w []) =
    (Done tt,
     MkSys
       {| Archive.user := Some id;
          Archive.userProfile := Some (Archive.UserProfile (id, r));
          Archive.userType := Some "user";
          Archive.st_posts := archive_posts_of_user (id, r) w |}
       w []).
Proof.
  intros Hs Hsa Had Hus. unfold Archive.mount.
  unfold bind at 1.
  rewrite (Archive_checkAuth_user (MkSys Archive.initial w []) id r Hs Hsa Had Hus).
  unfold bind, get_ui. cbn [ui Archive.user Archive.userProfile Archive.userType].
  rewrite (Archive_fetchPosts_user _ (id, r)); reflexivity.
Qed.

Lemma Dashboard_mount_user (w : World) (d : Dashboard.State) id r :
  session w = Some id -> users w !! id = Some r ->
  Dashboard.mount (MkSys d w []) =
    (Done tt,
     MkSys
       {| Dashboard.user := Some id;
          Dashboard.userProfile := Some (id, r);
          Dashboard.st_posts := feed_posts w;
          Dashboard.filteredPosts := shown (Dashboard.selectedDepartment d) (feed_posts w);
          Dashboard.selectedDepartment := Dashboard.selectedDepartment d |}
       w []).
Proof.
  intros Hs Hus. unfold Dashboard.mount.
  unfold bind at 1.
  rewrite (Dashboard_checkAuth_user (MkSys d w []) id r Hs Hus).
  unfold bind at 1, get_ui at 1. cbn [ui Dashboard.user].
  rewrite Dashboard_fetchPosts_then_filter. reflexivity.
Qed.

(** C6, as the pages have it: for a viewer of tier 'user', the archive view
    holds only posts of the viewer's own department with status 'archived';
    the general feed holds only posts with status 'active', of whatever
    department: every active post when no department is selected, and the
    posts of the selected department otherwise. *)
Theorem user_post_visibility
    (w : World) (d : Dashboard.State) (id : string) (r : UserRow) :
  session w = Some id ->
  super_admins w !! id = None -> admins w !! id = None ->
  users w !! id = Some r ->
  (forall p,
      In p (Archive.st_posts (ui (snd (Archive.mount (MkSys Archive.initial w []))))) ->
      posts w !! pv_id p = Some (pv_row p)
      /\ po_department (pv_row p) = us_department r
      /\ po_status (pv_row p) = "archived")
  /\ (forall p,
        In p (Dashboard.filteredPosts (ui (snd (Dashboard.mount (MkSys d w []))))) ->
        posts w !! pv_id p = Some (pv_row p)
        /\ po_status (pv_row p) = "active"
        /\ (Dashboard.selectedDepartment d <> "all" ->
            po_department (pv_row p) = Dashboard.selectedDepartment d))
  /\ (Dashboard.selectedDepartment d = "all" ->
      forall k post,
        posts w !! k = Some post -> po_status post = "active" ->
        exists p,
          In p (Dashboard.filteredPosts (ui (snd (Dashboard.mount (MkSys d w [])))))
          /\ pv_id p = k /\ pv_row p = post).
Proof.
  intros Hs Hsa Had Hus.
  rewrite (Archive_mount_user w id r Hs Hsa Had Hus).
  rewrite (Dashboard_mount_user w d id r Hs Hus).
  cbn [snd ui Archive.st_posts Dashboard.filteredPosts].
  split; [|split].
  - intros p Hp. unfold archive_posts_of_user in Hp.
    apply In_postsWithComments in Hp.
    apply In_order, In_eq in Hp as [Hp Hd]. apply In_eq in Hp as [Hp Hst].
    apply In_select in Hp. auto.
  - intros p Hp. unfold shown in Hp.
    destruct (Dashboard.selectedDepartment d =? "all") eqn:E.
    + apply String.eqb_eq in E. apply In_feed_posts in Hp as [Hk Hst].
      split; [exact Hk|]. split; [exact Hst|]. intros Hne. contradiction.
    + apply filter_In in Hp as [Hp Hd]. apply String.eqb_eq in Hd.
      apply In_feed_posts in Hp as [Hk Hst]. auto.
  - intros Hall k post Hk Hst. unfold shown. rewrite Hall. cbn.
    apply feed_posts_complete; assumption.
Qed.

Lemma user_post_visibility_witness :
  List.Forall
    (fun p => po_department (pv_row p) = "CCS" /\ po_status (pv_row p) = "archived")
    (Archive.st_posts
       (ui (snd (Archive.mount (MkSys Archive.initial feed_world [])))))
  /\ List.Forall
       (fun p => po_status (pv_row p) = "active")
       (Dashboard.filteredPosts
          (ui (snd (Dashboard.mount (MkSys Dashboard.initial feed_world []))))).
Proof.
  destruct (user_post_visibility feed_world Dashboard.initial "stu-1"
              (approved_student "CCS")) as (Ha & Hf & _).
  - reflexivity.
  - reflexivity.
  - reflexivity.
  - reflexivity.
  - split; apply List.Forall_forall; intros p Hp.
    + destruct (Ha p Hp) as (_ & Hd & Hst). split; assumption.
    + destruct (Hf p Hp) as (_ & Hst & _). exact Hst.
Defined.

(** A CCS student opens the general feed: the active post of the CED
    department is shown. *)
Lemma dashboard_feed_shows_other_departments :
  users feed_world !! "stu-1" = Some (approved_student "CCS")
  /\ us_department (approved_student "CCS") = "CCS"
  /\ map (fun p => (pv_id p, po_department (pv_row p), po_status (pv_row p)))
       (Dashboard.filteredPosts
          (ui (snd (Dashboard.mount (MkSys Dashboard.initial feed_world [])))))
     = [("post-ced", "CED", "active")]
  /\ ~ List.Forall
        (fun p => po_department (pv_row p) = us_department (approved_student "CCS"))
        (Dashboard.filteredPosts
           (ui (snd (Dashboard.mount (MkSys Dashboard.initial feed_world []))))).
Proof.
  assert (Hfeed :
    map (fun p => (pv_id p, po_department (pv_row p), po_status (pv_row p)))
      (Dashboard.filteredPosts
         (ui (snd (Dashboard.mount (MkSys Dashboard.initial feed_world [])))))
    = [("post-ced", "CED", "active")])
    by (vm_compute; reflexivity).
  split; [reflexivity|]. split; [reflexivity|]. split; [exact Hfeed|].
  intros Hall.
  destruct (Dashboard.filteredPosts
              (ui (snd (Dashboard.mount (MkSys Dashboard.initial feed_world [])))))
    as [|p l]; [discriminate|].
  inversion Hall as [|? ? Hp _]. injection Hfeed as _ Hd _ _.
  rewrite Hp in Hd. discriminate.
Qed.

(** ** Comments (C10) *)

Lemma handleAddComment_blank store_id now (s : Sys PostDetail.State) :
  JS.allWhiteSpace (PostDetail.newComment (ui s)) = true ->
  PostDetail.handleAddComment store_id now s
    = (Done tt, reported s (ToastError "Comment cannot be empty")).
Proof.
  intros H. unfold PostDetail.handleAddComment. eff_unfold. simpl.
  rewrite (trim_allWhiteSpace _ H). reflexivity.
Qed.

Lemma handleAddComment_db store_id now (s : Sys PostDetail.State) :
  db (snd (PostDetail.handleAddComment store_id now s)) =
    if JS.truthy (JS.trim (PostDetail.newComment (ui s))) then
      match PostDetail.userProfile (ui s), comments (db s) !! store_id with
      | Some profile, None =>
          set_comments (<[store_id := new_comment s profile now]> (comments (db s)))
            (db s)
      | _, _ => db s
      end
    else db s.
Proof.
  unfold PostDetail.handleAddComment, PostDetail.fetchComments,
    PostDetail.setNewComment, PostDetail.setComments, new_comment.
  eff_unfold. unfold Store.insert. simpl.
  destruct (JS.truthy (JS.trim (PostDetail.newComment (ui s)))); simpl;
    [|reflexivity].
  destruct (PostDetail.userProfile (ui s)) as [profile|]; simpl; [|reflexivity].
  destruct (comments (db s) !! store_id); reflexivity.
Qed.

(** C10: a comment that is empty or all whitespace is rejected before any
    insert: the handler only reports the error, and the store, with its
    comment set, is as it was.  Every comment the handler stores has the
    trimmed input as its content: the input without its leading and trailing
    whitespace, which is not empty.  And a comment that is not all whitespace
    is stored, for a viewer whose profile is loaded. *)
Theorem handleAddComment_trims
    (store_id : string) (now : N) (s : Sys PostDetail.State) :
  (JS.allWhiteSpace (PostDetail.newComment (ui s)) = true ->
   PostDetail.handleAddComment store_id now s
     = (Done tt, reported s (ToastError "Comment cannot be empty")))
  /\ (forall k c,
        comments (db (snd (PostDetail.handleAddComment store_id now s))) !! k = Some c ->
        comments (db s) !! k = Some c
        \/ (k = store_id
            /\ co_post_id c = PostDetail.id (ui s)
            /\ co_content c = JS.trim (PostDetail.newComment (ui s))
            /\ co_content c <> ""
            /\ (exists pre post,
                   PostDetail.newComment (ui s) = pre ++ co_content c ++ post
                   /\ JS.allWhiteSpace pre = true /\ JS.allWhiteSpace post = true)
            /\ (forall u, JS.first_unit (co_content c) = Some u ->
                          JS.isWhiteSpace u = false)
            /\ (forall u, JS.last_unit (co_content c) = Some u ->
                          JS.isWhiteSpace u = false)))
  /\ (JS.allWhiteSpace (PostDetail.newComment (ui s)) = false ->
      forall profile,
        PostDetail.userProfile (ui s) = Some profile ->
        comments (db s) !! store_id = None ->
        db (snd (PostDetail.handleAddComment store_id now s))
        = set_comments
            (<[store_id := new_comment s profile now]> (comments (db s))) (db s)).
Proof.
  split; [apply handleAddComment_blank|]. split.
  - intros k c. rewrite handleAddComment_db.
    destruct (JS.truthy (JS.trim (PostDetail.newComment (ui s)))) eqn:Ht; [|auto].
    destruct (PostDetail.userProfile (ui s)) as [profile|]; [|auto].
    destruct (comments (db s) !! store_id) eqn:Hk; [auto|].
    cbn [comments set_comments]. rewrite lookup_insert.
    destruct (decide (store_id = k)) as [->|Hne]; [|auto].
    intros [= <-]. right. cbn [new_comment co_post_id co_content].
    split; [reflexivity|]. split; [reflexivity|]. split; [reflexivity|].
    split; [apply truthy_nonempty; exact Ht|].
    split; [apply trim_split|]. apply trim_trimmed.
  - intros Hw profile Hp Hk. rewrite handleAddComment_db, Hp, Hk.
    rewrite truthy_true; [reflexivity|].
    intros He. apply trim_empty_iff in He. rewrite He in Hw. discriminate.
Qed.

Example handleAddComment_stores_trimmed :
  comments (db (snd (PostDetail.handleAddComment "c-1" 7
    (MkSys
       {| PostDetail.id := "post-ced"; PostDetail.user := Some "stu-1";
          PostDetail.userProfile := Some ("stu-1", approved_student "CCS");
          PostDetail.st_comments := [];
          PostDetail.newComment := "  see you there  " |}
       feed_world [])))) !! "c-1"
  = Some {| co_post_id := "post-ced"; co_user_id := "stu-1";
            co_content := "see you there"; co_created_at := 7 |}.
Proof. vm_compute. reflexivity. Qed.

Example handleAddComment_rejects_blank :
  PostDetail.handleAddComment "c-1" 7
    (MkSys
       {| PostDetail.id := "post-ced"; PostDetail.user := Some "stu-1";
          PostDetail.userProfile := Some ("stu-1", approved_student "CCS");
          PostDetail.st_comments := [];
          PostDetail.newComment := "   " |}
       feed_world [])
  = (Done tt,
     MkSys
       {| PostDetail.id := "post-ced"; PostDetail.user := Some "stu-1";
          PostDetail.userProfile := Some ("stu-1", approved_student "CCS");
          PostDetail.st_comments := [];
          PostDetail.newComment := "   " |}
       feed_world [ToastError "Comment cannot be empty"]).
Proof. reflexivity. Qed.

(** ** Registration in general *)

Lemma handleSignup_effect idp now (s : Sys LandingPage.State) :
  fst (LandingPage.handleSignup idp now s) = Done tt
  /\ signup_effect (LandingPage.signupData (ui s)) now (db s)
       (db (snd (LandingPage.handleSignup idp now s))).
Proof.
  unfold LandingPage.handleSignup, LandingPage.validateFields,
    LandingPage.validateSuperAdmin, LandingPage.validateAdmin,
    LandingPage.createAccount, signUp, LandingPage.setSignupData, newAdminRow.
  eff_unfold. unfold Store.insert. cbn [ui db log].
  set (d := LandingPage.signupData (ui s)).
  destruct (negb (JS.truthy (LandingPage.signup_name d))
            || negb (JS.truthy (LandingPage.signup_email d))
            || negb (JS.truthy (LandingPage.signup_password d))
            || negb (JS.truthy (LandingPage.signup_confirmPassword d)));
    cbn -[Nat.ltb]; [split; [reflexivity | constructor]|].
  destruct (negb (LandingPage.signup_password d =? LandingPage.signup_confirmPassword d));
    cbn -[Nat.ltb]; [split; [reflexivity | constructor]|].
  destruct (String.length (LandingPage.signup_password d) <? 6)%nat;
    cbn -[Nat.ltb]; [split; [reflexivity | constructor]|].
  destruct (LandingPage.signup_role d =? "super_admin") eqn:Hsa; cbn -[Nat.ltb].
  - apply String.eqb_eq in Hsa.
    destruct (negb (JS.toLowerCase (LandingPage.signup_email d)
                    =? LandingPage.headEmail (LandingPage.signup_department d)));
      cbn -[Nat.ltb]; [split; [reflexivity | constructor]|].
    destruct (Store.maybeSingle
                (Store.eq sa_department (LandingPage.signup_department d)
                   (Store.select (super_admins (db s))))) eqn:Hdup;
      cbn -[Nat.ltb]; [split; [reflexivity | constructor]|].
    assert (Hadm : (LandingPage.signup_role d =? "admin") = false)
      by (rewrite Hsa; reflexivity).
    rewrite Hadm. cbn -[Nat.ltb].
    destruct (signUp_response idp (LandingPage.signup_email d)
                (LandingPage.signup_password d)) as [e|id];
      cbn -[Nat.ltb]; [split; [reflexivity | constructor]|].
    destruct (super_admins (db s) !! id) eqn:Hfree; cbn -[Nat.ltb].
    + split; [reflexivity | apply signup_account_only].
    + split; [reflexivity | apply signup_super_admin; assumption].
  - apply String.eqb_neq in Hsa.
    destruct (LandingPage.signup_role d =? "admin") eqn:Hadm; cbn -[Nat.ltb].
    + apply String.eqb_eq in Hadm.
      destruct (negb (JS.toLowerCase (LandingPage.signup_email d)
                      =? LandingPage.adminEmail (LandingPage.signup_department d)));
        cbn -[Nat.ltb]; [split; [reflexivity | constructor]|].
      destruct (Store.maybeSingle
                  (Store.eq ad_department (LandingPage.signup_department d)
                     (Store.select (admins (db s))))) eqn:Hdup;
        cbn -[Nat.ltb]; [split; [reflexivity | constructor]|].
      destruct (signUp_response idp (LandingPage.signup_email d)
                  (LandingPage.signup_password d)) as [e|id];
        cbn -[Nat.ltb]; [split; [reflexivity | constructor]|].
      destruct (admins (db s) !! id) eqn:Hfree; cbn -[Nat.ltb].
      * split; [reflexivity | apply signup_account_only].
      * split; [reflexivity | apply signup_admin; assumption].
    + apply String.eqb_neq in Hadm.
      destruct (signUp_response idp (LandingPage.signup_email d)
                  (LandingPage.signup_password d)) as [e|id];
        cbn -[Nat.ltb]; [split; [reflexivity | constructor]|].
      destruct (users (db s) !! id) eqn:Hfree; cbn -[Nat.ltb].
      * split; [reflexivity | apply signup_account_only].
      * split; [reflexivity | apply signup_user; assumption].
Qed.

(** Whatever the form holds and whatever the identity provider answers,
    handleSignup leaves the session, the posts and the comments alone, keeps
    every profile row that was stored, and adds at most one row over the three
    profile collections. *)
Theorem handleSignup_adds_at_most_one_profile
    (idp : IdentityProvider) (now : N) (s : Sys LandingPage.State) :
  session (after_signup idp now s) = session (db s)
  /\ posts (after_signup idp now s) = posts (db s)
  /\ comments (after_signup idp now s) = comments (db s)
  /\ (forall k r, super_admins (db s) !! k = Some r ->
                  super_admins (after_signup idp now s) !! k = Some r)
  /\ (forall k r, admins (db s) !! k = Some r ->
                  admins (after_signup idp now s) !! k = Some r)
  /\ (forall k r, users (db s) !! k = Some r ->
                  users (after_signup idp now s) !! k = Some r)
  /\ size (super_admins (after_signup idp now s))
     + size (admins (after_signup idp now s))
     + size (users (after_signup idp now s))
     <= S (size (super_admins (db s)) + size (admins (db s)) + size (users (db s))).
Proof.
  unfold after_signup.
  destruct (handleSignup_effect idp now s) as [_ H].
  destruct H as [ | id | id _ _ Hfree | id _ _ Hfree | id _ _ Hfree]; cbn;
    (split; [reflexivity|]); (split; [reflexivity|]); (split; [reflexivity|]);
    (split; [|split; [|split]]);
    try (intros k r Hk;
         first [ exact Hk
               | rewrite lookup_insert_ne; [exact Hk | congruence] ]);
    try (rewrite map_size_insert_None by exact Hfree); lia.
Qed.

Lemma maybeSingle_none_under_one_per_department {R} (department : R -> string)
    (d : string) (t : gmap string R) :
  one_per_department department t ->
  Store.maybeSingle (Store.eq department d (Store.select t)) = None ->
  forall k r, t !! k = Some r -> department r <> d.
Proof.
  intros Hone Hnone k r Hk Hd.
  rewrite (eq_select_one department d t k r Hk Hd) in Hnone; [discriminate|].
  intros k' r' Hk' Hd'. apply (Hone k' k r' r Hk' Hk). congruence.
Qed.

Lemma one_per_department_insert {R} (department : R -> string)
    (t : gmap string R) id row :
  one_per_department department t ->
  (forall k r, t !! k = Some r -> department r <> department row) ->
  one_per_department department (<[id := row]> t).
Proof.
  intros Hone Hfresh k1 k2 r1 r2. rewrite !lookup_insert.
  destruct (decide (id = k1)) as [<-|H1], (decide (id = k2)) as [<-|H2];
    intros Hr1 Hr2 Hd.
  - reflexivity.
  - injection Hr1 as <-. exfalso. apply (Hfresh k2 r2 Hr2). congruence.
  - injection Hr2 as <-. exfalso. apply (Hfresh k1 r1 Hr1). congruence.
  - exact (Hone k1 k2 r1 r2 Hr1 Hr2 Hd).
Qed.

(** Registration keeps the one-slot rule when registrations run one after
    another: if no department has two AdminProfiles and none has two
    SuperAdminProfiles, the same holds after handleSignup, whatever was
    submitted. *)
Theorem handleSignup_keeps_one_per_department
    (idp : IdentityProvider) (now : N) (s : Sys LandingPage.State) :
  one_per_department ad_department (admins (db s)) ->
  one_per_department sa_department (super_admins (db s)) ->
  one_per_department ad_department (admins (after_signup idp now s))
  /\ one_per_department sa_department (super_admins (after_signup idp now s)).
Proof.
  intros Had Hsa. unfold after_signup.
  destruct (handleSignup_effect idp now s) as [_ H].
  destruct H as [ | id | id _ Hnone Hfree | id _ Hnone Hfree | id _ _ Hfree];
    cbn; try (split; assumption).
  - split; [exact Had|].
    apply one_per_department_insert; [exact Hsa|].
    apply (maybeSingle_none_under_one_per_department _ _ _ Hsa Hnone).
  - split; [|exact Hsa].
    apply one_per_department_insert; [exact Had|].
    apply (maybeSingle_none_under_one_per_department _ _ _ Had Hnone).
Qed.

Lemma handleSignup_keeps_one_per_department_witness :
  one_per_department ad_department (admins (after_signup sample_idp 0 scenarioA))
  /\ one_per_department sa_department
       (super_admins (after_signup sample_idp 0 scenarioA)).
Proof.
  apply (handleSignup_keeps_one_per_department sample_idp 0 scenarioA).
  - intros k1 k2 r1 r2 H1. cbn in H1. rewrite lookup_empty in H1. discriminate.
  - intros k1 k2 r1 r2 H1. cbn in H1. rewrite lookup_empty in H1. discriminate.
Defined.

(** A registration with a missing field, unequal passwords or a password of
    fewer than 6 characters is refused with one of the three field errors,
    for every role; nothing is stored, the form is kept, and the identity
    provider has no part in the outcome. *)
Theorem handleSignup_invalid_fields (s : Sys LandingPage.State) :
  LandingPage.signup_name (LandingPage.signupData (ui s)) = ""
  \/ LandingPage.signup_email (LandingPage.signupData (ui s)) = ""
  \/ LandingPage.signup_password (LandingPage.signupData (ui s)) = ""
  \/ LandingPage.signup_confirmPassword (LandingPage.signupData (ui s)) = ""
  \/ LandingPage.signup_password (LandingPage.signupData (ui s))
     <> LandingPage.signup_confirmPassword (LandingPage.signupData (ui s))
  \/ String.length (LandingPage.signup_password (LandingPage.signupData (ui s))) < 6 ->
  exists message,
    In message field_errors
    /\ forall idp now,
         LandingPage.handleSignup idp now s
         = (Done tt, reported s (ToastError message)).
Proof.
  intros H.
  assert (Hrun : forall idp' now',
    LandingPage.handleSignup idp' now' s =
      match LandingPage.validateFields (LandingPage.signupData (ui s)) s with
      | (Done false, s') => (Done tt, s')
      | (Done true, s') =>
          bind (LandingPage.validateSuperAdmin (LandingPage.signupData (ui s)))
            (fun ok => if negb ok then ret tt else
               bind (LandingPage.validateAdmin (LandingPage.signupData (ui s)))
                 (fun ok => if negb ok then ret tt else
                    LandingPage.createAccount idp' now'
                      (LandingPage.signupData (ui s)))) s'
      | (Thrown e, s') => (Thrown e, s')
      end).
  { intros idp' now'. unfold LandingPage.handleSignup.
    unfold bind at 1, get_ui at 1. cbv beta iota. unfold bind at 1.
    destruct (LandingPage.validateFields _ s) as [[[]|e] s']; reflexivity. }
  unfold LandingPage.validateFields in Hrun.
  set (d := LandingPage.signupData (ui s)) in *.
  destruct (negb (JS.truthy (LandingPage.signup_name d))
            || negb (JS.truthy (LandingPage.signup_email d))
            || negb (JS.truthy (LandingPage.signup_password d))
            || negb (JS.truthy (LandingPage.signup_confirmPassword d))) eqn:Hmiss.
  { exists "All fields are required". split; [left; reflexivity|].
    intros idp' now'. rewrite Hrun. reflexivity. }
  destruct (negb (LandingPage.signup_password d =? LandingPage.signup_confirmPassword d))
    eqn:Hneq.
  { exists "Passwords do not match". split; [right; left; reflexivity|].
    intros idp' now'. rewrite Hrun. reflexivity. }
  destruct (String.length (LandingPage.signup_password d) <? 6)%nat eqn:Hlen.
  { exists "Password must be at least 6 characters".
    split; [right; right; left; reflexivity|].
    intros idp' now'. rewrite Hrun. reflexivity. }
  exfalso.
  apply orb_false_iff in Hmiss as [Hmiss H4]. apply orb_false_iff in Hmiss as [Hmiss H3].
  apply orb_false_iff in Hmiss as [H1 H2].
  apply negb_false_iff in H1, H2, H3, H4, Hneq.
  apply truthy_nonempty in H1, H2, H3, H4.
  apply String.eqb_eq in Hneq. apply Nat.ltb_ge in Hlen.
  destruct H as [H | [H | [H | [H | [H | H]]]]]; try contradiction. lia.
Qed.

Lemma handleSignup_invalid_fields_witness :
  exists message,
    In message field_errors
    /\ forall idp now,
         LandingPage.handleSignup idp now (signup_sys short_password_form empty_world)
         = (Done tt,
            reported (signup_sys short_password_form empty_world) (ToastError message)).
Proof.
  apply (handleSignup_invalid_fields (signup_sys short_password_form empty_world)).
  do 5 right. cbn. lia.
Defined.

Lemma handleSignup_valid_run idp now (s : Sys LandingPage.State) d :
  LandingPage.signupData (ui s) = d ->
  valid_fields d ->
  LandingPage.handleSignup idp now s =
    match LandingPage.validateSuperAdmin d s with
    | (Done true, s1) =>
        match LandingPage.validateAdmin d s1 with
        | (Done true, s2) => LandingPage.createAccount idp now d s2
        | (Done false, s2) => (Done tt, s2)
        | (Thrown e, s2) => (Thrown e, s2)
        end
    | (Done false, s1) => (Done tt, s1)
    | (Thrown e, s1) => (Thrown e, s1)
    end.
Proof.
  intros Hd Hv. unfold LandingPage.handleSignup.
  unfold bind at 1, get_ui at 1. cbv beta iota. rewrite Hd.
  unfold bind at 1. rewrite (validateFields_ok d s Hv). cbv beta iota delta [negb].
  unfold bind at 1.
  destruct (LandingPage.validateSuperAdmin d s) as [[[]|e] s1]; [|reflexivity..].
  cbv beta iota. unfold bind.
  destruct (LandingPage.validateAdmin d s1) as [[[]|e] s2]; reflexivity.
Qed.

Lemma validateAdmin_other_role d (s : Sys LandingPage.State) :
  LandingPage.signup_role d <> "admin" ->
  LandingPage.validateAdmin d s = (Done true, s).
Proof.
  intros H. unfold LandingPage.validateAdmin.
  apply String.eqb_neq in H. rewrite H. reflexivity.
Qed.

(** A student registers under any email: with valid fields, role 'user' and
    a new account id from the identity provider, exactly one users row is
    inserted, with role 'user', is_approved = false and null approval
    columns.  Until a program head approves it, signing in with that account
    ends the session and reports pending approval. *)
Theorem handleSignup_user_then_login_pending
    (idp : IdentityProvider) (now : N) (s : Sys LandingPage.State)
    (d : LandingPage.SignupData) (id : string) :
  LandingPage.signupData (ui s) = d ->
  LandingPage.signup_role d = "user" ->
  valid_fields d ->
  signUp_response idp (LandingPage.signup_email d) (LandingPage.signup_password d)
    = inr id ->
  users (db s) !! id = None ->
  after_signup idp now s
    = set_users (<[id := newUserRow d now]> (users (db s)))
        (set_accounts ({[id]} ∪ accounts (db s)) (db s))
  /\ log (snd (LandingPage.handleSignup idp now s))
     = (log s ++ [ToastLoading "Creating account...";
                  ToastSuccess "Account created successfully!";
                  ToastInfo LandingPage.pendingMessage])%list
  /\ (super_admins (db s) !! id = None -> admins (db s) !! id = None ->
      signInWithPassword_response idp (LandingPage.signup_email d)
        (LandingPage.signup_password d) = inr id ->
      LandingPage.handleLogin idp
        (login_sys (LandingPage.signup_email d) (LandingPage.signup_password d)
           (after_signup idp now s))
      = after_login
          (login_sys (LandingPage.signup_email d) (LandingPage.signup_password d)
             (after_signup idp now s))
          None [ToastError LandingPage.pendingMessage]).
Proof.
  intros Hd Hrole Hv Hup Hfree.
  assert (Hrun : LandingPage.handleSignup idp now s =
    (Done tt,
     MkSys
       {| LandingPage.loginData := LandingPage.loginData (ui s);
          LandingPage.signupData := LandingPage.blankSignup |}
       (set_users (<[id := newUserRow d now]> (users (db s)))
          (set_accounts ({[id]} ∪ accounts (db s)) (db s)))
       (log s ++ [ToastLoading "Creating account...";
                  ToastSuccess "Account created successfully!";
                  ToastInfo LandingPage.pendingMessage]))).
  { rewrite (handleSignup_valid_run idp now s d Hd Hv).
    rewrite validateSuperAdmin_other_role by (rewrite Hrole; discriminate).
    rewrite validateAdmin_other_role by (rewrite Hrole; discriminate).
    unfold LandingPage.createAccount, signUp, LandingPage.setSignupData, newUserRow.
    eff_unfold. rewrite Hup, Hrole. simpl. unfold Store.insert. rewrite Hfree.
    simpl. rewrite <- !app_assoc. reflexivity. }
  unfold after_signup. rewrite Hrun. cbn [snd db log].
  split; [reflexivity|]. split; [reflexivity|].
  intros Hsa Had Hin.
  destruct Hv as (_ & He & Hp & _).
  rewrite (handleLogin_authenticated idp _ id); try assumption.
  cbn [login_sys db super_admins admins users set_users set_accounts].
  rewrite Hsa, Had, lookup_insert_eq. reflexivity.
Qed.

Lemma handleSignup_user_then_login_pending_witness :
  users (after_signup sample_idp 3 (signup_sys student_form empty_world)) !! "acct-2"
    = Some (newUserRow student_form 3).
Proof.
  destruct (handleSignup_user_then_login_pending sample_idp 3
              (signup_sys student_form empty_world) student_form "acct-2")
    as (H & _).
  - reflexivity.
  - reflexivity.
  - unfold valid_fields. cbn. repeat split; try discriminate. lia.
  - reflexivity.
  - reflexivity.
  - rewrite H. cbn. apply lookup_insert_eq.
Defined.

Lemma validateSuperAdmin_convention d (s : Sys LandingPage.State) :
  LandingPage.signup_role d = "super_admin" ->
  JS.toLowerCase (LandingPage.signup_email d)
    <> LandingPage.headEmail (LandingPage.signup_department d) ->
  LandingPage.validateSuperAdmin d s
    = (Done false, reported s (HeadEmailConventionError d)).
Proof.
  intros Hrole Hne. unfold LandingPage.validateSuperAdmin. rewrite Hrole. simpl.
  apply String.eqb_neq in Hne. rewrite Hne. reflexivity.
Qed.

Lemma validateSuperAdmin_lookup d (s : Sys LandingPage.State) :
  LandingPage.signup_role d = "super_admin" ->
  JS.toLowerCase (LandingPage.signup_email d)
    = LandingPage.headEmail (LandingPage.signup_department d) ->
  LandingPage.validateSuperAdmin d s =
    match Store.maybeSingle
            (Store.eq sa_department (LandingPage.signup_department d)
               (Store.select (super_admins (db s)))) with
    | Some _ => (Done false, reported s (DuplicateHeadError d))
    | None => (Done true, s)
    end.
Proof.
  intros Hrole He. unfold LandingPage.validateSuperAdmin. rewrite Hrole. simpl.
  rewrite He, String.eqb_refl. simpl. eff_unfold.
  destruct (Store.maybeSingle _); reflexivity.
Qed.

(** A program-head registration with valid fields is refused, with nothing
    stored, when the lower-cased email is not the lower-cased department code
    followed by -head@spc.edu, and, with a conforming email, when the
    department already has its one SuperAdminProfile. *)
Theorem handleSignup_super_admin_checks
    (idp : IdentityProvider) (now : N) (s : Sys LandingPage.State)
    (d : LandingPage.SignupData) :
  LandingPage.signupData (ui s) = d ->
  LandingPage.signup_role d = "super_admin" ->
  valid_fields d ->
  (JS.toLowerCase (LandingPage.signup_email d)
     <> LandingPage.headEmail (LandingPage.signup_department d) ->
   LandingPage.handleSignup idp now s
     = (Done tt, reported s (HeadEmailConventionError d)))
  /\ (JS.toLowerCase (LandingPage.signup_email d)
        = LandingPage.headEmail (LandingPage.signup_department d) ->
      forall k r,
        super_admins (db s) !! k = Some r ->
        sa_department r = LandingPage.signup_department d ->
        one_per_department sa_department (super_admins (db s)) ->
        LandingPage.handleSignup idp now s
          = (Done tt, reported s (DuplicateHeadError d))).
Proof.
  intros Hd Hrole Hv. rewrite (handleSignup_valid_run idp now s d Hd Hv). split.
  - intros Hne. rewrite (validateSuperAdmin_convention d s Hrole Hne). reflexivity.
  - intros He k r Hk Hdep Hone.
    rewrite (validateSuperAdmin_lookup d s Hrole He).
    rewrite (eq_select_one sa_department _ _ k r Hk Hdep); [reflexivity|].
    intros k' r' Hk' Hdep'. apply (Hone k' k r' r Hk' Hk). congruence.
Qed.

Lemma handleSignup_super_admin_checks_witness :
  LandingPage.handleSignup sample_idp 0
    (signup_sys (head_form "ccs-admin@spc.edu") empty_world)
  = (Done tt,
     reported (signup_sys (head_form "ccs-admin@spc.edu") empty_world)
       (HeadEmailConventionError (head_form "ccs-admin@spc.edu"))).
Proof.
  destruct (handleSignup_super_admin_checks sample_idp 0
              (signup_sys (head_form "ccs-admin@spc.edu") empty_world)
              (head_form "ccs-admin@spc.edu")) as (H & _).
  - reflexivity.
  - reflexivity.
  - unfold valid_fields. cbn. repeat split; try discriminate. lia.
  - apply H. discriminate.
Defined.

(** A program head is active at once: with valid fields, a conforming email,
    no SuperAdminProfile for the department yet and a new account id, the
    registration inserts one super_admins row, and signing in with the
    account is let in as program head with no approval step. *)
Theorem handleSignup_super_admin_then_login
    (idp : IdentityProvider) (now : N) (s : Sys LandingPage.State)
    (d : LandingPage.SignupData) (id : string) :
  LandingPage.signupData (ui s) = d ->
  LandingPage.signup_role d = "super_admin" ->
  valid_fields d ->
  JS.toLowerCase (LandingPage.signup_email d)
    = LandingPage.headEmail (LandingPage.signup_department d) ->
  (forall k r, super_admins (db s) !! k = Some r ->
               sa_department r <> LandingPage.signup_department d) ->
  signUp_response idp (LandingPage.signup_email d) (LandingPage.signup_password d)
    = inr id ->
  super_admins (db s) !! id = None ->
  signInWithPassword_response idp (LandingPage.signup_email d)
    (LandingPage.signup_password d) = inr id ->
  after_signup idp now s
    = set_super_admins (<[id := newSuperAdminRow d]> (super_admins (db s)))
        (set_accounts ({[id]} ∪ accounts (db s)) (db s))
  /\ LandingPage.handleLogin idp
       (login_sys (LandingPage.signup_email d) (LandingPage.signup_password d)
          (after_signup idp now s))
     = after_login
         (login_sys (LandingPage.signup_email d) (LandingPage.signup_password d)
            (after_signup idp now s))
         (Some id)
         [ToastSuccess "Welcome, Program Head!"; Navigate "/super-admin-dashboard"].
Proof.
  intros Hd Hrole Hv He Hnone Hup Hfree Hin.
  assert (Hrun : after_signup idp now s
    = set_super_admins (<[id := newSuperAdminRow d]> (super_admins (db s)))
        (set_accounts ({[id]} ∪ accounts (db s)) (db s))).
  { unfold after_signup. rewrite (handleSignup_valid_run idp now s d Hd Hv).
    rewrite (validateSuperAdmin_lookup d s Hrole He).
    rewrite (eq_select_nil sa_department _ _ Hnone). cbn [Store.maybeSingle].
    rewrite validateAdmin_other_role by (rewrite Hrole; discriminate).
    unfold LandingPage.createAccount, signUp, LandingPage.setSignupData,
      newSuperAdminRow.
    eff_unfold. rewrite Hup, Hrole. simpl. unfold Store.insert. rewrite Hfree.
    reflexivity. }
  split; [exact Hrun|].
  destruct Hv as (_ & Hem & Hp & _).
  rewrite (handleLogin_authenticated idp _ id); try assumption.
  rewrite Hrun. cbn [login_sys db super_admins set_super_admins].
  rewrite lookup_insert_eq. reflexivity.
Qed.

Lemma handleSignup_super_admin_then_login_witness :
  LandingPage.handleLogin head_idp
    (login_sys "CCS-Head@spc.edu" "secret1"
       (after_signup head_idp 0
          (signup_sys (head_form "CCS-Head@spc.edu") empty_world)))
  = after_login
      (login_sys "CCS-Head@spc.edu" "secret1"
         (after_signup head_idp 0
            (signup_sys (head_form "CCS-Head@spc.edu") empty_world)))
      (Some "head-ccs")
      [ToastSuccess "Welcome, Program Head!"; Navigate "/super-admin-dashboard"].
Proof.
  destruct (handleSignup_super_admin_then_login head_idp 0
              (signup_sys (head_form "CCS-Head@spc.edu") empty_world)
              (head_form "CCS-Head@spc.edu") "head-ccs") as (_ & H).
  - reflexivity.
  - reflexivity.
  - unfold valid_fields. cbn. repeat split; try discriminate. lia.
  - reflexivity.
  - intros k r Hk. cbn in Hk. rewrite lookup_empty in Hk. discriminate.
  - reflexivity.
  - reflexivity.
  - reflexivity.
  - exact H.
Defined.

(** ** Sign-in in general *)

Lemma handleLogin_cases idp (s : Sys LandingPage.State) :
  (exists e, LandingPage.handleLogin idp s = (Done tt, reported s (ToastError e)))
  \/ (exists e, LandingPage.handleLogin idp s
                = (Done tt, MkSys (ui s) (db s)
                              (log s ++ [ToastLoading "Logging in..."; ToastError e])))
  \/ (exists id,
        LandingPage.login_email (LandingPage.loginData (ui s)) <> ""
        /\ LandingPage.login_password (LandingPage.loginData (ui s)) <> ""
        /\ signInWithPassword_response idp
             (LandingPage.login_email (LandingPage.loginData (ui s)))
             (LandingPage.login_password (LandingPage.loginData (ui s))) = inr id).
Proof.
  destruct (JS.truthy (LandingPage.login_email (LandingPage.loginData (ui s))))
    eqn:He;
    [destruct (JS.truthy (LandingPage.login_password (LandingPage.loginData (ui s))))
       eqn:Hp|].
  - destruct (signInWithPassword_response idp
                (LandingPage.login_email (LandingPage.loginData (ui s)))
                (LandingPage.login_password (LandingPage.loginData (ui s))))
      as [e|id] eqn:Hr.
    + right. left. exists e. unfold LandingPage.handleLogin, signInWithPassword.
      eff_unfold. simpl. rewrite He, Hp, Hr. simpl.
      rewrite <- !app_assoc. reflexivity.
    + right. right. exists id.
      split; [apply truthy_nonempty; exact He|].
      split; [apply truthy_nonempty; exact Hp | reflexivity].
  - left. eexists. unfold LandingPage.handleLogin. eff_unfold. simpl.
    rewrite He, Hp. reflexivity.
  - left. eexists. unfold LandingPage.handleLogin. eff_unfold. simpl.
    rewrite He. reflexivity.
Qed.

(** handleLogin changes nothing but the session: every collection, the
    accounts and the form are as before.  Started without a session, it
    leaves one only for an account with a profile that lets it in; a refused
    sign-in (empty field, provider error, pending approval, no profile) ends
    with no session. *)
Theorem handleLogin_session_only_for_entry
    (idp : IdentityProvider) (s : Sys LandingPage.State) :
  session (db s) = None ->
  fst (LandingPage.handleLogin idp s) = Done tt
  /\ ui (snd (LandingPage.handleLogin idp s)) = ui s
  /\ db (snd (LandingPage.handleLogin idp s))
     = set_session (session (db (snd (LandingPage.handleLogin idp s)))) (db s)
  /\ (forall id,
        session (db (snd (LandingPage.handleLogin idp s))) = Some id ->
        has_entry (db s) id
        /\ signInWithPassword_response idp
             (LandingPage.login_email (LandingPage.loginData (ui s)))
             (LandingPage.login_password (LandingPage.loginData (ui s))) = inr id).
Proof.
  intros Hnone.
  assert (Hsame : db s = set_session (session (db s)) (db s))
    by (destruct (db s); reflexivity).
  destruct (handleLogin_cases idp s) as [[e H] | [[e H] | (id & He & Hp & Hr)]].
  - rewrite H. cbn. split; [reflexivity|]. split; [reflexivity|].
    split; [exact Hsame|]. intros i Hi. rewrite Hnone in Hi. discriminate.
  - rewrite H. cbn. split; [reflexivity|]. split; [reflexivity|].
    split; [exact Hsame|]. intros i Hi. rewrite Hnone in Hi. discriminate.
  - rewrite (handleLogin_authenticated idp s id He Hp Hr).
    unfold after_login, has_entry.
    destruct (super_admins (db s) !! id) as [sa|] eqn:Hsa.
    { cbn. split; [reflexivity|]. split; [reflexivity|]. split; [reflexivity|].
      intros i [= <-]. split; [left; eauto | exact Hr]. }
    destruct (admins (db s) !! id) as [a|] eqn:Had.
    { destruct (ad_is_approved a) eqn:Hap; cbn;
        (split; [reflexivity|]); (split; [reflexivity|]); (split; [reflexivity|]);
        intros i Hi; [|discriminate].
      injection Hi as <-. split; [right; left; eauto | exact Hr]. }
    destruct (users (db s) !! id) as [u|] eqn:Hus.
    { destruct (us_is_approved u) eqn:Hap; cbn;
        (split; [reflexivity|]); (split; [reflexivity|]); (split; [reflexivity|]);
        intros i Hi; [|discriminate].
      injection Hi as <-. split; [right; right; eauto | exact Hr]. }
    cbn. split; [reflexivity|]. split; [reflexivity|]. split; [reflexivity|].
    intros i Hi. discriminate.
Qed.

Lemma handleLogin_session_only_for_entry_witness :
  db (snd (LandingPage.handleLogin sample_idp sample_login))
  = set_session (session (db (snd (LandingPage.handleLogin sample_idp sample_login))))
      (db sample_login).
Proof.
  destruct (handleLogin_session_only_for_entry sample_idp sample_login)
    as (_ & _ & H & _).
  - reflexivity.
  - exact H.
Defined.
Lemma key_ge_total a b : Store.key_ge a b = true \/ Store.key_ge b a = true.
Proof.
  destruct a as [x|], b as [y|]; simpl; auto.
  rewrite !N.leb_le. lia.
Qed.

Lemma key_ge_trans a b c :
  Store.key_ge a b = true -> Store.key_ge b c = true -> Store.key_ge a c = true.
Proof.
  destruct a as [x|], b as [y|], c as [z|]; simpl; try discriminate; auto.
  rewrite !N.leb_le. lia.
Qed.

Lemma in_order_total asc a b : in_order asc a b \/ in_order asc b a.
Proof. destruct asc; simpl; apply key_ge_total. Qed.

Lemma in_order_trans asc a b c : in_order asc a b -> in_order asc b c -> in_order asc a c.
Proof. destruct asc; simpl; eauto using key_ge_trans. Qed.

Lemma before_in_order asc a b : Store.before asc a b = true -> in_order asc a b.
Proof. destruct asc; simpl; auto. Qed.

Lemma not_before_in_order asc a b : Store.before asc a b = false -> in_order asc b a.
Proof.
  intros H. destruct (in_order_total asc a b) as [Hab|Hba]; [|exact Hba].
  destruct asc; simpl in *; congruence.
Qed.

Lemma insert_sorted_Permutation {A} asc (key : A -> option N) x l :
  Permutation (Store.insert_sorted asc key x l) (x :: l).
Proof.
  induction l as [|y l IH]; simpl; [reflexivity|].
  destruct (Store.before asc (key x) (key y)); [reflexivity|].
  rewrite IH. apply perm_swap.
Qed.

(** The ordered selection holds the same rows, each as often. *)
Lemma order_Permutation {A} (key : A -> option N) asc (l : list A) :
  Permutation (Store.order key asc l) l.
Proof.
  unfold Store.order. induction l as [|x l IH]; simpl; [reflexivity|].
  rewrite insert_sorted_Permutation, IH. reflexivity.
Qed.

Lemma insert_sorted_StronglySorted {A} asc (key : A -> option N) x l :
  StronglySorted (fun a b => in_order asc (key a) (key b)) l ->
  StronglySorted (fun a b => in_order asc (key a) (key b))
    (Store.insert_sorted asc key x l).
Proof.
  induction 1 as [|y l Hl IH Hy]; simpl.
  - repeat constructor.
  - destruct (Store.before asc (key x) (key y)) eqn:Hb.
    + apply before_in_order in Hb. constructor; [constructor; assumption|].
      constructor; [exact Hb|].
      rewrite List.Forall_forall in *. intros z Hz.
      eapply in_order_trans; [exact Hb | apply Hy; exact Hz].
    + apply not_before_in_order in Hb. constructor; [exact IH|].
      rewrite List.Forall_forall in *. intros z Hz.
      apply (Permutation_in _ (insert_sorted_Permutation asc key x l)) in Hz.
      destruct Hz as [<-|Hz]; [exact Hb | apply Hy; exact Hz].
Qed.

Lemma order_StronglySorted {A} (key : A -> option N) asc (l : list A) :
  StronglySorted (fun a b => in_order asc (key a) (key b)) (Store.order key asc l).
Proof.
  unfold Store.order. induction l as [|x l IH]; simpl; [constructor|].
  apply insert_sorted_StronglySorted. exact IH.
Qed.

Lemma StronglySorted_lookup {A} (R : A -> A -> Prop) (l : list A) :
  StronglySorted R l ->
  forall i j x y, i < j -> l !! i = Some x -> l !! j = Some y -> R x y.
Proof.
  induction 1 as [|a l Hl IH Ha]; intros i j x y Hij Hi Hj.
  - rewrite lookup_nil in Hi. discriminate.
  - destruct j as [|j]; [lia|]. simpl in Hj. destruct i as [|i]; simpl in Hi.
    + injection Hi as <-. rewrite List.Forall_forall in Ha. apply Ha.
      apply list_elem_of_In. eapply list_elem_of_lookup_2. exact Hj.
    + apply (IH i j); [lia | assumption..].
Qed.

(** ** The program-head dashboard in general *)

Lemma NoDup_fst_filter {A B} (f : A * B -> bool) (l : list (A * B)) :
  List.NoDup (map fst l) -> List.NoDup (map fst (List.filter f l)).
Proof.
  induction l as [|x l IH]; simpl; [auto|].
  intros H. inversion H as [|? ? Hnot Hnd]; subst.
  destruct (f x); simpl; [|auto].
  constructor; [|auto].
  intros Hin. apply Hnot. apply in_map_iff in Hin as [y [Hy Hin]].
  apply filter_In in Hin as [Hin _]. apply in_map_iff. eauto.
Qed.

Lemma NoDup_fst_select {R} (t : gmap string R) :
  List.NoDup (map fst (Store.select t)).
Proof. apply NoDup_ListNoDup. apply NoDup_fst_map_to_list. Qed.

Lemma NoDup_fst_pending_of department (t : gmap string UserRow) :
  List.NoDup (map fst (pending_of department t)).
Proof.
  unfold pending_of.
  eapply Permutation_NoDup;
    [symmetry; apply Permutation_map, order_Permutation|].
  unfold Store.eq_bool, Store.eq. do 2 apply NoDup_fst_filter.
  apply NoDup_fst_select.
Qed.

Lemma NoDup_fst_approved_of department (t : gmap string UserRow) :
  List.NoDup (map fst (approved_of department t)).
Proof.
  unfold approved_of.
  eapply Permutation_NoDup;
    [symmetry; apply Permutation_map, order_Permutation|].
  unfold Store.eq_bool, Store.eq. do 2 apply NoDup_fst_filter.
  apply NoDup_fst_select.
Qed.

(** fetchUsers splits the users of the department in two: a row of the
    department is in the pending list when is_approved is false and in the
    approved list when it is true, never in both; rows of other departments
    are in neither; and no id is listed twice. *)
Theorem fetchUsers_partitions_department
    (department : string) (s : Sys SuperAdminDashboard.State) :
  (forall k r,
      In (k, r) (SuperAdminDashboard.pendingUsers
                   (ui (snd (SuperAdminDashboard.fetchUsers department s))))
      <-> users (db s) !! k = Some r /\ us_department r = department
          /\ us_is_approved r = false)
  /\ (forall k r,
        In (k, r) (SuperAdminDashboard.approvedUsers
                     (ui (snd (SuperAdminDashboard.fetchUsers department s))))
        <-> users (db s) !! k = Some r /\ us_department r = department
            /\ us_is_approved r = true)
  /\ List.NoDup
       (map fst (SuperAdminDashboard.pendingUsers
                   (ui (snd (SuperAdminDashboard.fetchUsers department s))))
        ++ map fst (SuperAdminDashboard.approvedUsers
                      (ui (snd (SuperAdminDashboard.fetchUsers department s))))).
Proof.
  rewrite fetchUsers_run. cbn [snd ui listed SuperAdminDashboard.pendingUsers
                                 SuperAdminDashboard.approvedUsers].
  split; [|split].
  - intros k r. rewrite In_pending_of. reflexivity.
  - intros k r. rewrite In_approved_of. reflexivity.
  - apply NoDup_ListNoDup, NoDup_app. split; [|split].
    + apply NoDup_ListNoDup, NoDup_fst_pending_of.
    + intros k Hp Ha.
      apply list_elem_of_In, in_map_iff in Hp as [[k1 r1] [<- Hp]].
      apply list_elem_of_In, in_map_iff in Ha as [[k2 r2] [Hk Ha]].
      apply In_pending_of in Hp as (Hp1 & _ & Hp3).
      apply In_approved_of in Ha as (Ha1 & _ & Ha3).
      simpl in *. subst k2. rewrite Hp1 in Ha1. injection Ha1 as <-. congruence.
    + apply NoDup_ListNoDup, NoDup_fst_approved_of.
Qed.

(** The listings come newest first: in the pending list a row never has a
    later created_at than the rows before it, and in the approved list never
    a later approved_at. *)
Theorem fetchUsers_newest_first
    (department : string) (s : Sys SuperAdminDashboard.State) :
  (forall i j x y,
      i < j ->
      SuperAdminDashboard.pendingUsers
        (ui (snd (SuperAdminDashboard.fetchUsers department s))) !! i = Some x ->
      SuperAdminDashboard.pendingUsers
        (ui (snd (SuperAdminDashboard.fetchUsers department s))) !! j = Some y ->
      (us_created_at (snd y) <= us_created_at (snd x))%N)
  /\ (forall i j x y tx ty,
        i < j ->
        SuperAdminDashboard.approvedUsers
          (ui (snd (SuperAdminDashboard.fetchUsers department s))) !! i = Some x ->
        SuperAdminDashboard.approvedUsers
          (ui (snd (SuperAdminDashboard.fetchUsers department s))) !! j = Some y ->
        us_approved_at (snd x) = Some tx -> us_approved_at (snd y) = Some ty ->
        (ty <= tx)%N).
Proof.
  rewrite fetchUsers_run. cbn [snd ui listed SuperAdminDashboard.pendingUsers
                                 SuperAdminDashboard.approvedUsers].
  split.
  - intros i j x y Hij Hx Hy.
    pose proof (StronglySorted_lookup _ _
                  (order_StronglySorted
                     (fun r : Store.Selected UserRow => Some (us_created_at (snd r)))
                     false _) i j x y Hij Hx Hy) as H.
    simpl in H. apply N.leb_le. exact H.
  - intros i j x y tx ty Hij Hx Hy Htx Hty.
    pose proof (StronglySorted_lookup _ _
                  (order_StronglySorted
                     (fun r : Store.Selected UserRow => us_approved_at (snd r))
                     false _) i j x y Hij Hx Hy) as H.
    simpl in H. rewrite Htx, Hty in H. apply N.leb_le. exact H.
Qed.

(** The dashboard opens for a session if and only if super_admins has a row
    under the session's account id.  Without a session the page goes to the
    landing page; with a session of any other account it reports
    unauthorized access and goes to the general dashboard; in both cases no
    listing is loaded.  The store is only read. *)
Theorem checkSuperAdmin_admission (s : Sys SuperAdminDashboard.State) :
  SuperAdminDashboard.superAdmin (ui s) = None ->
  (is_Some (SuperAdminDashboard.superAdmin
              (ui (snd (SuperAdminDashboard.checkSuperAdmin s))))
   <-> exists id sa, session (db s) = Some id /\ super_admins (db s) !! id = Some sa)
  /\ (SuperAdminDashboard.superAdmin
        (ui (snd (SuperAdminDashboard.checkSuperAdmin s))) = None ->
      ui (snd (SuperAdminDashboard.checkSuperAdmin s)) = ui s
      /\ (log (snd (SuperAdminDashboard.checkSuperAdmin s)) = log s ++ [Navigate "/"]
          \/ log (snd (SuperAdminDashboard.checkSuperAdmin s))
             = log s ++ [ToastError "Unauthorized access"; Navigate "/dashboard"])%list)
  /\ db (snd (SuperAdminDashboard.checkSuperAdmin s)) = db s.
Proof.
  intros Hnone.
  destruct (session (db s)) as [id|] eqn:Hs.
  - destruct (super_admins (db s) !! id) as [sa|] eqn:Hsa.
    + rewrite (checkSuperAdmin_run s id sa Hs Hsa). cbn.
      split; [|split; [discriminate | reflexivity]].
      split; [intros _; eauto | intros _; eauto].
    + assert (Hrun : SuperAdminDashboard.checkSuperAdmin s
                = (Done tt, MkSys (ui s) (db s)
                     (log s ++ [ToastError "Unauthorized access";
                                Navigate "/dashboard"]))).
      { unfold SuperAdminDashboard.checkSuperAdmin, Store.single, Store.eq_id.
        eff_unfold. rewrite Hs. simpl. rewrite Hsa. simpl.
        rewrite <- !app_assoc. reflexivity. }
      rewrite Hrun. cbn. rewrite Hnone.
      split; [|split; [auto | reflexivity]].
      split; [intros [x Hx]; discriminate|].
      intros (id' & sa' & [= <-] & Hsa'). rewrite Hsa in Hsa'. discriminate.
  - assert (Hrun : SuperAdminDashboard.checkSuperAdmin s
              = (Done tt, MkSys (ui s) (db s) (log s ++ [Navigate "/"]))).
    { unfold SuperAdminDashboard.checkSuperAdmin. eff_unfold. rewrite Hs.
      reflexivity. }
    rewrite Hrun. cbn. rewrite Hnone.
    split; [|split; [auto | reflexivity]].
    split; [intros [x Hx]; discriminate|].
    intros (id' & sa' & Hid & _). discriminate.
Qed.

Lemma checkSuperAdmin_admission_witness :
  is_Some (SuperAdminDashboard.superAdmin
             (ui (snd (SuperAdminDashboard.checkSuperAdmin
                         (MkSys SuperAdminDashboard.initial
                            (db (dashboard_sys "CCS")) []))))).
Proof.
  destruct (checkSuperAdmin_admission
              (MkSys SuperAdminDashboard.initial (db (dashboard_sys "CCS")) []))
    as ([_ H] & _).
  - reflexivity.
  - apply H. exists "head-ccs", (snd sample_head). split; reflexivity.
Defined.

(** Approval moves a profile between the two listings the handlers refresh:
    after approve a users profile of the program head's department is in the
    approved list and not in the pending list, after revoke the other way
    round, and after reject it is in neither. *)
Theorem approval_moves_between_listings
    (now : N) (userId userName : string) (s : Sys SuperAdminDashboard.State)
    (sa : Store.Selected SuperAdminRow) (r : UserRow) :
  SuperAdminDashboard.superAdmin (ui s) = Some sa ->
  users (db s) !! userId = Some r ->
  us_department r = sa_department (snd sa) ->
  (In (userId, SuperAdminDashboard.approved (fst sa) now r)
      (SuperAdminDashboard.approvedUsers
         (ui (snd (SuperAdminDashboard.handleApprove now userId userName s))))
   /\ ~ In userId
        (map fst (SuperAdminDashboard.pendingUsers
                    (ui (snd (SuperAdminDashboard.handleApprove now userId userName s))))))
  /\ (In (userId, SuperAdminDashboard.unapproved r)
        (SuperAdminDashboard.pendingUsers
           (ui (snd (SuperAdminDashboard.handleRevokeApproval true userId userName s))))
      /\ ~ In userId
           (map fst (SuperAdminDashboard.approvedUsers
                       (ui (snd (SuperAdminDashboard.handleRevokeApproval true
                                   userId userName s))))))
  /\ ~ In userId
       (map fst (SuperAdminDashboard.pendingUsers
                   (ui (snd (SuperAdminDashboard.handleReject true userId userName s))))
        ++ map fst (SuperAdminDashboard.approvedUsers
                      (ui (snd (SuperAdminDashboard.handleReject true userId
                                  userName s))))).
Proof.
  intros Hsa Hr Hd.
  rewrite handleApprove_run, handleRevokeApproval_run, handleReject_run, Hsa.
  unfold refreshed, rejected. rewrite Hsa, Hr.
  cbn [snd ui db users set_users set_accounts listed
         SuperAdminDashboard.pendingUsers SuperAdminDashboard.approvedUsers].
  unfold Store.update, Store.delete.
  split; [|split].
  - split.
    + apply In_approved_of. cbn. rewrite lookup_alter_eq, Hr. auto.
    + intros Hin. apply in_map_iff in Hin as [[k u] [Hk Hin]]. simpl in Hk. subst k.
      apply In_pending_of in Hin as (Hl & _ & Hap). cbn in Hl, Hap.
      rewrite lookup_alter_eq, Hr in Hl. injection Hl as <-. discriminate.
  - split.
    + apply In_pending_of. cbn. rewrite lookup_alter_eq, Hr. auto.
    + intros Hin. apply in_map_iff in Hin as [[k u] [Hk Hin]]. simpl in Hk. subst k.
      apply In_approved_of in Hin as (Hl & _ & Hap). cbn in Hl, Hap.
      rewrite lookup_alter_eq, Hr in Hl. injection Hl as <-. discriminate.
  - intros Hin. apply in_app_or in Hin as [Hin|Hin];
      apply in_map_iff in Hin as [[k u] [Hk Hin]]; simpl in Hk; subst k;
      [apply In_pending_of in Hin as (Hl & _) | apply In_approved_of in Hin as (Hl & _)];
      cbn in Hl; rewrite lookup_delete_eq in Hl; discriminate.
Qed.

Lemma approval_moves_between_listings_witness :
  In ("stu-1", SuperAdminDashboard.approved "head-ccs" 20 (sample_student "CCS"))
    (SuperAdminDashboard.approvedUsers
       (ui (snd (SuperAdminDashboard.handleApprove 20 "stu-1" "Lia"
                   (dashboard_sys "CCS"))))).
Proof.
  destruct (approval_moves_between_listings 20 "stu-1" "Lia" (dashboard_sys "CCS")
              sample_head (sample_student "CCS")) as ((H & _) & _).
  - reflexivity.
  - reflexivity.
  - reflexivity.
  - exact H.
Defined.

Lemma handleLogin_refused idp (s : Sys LandingPage.State) e :
  LandingPage.login_email (LandingPage.loginData (ui s)) <> "" ->
  LandingPage.login_password (LandingPage.loginData (ui s)) <> "" ->
  signInWithPassword_response idp
    (LandingPage.login_email (LandingPage.loginData (ui s)))
    (LandingPage.login_password (LandingPage.loginData (ui s))) = inl e ->
  LandingPage.handleLogin idp s
  = (Done tt,
     MkSys (ui s) (db s) (log s ++ [ToastLoading "Logging in..."; ToastError e])).
Proof.
  intros He Hp Hr. unfold LandingPage.handleLogin, signInWithPassword.
  eff_unfold. simpl. rewrite (truthy_true _ He), (truthy_true _ Hp), Hr. simpl.
  rewrite <- !app_assoc. reflexivity.
Qed.

(** The approval gate end to end, for an account whose only profile is a
    users row: after approve its sign-in is let in, and after revoke it is
    signed out with pending approval, the account being there in both
    cases.  After reject the account itself is
    gone with the users row, so the identity provider no longer knows it: a
    provider that answers only for ids among the accounts cannot return the
    rejected id, and the sign-in that the provider refuses reports the
    provider's message and leaves the store as it is. *)
Theorem approval_decides_login
    (idp : IdentityProvider) (now : N) (userId userName email password : string)
    (s : Sys SuperAdminDashboard.State)
    (sa : Store.Selected SuperAdminRow) (r : UserRow) :
  SuperAdminDashboard.superAdmin (ui s) = Some sa ->
  userId ∈ accounts (db s) ->
  users (db s) !! userId = Some r ->
  super_admins (db s) !! userId = None ->
  admins (db s) !! userId = None ->
  email <> "" -> password <> "" ->
  signInWithPassword_response idp email password = inr userId ->
  LandingPage.handleLogin idp
    (login_sys email password
       (db (snd (SuperAdminDashboard.handleApprove now userId userName s))))
  = after_login
      (login_sys email password
         (db (snd (SuperAdminDashboard.handleApprove now userId userName s))))
      (Some userId) [ToastSuccess "Login successful!"; Navigate "/dashboard"]
  /\ LandingPage.handleLogin idp
       (login_sys email password
          (db (snd (SuperAdminDashboard.handleRevokeApproval true userId userName s))))
     = after_login
         (login_sys email password
            (db (snd (SuperAdminDashboard.handleRevokeApproval true userId userName s))))
         None [ToastError LandingPage.pendingMessage]
  /\ userId ∈ accounts (db (snd (SuperAdminDashboard.handleApprove now userId userName s)))
  /\ userId
     ∈ accounts (db (snd (SuperAdminDashboard.handleRevokeApproval true userId userName s)))
  /\ (userId
      ∉ accounts (db (snd (SuperAdminDashboard.handleReject true userId userName s))))
  /\ users (db (snd (SuperAdminDashboard.handleReject true userId userName s))) !! userId
     = None
  /\ (forall idp',
        (forall id,
            signInWithPassword_response idp' email password = inr id ->
            id ∈ accounts
                   (db (snd (SuperAdminDashboard.handleReject true userId userName s)))) ->
        signInWithPassword_response idp' email password <> inr userId
        /\ forall e,
             signInWithPassword_response idp' email password = inl e ->
             LandingPage.handleLogin idp'
               (login_sys email password
                  (db (snd (SuperAdminDashboard.handleReject true userId userName s))))
             = (Done tt,
                MkSys
                  (ui (login_sys email password
                         (db (snd (SuperAdminDashboard.handleReject true userId
                                     userName s)))))
                  (db (snd (SuperAdminDashboard.handleReject true userId userName s)))
                  [ToastLoading "Logging in..."; ToastError e])).
Proof.
  intros Hsa Hacc Hr Hnsa Hnad He Hp Hin.
  assert (Hgone :
    userId ∉ accounts (db (snd (SuperAdminDashboard.handleReject true userId userName s)))).
  { rewrite handleReject_run. cbn [snd]. rewrite refreshed_db.
    unfold rejected. rewrite Hr. cbn [accounts set_accounts].
    intros Hleft. apply elem_of_difference in Hleft as [_ Hnot].
    apply Hnot, elem_of_singleton. reflexivity. }
  split; [|split; [|split; [|split; [|split; [exact Hgone|split]]]]].
  - rewrite (handleLogin_authenticated idp _ userId) by assumption.
    rewrite handleApprove_run, Hsa.
    cbn [snd login_sys db]. rewrite !refreshed_db.
    cbn [super_admins admins users set_users].
    unfold Store.update. rewrite Hnsa, Hnad, lookup_alter_eq, Hr. reflexivity.
  - rewrite (handleLogin_authenticated idp _ userId) by assumption.
    rewrite handleRevokeApproval_run.
    cbn [snd login_sys db]. rewrite !refreshed_db.
    cbn [super_admins admins users set_users].
    unfold Store.update. rewrite Hnsa, Hnad, lookup_alter_eq, Hr. reflexivity.
  - rewrite handleApprove_run, Hsa. cbn [snd]. rewrite refreshed_db. exact Hacc.
  - rewrite handleRevokeApproval_run. cbn [snd]. rewrite refreshed_db. exact Hacc.
  - rewrite handleReject_run. cbn [snd]. rewrite refreshed_db.
    unfold rejected. rewrite Hr. cbn [users set_users set_accounts].
    apply lookup_delete_eq.
  - intros idp' Hknown. split.
    + intros Hid. apply Hgone, Hknown, Hid.
    + intros e Hrefused.
      apply (handleLogin_refused idp' (login_sys email password _) e);
        [exact He | exact Hp | exact Hrefused].
Qed.

Lemma approval_decides_login_witness :
  LandingPage.handleLogin student_idp
    (login_sys "lia@spc.edu" "secret1"
       (db (snd (SuperAdminDashboard.handleApprove 20 "stu-1" "Lia"
                   (dashboard_sys "CCS")))))
  = after_login
      (login_sys "lia@spc.edu" "secret1"
         (db (snd (SuperAdminDashboard.handleApprove 20 "stu-1" "Lia"
                     (dashboard_sys "CCS")))))
      (Some "stu-1") [ToastSuccess "Login successful!"; Navigate "/dashboard"].
Proof.
  destruct (approval_decides_login student_idp 20 "stu-1" "Lia" "lia@spc.edu" "secret1"
              (dashboard_sys "CCS") sample_head (sample_student "CCS")) as (H & _).
  - reflexivity.
  - apply (bool_decide_unpack ("stu-1" ∈ accounts (db (dashboard_sys "CCS")))).
    vm_compute. exact I.
  - reflexivity.
  - reflexivity.
  - reflexivity.
  - discriminate.
  - discriminate.
  - reflexivity.
  - exact H.
Defined.

(** ** Post management in general *)

Lemma handleDeletePost_run postId (s : Sys AdminPanel.State) :
  AdminPanel.handleDeletePost true postId s =
    (Done tt,
     relisted s (set_posts (base.delete postId (posts (db s))) (db s))
       [ToastLoading "Deleting post..."; ToastSuccess "Post deleted successfully!"]).
Proof.
  unfold AdminPanel.handleDeletePost, AdminPanel.fetchPosts, AdminPanel.setPosts,
    delete_from, relisted, admin_posts, Store.delete.
  eff_unfold. simpl.
  destruct (AdminPanel.userProfile (ui s)) eqn:E; simpl; rewrite ?E;
    rewrite <- ?app_assoc; reflexivity.
Qed.

Lemma handleArchivePost_run postId (s : Sys AdminPanel.State) :
  AdminPanel.handleArchivePost true postId s =
    (Done tt,
     relisted s
       (set_posts (alter (with_status "archived") postId (posts (db s))) (db s))
       [ToastLoading "Archiving post..."; ToastSuccess "Post archived successfully!"]).
Proof.
  unfold AdminPanel.handleArchivePost, AdminPanel.fetchPosts, AdminPanel.setPosts,
    relisted, admin_posts, Store.update.
  eff_unfold. simpl.
  destruct (AdminPanel.userProfile (ui s)) eqn:E; simpl; rewrite ?E;
    rewrite <- ?app_assoc; reflexivity.
Qed.

Lemma relisted_db s w events : db (relisted s w events) = w.
Proof. unfold relisted. destruct (AdminPanel.userProfile (ui s)); reflexivity. Qed.

Lemma In_postsWithComments_iff author cs data (p : PostView) :
  In p (postsWithComments author cs data) <->
  In (pv_id p, pv_row p) data
  /\ pv_author p = author (po_author_id (pv_row p))
  /\ pv_comment_count p = Store.count_comments (pv_id p) cs.
Proof.
  unfold postsWithComments. rewrite in_map_iff. split.
  - intros [[k r] [<- Hin]]. simpl. auto.
  - intros (Hin & Ha & Hc). exists (pv_id p, pv_row p). split; [|exact Hin].
    destruct p. simpl in *. subst. reflexivity.
Qed.

Lemma In_admin_posts profile (w : World) (p : PostView) :
  In p (admin_posts profile w) <->
  posts w !! pv_id p = Some (pv_row p)
  /\ po_author_id (pv_row p) = fst profile
  /\ pv_author p = None
  /\ pv_comment_count p = Store.count_comments (pv_id p) (comments w).
Proof.
  unfold admin_posts. rewrite In_postsWithComments_iff, In_order, In_eq, In_select.
  simpl. tauto.
Qed.

Lemma postsWithComments_newest_first author cs l i j (x y : PostView) :
  i < j ->
  postsWithComments author cs (Store.order by_created_at false l) !! i = Some x ->
  postsWithComments author cs (Store.order by_created_at false l) !! j = Some y ->
  (po_created_at (pv_row y) <= po_created_at (pv_row x))%N.
Proof.
  unfold postsWithComments. intros Hij Hx Hy.
  apply list_lookup_fmap_Some_1 in Hx as (x0 & -> & Hx0).
  apply list_lookup_fmap_Some_1 in Hy as (y0 & -> & Hy0).
  pose proof (StronglySorted_lookup _ _
                (order_StronglySorted by_created_at false l) i j x0 y0 Hij Hx0 Hy0)
    as H.
  simpl in *. apply N.leb_le. exact H.
Qed.

(** The panel lists the admin's own posts and nothing else: a post is in the
    listing exactly when it is stored with the admin's id as author, whatever
    its status; each listed post carries the number of comments stored for
    it; and the listing is newest first. *)
Theorem AdminPanel_fetchPosts_lists_own_posts
    (s : Sys AdminPanel.State) (profile : Store.Selected UserRow) :
  AdminPanel.userProfile (ui s) = Some profile ->
  (forall p,
      In p (AdminPanel.st_posts (ui (snd (AdminPanel.fetchPosts s)))) ->
      posts (db s) !! pv_id p = Some (pv_row p)
      /\ po_author_id (pv_row p) = fst profile
      /\ pv_comment_count p = Store.count_comments (pv_id p) (comments (db s)))
  /\ (forall k r,
        posts (db s) !! k = Some r -> po_author_id r = fst profile ->
        exists p,
          In p (AdminPanel.st_posts (ui (snd (AdminPanel.fetchPosts s))))
          /\ pv_id p = k /\ pv_row p = r)
  /\ (forall i j x y,
        i < j ->
        AdminPanel.st_posts (ui (snd (AdminPanel.fetchPosts s))) !! i = Some x ->
        AdminPanel.st_posts (ui (snd (AdminPanel.fetchPosts s))) !! j = Some y ->
        (po_created_at (pv_row y) <= po_created_at (pv_row x))%N)
  /\ db (snd (AdminPanel.fetchPosts s)) = db s.
Proof.
  intros Hp. rewrite AdminPanel_fetchPosts_run, Hp.
  cbn [snd ui db AdminPanel.st_posts].
  split; [|split; [|split; [|reflexivity]]].
  - intros p Hin. apply In_admin_posts in Hin. tauto.
  - intros k r Hk Ha.
    exists {| pv_id := k; pv_row := r; pv_author := None;
              pv_comment_count := Store.count_comments k (comments (db s)) |}.
    split; [|split; reflexivity]. apply In_admin_posts. simpl. auto.
  - intros i j x y Hij Hx Hy.
    exact (postsWithComments_newest_first _ _ _ i j x y Hij Hx Hy).
Qed.

Lemma AdminPanel_fetchPosts_lists_own_posts_witness :
  exists p,
    In p (AdminPanel.st_posts (ui (snd (AdminPanel.fetchPosts (ccs_panel feed_world)))))
    /\ pv_id p = "post-ccs" /\ pv_row p = ccs_post "archived".
Proof.
  destruct (AdminPanel_fetchPosts_lists_own_posts (ccs_panel feed_world)
              ("adm-ccs",
               {| us_name := "Ana"; us_email := "ana@spc.edu"; us_role := "admin";
                  us_department := "CCS"; us_is_approved := true;
                  us_approved_by := None; us_approved_at := None;
                  us_profile_picture := None; us_created_at := 1 |}))
    as (_ & H & _).
  - reflexivity.
  - apply H; reflexivity.
Defined.

Lemma dashboard_feed_eq (w : World) : dashboard_feed w = feed_posts w.
Proof.
  unfold dashboard_feed, Dashboard.fetchPosts, Dashboard.setPosts,
    Dashboard.setFilteredPosts, feed_posts.
  eff_unfold. reflexivity.
Qed.

Lemma archive_feed_eq viewer (w : World) :
  archive_feed viewer w = archive_posts_of_user viewer w.
Proof.
  unfold archive_feed. rewrite (Archive_fetchPosts_user _ viewer); reflexivity.
Qed.

(** A created post is on line at once: with an accepted form, a loaded
    profile and a new id, handleCreatePost stores one post, authored by the
    admin, of the admin's department and with status 'active'; the panel's
    refreshed listing holds it and so does the general feed; every other post
    is as before. *)
Theorem handleCreatePost_publishes
    (store_id : string) (now : N) (s : Sys AdminPanel.State)
    (profile : Store.Selected UserRow) :
  form_accepted (AdminPanel.formData (ui s)) = true ->
  AdminPanel.userProfile (ui s) = Some profile ->
  posts (db s) !! store_id = None ->
  db (snd (AdminPanel.handleCreatePost store_id now s))
  = set_posts
      (<[store_id := new_post (AdminPanel.formData (ui s)) profile now]> (posts (db s)))
      (db s)
  /\ po_author_id (new_post (AdminPanel.formData (ui s)) profile now) = fst profile
  /\ po_department (new_post (AdminPanel.formData (ui s)) profile now)
     = us_department (snd profile)
  /\ po_status (new_post (AdminPanel.formData (ui s)) profile now) = "active"
  /\ (exists p,
        In p (AdminPanel.st_posts (ui (snd (AdminPanel.handleCreatePost store_id now s))))
        /\ pv_id p = store_id
        /\ pv_row p = new_post (AdminPanel.formData (ui s)) profile now)
  /\ (exists p,
        In p (dashboard_feed (db (snd (AdminPanel.handleCreatePost store_id now s))))
        /\ pv_id p = store_id
        /\ pv_row p = new_post (AdminPanel.formData (ui s)) profile now)
  /\ (forall k, k <> store_id ->
        posts (db (snd (AdminPanel.handleCreatePost store_id now s))) !! k
        = posts (db s) !! k).
Proof.
  intros Hacc Hp Hfree.
  rewrite (handleCreatePost_accepted store_id now s Hacc). unfold created.
  rewrite Hp, Hfree. cbn [snd db ui AdminPanel.st_posts posts set_posts].
  split; [reflexivity|]. split; [reflexivity|]. split; [reflexivity|].
  split; [reflexivity|]. split; [|split].
  - eexists {| pv_id := store_id; pv_row := _; pv_author := None;
               pv_comment_count := _ |}.
    split; [|split; reflexivity]. apply In_admin_posts. cbn.
    rewrite lookup_insert_eq. auto.
  - rewrite dashboard_feed_eq.
    apply feed_posts_complete; [cbn; apply lookup_insert_eq | reflexivity].
  - intros k Hk. apply lookup_insert_ne. congruence.
Qed.

Lemma handleCreatePost_publishes_witness :
  exists p,
    In p (dashboard_feed (db (snd (AdminPanel.handleCreatePost "post-1" 5
                                 (panel_sys event_form)))))
    /\ pv_id p = "post-1".
Proof.
  destruct (handleCreatePost_publishes "post-1" 5 (panel_sys event_form)
              ("adm-1",
               {| us_name := "Ana"; us_email := "ana@spc.edu"; us_role := "admin";
                  us_department := "CCS"; us_is_approved := true;
                  us_approved_by := None; us_approved_at := None;
                  us_profile_picture := None; us_created_at := 1 |}))
    as (_ & _ & _ & _ & _ & (p & Hin & Hid & _) & _).
  - reflexivity.
  - reflexivity.
  - reflexivity.
  - exists p. split; assumption.
Defined.

(** A confirmed delete removes the post under the given id and nothing else:
    the other posts, the comments and the profiles are as before, the
    listing no longer holds the id, and deleting an id that is not stored
    changes nothing.  A declined confirmation leaves everything as it was. *)
Theorem handleDeletePost_removes_one (postId : string) (s : Sys AdminPanel.State) :
  db (snd (AdminPanel.handleDeletePost true postId s))
  = set_posts (base.delete postId (posts (db s))) (db s)
  /\ posts (db (snd (AdminPanel.handleDeletePost true postId s))) !! postId = None
  /\ (forall k, k <> postId ->
        posts (db (snd (AdminPanel.handleDeletePost true postId s))) !! k
        = posts (db s) !! k)
  /\ (forall profile p,
        AdminPanel.userProfile (ui s) = Some profile ->
        In p (AdminPanel.st_posts (ui (snd (AdminPanel.handleDeletePost true postId s)))) ->
        pv_id p <> postId)
  /\ (posts (db s) !! postId = None ->
      db (snd (AdminPanel.handleDeletePost true postId s)) = db s)
  /\ AdminPanel.handleDeletePost false postId s = (Done tt, s).
Proof.
  rewrite handleDeletePost_run. cbn [snd]. rewrite relisted_db.
  cbn [posts set_posts].
  split; [reflexivity|]. split; [apply lookup_delete_eq|].
  split; [intros k Hk; apply lookup_delete_ne; congruence|].
  split; [|split; [|reflexivity]].
  - intros profile p Hp Hin. unfold relisted in Hin. rewrite Hp in Hin.
    cbn in Hin. apply In_admin_posts in Hin as (Hk & _). cbn in Hk.
    intros Heq. rewrite Heq, lookup_delete_eq in Hk. discriminate.
  - intros Hnone. rewrite delete_id by exact Hnone.
    destruct (db s). reflexivity.
Qed.

(** Create followed by delete is a round trip: deleting the post that
    handleCreatePost has just stored under a new id gives back the store as
    it was before the creation. *)
Theorem create_then_delete_post
    (store_id : string) (now : N) (s : Sys AdminPanel.State)
    (profile : Store.Selected UserRow) :
  form_accepted (AdminPanel.formData (ui s)) = true ->
  AdminPanel.userProfile (ui s) = Some profile ->
  posts (db s) !! store_id = None ->
  posts (db (snd (AdminPanel.handleCreatePost store_id now s))) !! store_id
  = Some (new_post (AdminPanel.formData (ui s)) profile now)
  /\ db (snd (AdminPanel.handleDeletePost true store_id
                (snd (AdminPanel.handleCreatePost store_id now s))))
     = db s.
Proof.
  intros Hacc Hp Hfree. rewrite handleDeletePost_run. cbn [snd].
  rewrite relisted_db.
  rewrite (handleCreatePost_accepted store_id now s Hacc). unfold created.
  rewrite Hp, Hfree. cbn [snd db posts set_posts].
  split; [apply lookup_insert_eq|].
  rewrite delete_insert_id by exact Hfree. destruct (db s). reflexivity.
Qed.

Lemma create_then_delete_post_witness :
  db (snd (AdminPanel.handleDeletePost true "post-1"
             (snd (AdminPanel.handleCreatePost "post-1" 5 (panel_sys event_form)))))
  = db (panel_sys event_form).
Proof.
  destruct (create_then_delete_post "post-1" 5 (panel_sys event_form)
              ("adm-1",
               {| us_name := "Ana"; us_email := "ana@spc.edu"; us_role := "admin";
                  us_department := "CCS"; us_is_approved := true;
                  us_approved_by := None; us_approved_at := None;
                  us_profile_picture := None; us_created_at := 1 |}))
    as (_ & H).
  - reflexivity.
  - reflexivity.
  - reflexivity.
  - exact H.
Defined.

Lemma Archive_fetchPosts_db (s : Sys Archive.State) :
  fst (Archive.fetchPosts s) = Done tt /\ db (snd (Archive.fetchPosts s)) = db s.
Proof.
  unfold Archive.fetchPosts, Archive.setPosts. eff_unfold. simpl.
  destruct (Archive.is_type (Archive.userType (ui s)) "admin");
    [|destruct (Archive.is_type (Archive.userType (ui s)) "user")];
    destruct (Archive.userProfile (ui s)); simpl; split; reflexivity.
Qed.

Lemma handleRestorePost_run postId (s : Sys Archive.State) :
  Archive.handleRestorePost true postId s
  = (Done tt,
     snd (Archive.fetchPosts
            (MkSys (ui s)
               (set_posts (alter (with_status "active") postId (posts (db s))) (db s))
               (log s ++ [ToastLoading "Restoring post...";
                          ToastSuccess "Post restored successfully!"])))).
Proof.
  unfold Archive.handleRestorePost, update_in, Store.update. cbn [negb].
  unfold bind, try_catch, emit, from, get_db, put_db.
  cbn [ui db log]. rewrite <- !app_assoc. cbn [app].
  match goal with
  | |- context [Archive.fetchPosts ?x] =>
      destruct (Archive_fetchPosts_db x) as [Hf _];
      destruct (Archive.fetchPosts x) as [o s'] eqn:E
  end.
  cbn [fst snd] in *. subst o. reflexivity.
Qed.

Lemma handleRestorePost_db postId (s : Sys Archive.State) :
  fst (Archive.handleRestorePost true postId s) = Done tt
  /\ db (snd (Archive.handleRestorePost true postId s))
     = set_posts (alter (with_status "active") postId (posts (db s))) (db s).
Proof.
  rewrite handleRestorePost_run. cbn [fst snd]. split; [reflexivity|].
  match goal with
  | |- context [Archive.fetchPosts ?x] =>
      destruct (Archive_fetchPosts_db x) as [_ Hdb]
  end.
  rewrite Hdb. reflexivity.
Qed.

Lemma with_status_same status (r : PostRow) :
  po_status r = status -> with_status status r = r.
Proof. destruct r. simpl. intros ->. reflexivity. Qed.

Lemma with_status_twice a b (r : PostRow) :
  with_status a (with_status b r) = with_status a r.
Proof. reflexivity. Qed.

(** Archiving is reversible: handleArchivePost sets the status of the post
    to 'archived' and handleRestorePost sets it back to 'active', both
    leaving every other column and every other post alone, so archiving an
    active post and restoring it gives back the store as it was. *)
Theorem archive_then_restore_post
    (postId : string) (s : Sys AdminPanel.State) (a : Archive.State) (r : PostRow) :
  posts (db s) !! postId = Some r ->
  posts (db (snd (AdminPanel.handleArchivePost true postId s))) !! postId
  = Some (with_status "archived" r)
  /\ (forall k, k <> postId ->
        posts (db (snd (AdminPanel.handleArchivePost true postId s))) !! k
        = posts (db s) !! k)
  /\ posts (db (snd (Archive.handleRestorePost true postId
                       (archive_over a (snd (AdminPanel.handleArchivePost true postId s))))))
       !! postId
     = Some (with_status "active" r)
  /\ (po_status r = "active" ->
      db (snd (Archive.handleRestorePost true postId
                 (archive_over a (snd (AdminPanel.handleArchivePost true postId s)))))
      = db s).
Proof.
  intros Hr.
  destruct (handleRestorePost_db postId
              (archive_over a (snd (AdminPanel.handleArchivePost true postId s))))
    as [_ Hdb].
  rewrite Hdb. clear Hdb. unfold archive_over. cbn [db].
  rewrite handleArchivePost_run. cbn [snd]. rewrite relisted_db.
  cbn [posts set_posts].
  split; [rewrite lookup_alter_eq, Hr; reflexivity|].
  split; [intros k Hk; apply lookup_alter_ne; congruence|].
  split; [rewrite !lookup_alter_eq, Hr; reflexivity|].
  intros Hst.
  assert (Hsame : alter (with_status "active") postId
                    (alter (with_status "archived") postId (posts (db s)))
                  = posts (db s)).
  { apply map_eq. intros k. destruct (decide (postId = k)) as [<-|Hne].
    - rewrite !lookup_alter_eq, Hr. cbn. rewrite with_status_twice.
      rewrite (with_status_same "active" r Hst). reflexivity.
    - rewrite !lookup_alter_ne by exact Hne. reflexivity. }
  rewrite Hsame. destruct (db s). reflexivity.
Qed.

Lemma archive_then_restore_post_witness :
  db (snd (Archive.handleRestorePost true "post-ced"
             (archive_over Archive.initial
                (snd (AdminPanel.handleArchivePost true "post-ced"
                        (ccs_panel feed_world))))))
  = db (ccs_panel feed_world).
Proof.
  destruct (archive_then_restore_post "post-ced" (ccs_panel feed_world)
              Archive.initial (ced_post "active")) as (_ & _ & _ & H).
  - reflexivity.
  - apply H. reflexivity.
Defined.

Lemma In_feed_posts_iff (w : World) k :
  (exists p, In p (feed_posts w) /\ pv_id p = k)
  <-> exists r, posts w !! k = Some r /\ po_status r = "active".
Proof.
  split.
  - intros (p & Hin & <-). apply In_feed_posts in Hin as [Hk Hs]. eauto.
  - intros (r & Hk & Hs). destruct (feed_posts_complete w k r Hk Hs) as (p & Hin & Hid & _).
    eauto.
Qed.

Lemma In_archive_posts_of_user_iff profile (w : World) k :
  (exists p, In p (archive_posts_of_user profile w) /\ pv_id p = k)
  <-> exists r, posts w !! k = Some r /\ po_status r = "archived"
                /\ po_department r = us_department (snd profile).
Proof.
  unfold archive_posts_of_user. split.
  - intros (p & Hin & <-). apply In_postsWithComments in Hin.
    apply In_order, In_eq in Hin as [Hin Hd]. apply In_eq in Hin as [Hin Hs].
    apply In_select in Hin. eauto.
  - intros (r & Hk & Hs & Hd). eexists. split.
    + apply in_map_iff. exists (k, r). split; [reflexivity|].
      apply In_order, In_eq. split; [|exact Hd].
      apply In_eq. split; [apply In_select; exact Hk | exact Hs].
    + reflexivity.
Qed.

(** Archiving takes a post off the general feed and puts it in the archive
    view of the students of its department; restoring does the reverse. *)
Theorem archive_moves_post_between_views
    (postId : string) (s : Sys AdminPanel.State) (a : Archive.State)
    (r : PostRow) (viewer : Store.Selected UserRow) :
  posts (db s) !! postId = Some r ->
  us_department (snd viewer) = po_department r ->
  (~ (exists p, In p (dashboard_feed (db (snd (AdminPanel.handleArchivePost true postId s))))
                /\ pv_id p = postId)
   /\ (exists p,
         In p (archive_feed viewer
                 (db (snd (AdminPanel.handleArchivePost true postId s))))
         /\ pv_id p = postId))
  /\ ((exists p,
         In p (feed_posts
                 (db (snd (Archive.handleRestorePost true postId (MkSys a (db s) [])))))
         /\ pv_id p = postId)
      /\ ~ (exists p,
              In p (archive_feed viewer
                      (db (snd (Archive.handleRestorePost true postId
                                  (MkSys a (db s) [])))))
              /\ pv_id p = postId)).
Proof.
  intros Hr Hd. rewrite !dashboard_feed_eq, !archive_feed_eq.
  destruct (handleRestorePost_db postId (MkSys a (db s) [])) as [_ Hdb].
  rewrite Hdb. clear Hdb. rewrite handleArchivePost_run. cbn [snd db].
  rewrite relisted_db.
  rewrite !In_feed_posts_iff, !In_archive_posts_of_user_iff.
  cbn [posts set_posts]. rewrite !lookup_alter_eq, Hr. cbn.
  split; split.
  - intros (r' & [= <-] & Hs). discriminate.
  - eexists. split; [reflexivity|]. split; [reflexivity | symmetry; exact Hd].
  - eexists. split; reflexivity.
  - intros (r' & [= <-] & Hs & _). discriminate.
Qed.

Lemma archive_moves_post_between_views_witness :
  ~ (exists p,
        In p (dashboard_feed (db (snd (AdminPanel.handleArchivePost true "post-ced"
                                     (ccs_panel feed_world)))))
        /\ pv_id p = "post-ced").
Proof.
  destruct (archive_moves_post_between_views "post-ced" (ccs_panel feed_world)
              Archive.initial (ced_post "active") ("stu-9", approved_student "CED"))
    as ((H & _) & _).
  - reflexivity.
  - reflexivity.
  - exact H.
Defined.

Lemma handleEditPost_db (s : Sys AdminPanel.State) :
  db (snd (AdminPanel.handleEditPost s)) =
    if form_accepted (AdminPanel.formData (ui s)) then
      match AdminPanel.editingPost (ui s) with
      | Some post =>
          set_posts
            (alter (AdminPanel.edited (AdminPanel.formData (ui s))) (pv_id post)
               (posts (db s)))
            (db s)
      | None => db s
      end
    else db s.
Proof.
  destruct (form_accepted (AdminPanel.formData (ui s))) eqn:Hacc.
  - rewrite (handleEditPost_accepted s Hacc). unfold edit_applied, Store.update.
    destruct (AdminPanel.editingPost (ui s)); [|reflexivity].
    destruct (AdminPanel.userProfile (ui s)); reflexivity.
  - rewrite (handleEditPost_rejected s Hacc). reflexivity.
Qed.

(** Editing never moves a post: whatever the form holds, handleEditPost
    neither adds nor removes a post, changes no post but the one being
    edited, and leaves the department, the author, the status and the
    creation time of that one as they were (an archived post stays archived);
    the other collections are untouched. *)
Theorem handleEditPost_keeps_identity (s : Sys AdminPanel.State) :
  (forall k, posts (db (snd (AdminPanel.handleEditPost s))) !! k = None
             <-> posts (db s) !! k = None)
  /\ (forall k r r',
        posts (db s) !! k = Some r ->
        posts (db (snd (AdminPanel.handleEditPost s))) !! k = Some r' ->
        po_department r' = po_department r
        /\ po_author_id r' = po_author_id r
        /\ po_status r' = po_status r
        /\ po_created_at r' = po_created_at r
        /\ (forall post, AdminPanel.editingPost (ui s) = Some post ->
                         k <> pv_id post -> r' = r)
        /\ (AdminPanel.editingPost (ui s) = None -> r' = r))
  /\ db (snd (AdminPanel.handleEditPost s))
     = set_posts (posts (db (snd (AdminPanel.handleEditPost s)))) (db s).
Proof.
  rewrite handleEditPost_db.
  assert (Hsame : db s = set_posts (posts (db s)) (db s))
    by (destruct (db s); reflexivity).
  destruct (form_accepted (AdminPanel.formData (ui s)));
    [destruct (AdminPanel.editingPost (ui s)) as [post|]|].
  - cbn [posts set_posts]. split; [|split; [|reflexivity]].
    + intros k. apply lookup_alter_None.
    + intros k r r' Hr Hr'. rewrite lookup_alter in Hr'.
      destruct (decide (pv_id post = k)) as [Heq|Hne].
      * rewrite Heq, Hr in Hr'. injection Hr' as <-. cbn.
        repeat split; try reflexivity; [|discriminate].
        intros post' [= <-] Hk. congruence.
      * rewrite Hr in Hr'. injection Hr' as <-.
        repeat split; reflexivity.
  - split; [reflexivity|]. split; [|exact Hsame].
    intros k r r' Hr Hr'. rewrite Hr in Hr'. injection Hr' as <-.
    repeat split; reflexivity.
  - split; [reflexivity|]. split; [|exact Hsame].
    intros k r r' Hr Hr'. rewrite Hr in Hr'. injection Hr' as <-.
    repeat split; reflexivity.
Qed.

Lemma edited_unchanged fd (r : PostRow) :
  AdminPanel.fd_title fd = po_title r ->
  AdminPanel.fd_content fd = po_content r ->
  AdminPanel.fd_type fd = po_type r ->
  AdminPanel.event_date_of fd = po_event_date r ->
  AdminPanel.edited fd r = r.
Proof.
  unfold AdminPanel.edited. destruct r. cbn. intros -> -> -> ->. reflexivity.
Qed.

Lemma openEditModal_run isoMinutes (post : PostView) (s : Sys AdminPanel.State) :
  AdminPanel.openEditModal isoMinutes post s
  = match
      match po_event_date (pv_row post) with
      | Some d => if JS.truthy d then isoMinutes d else Some ""
      | None => Some ""
      end
    with
    | Some m =>
        (Done tt,
         MkSys
           {| AdminPanel.user := AdminPanel.user (ui s);
              AdminPanel.userProfile := AdminPanel.userProfile (ui s);
              AdminPanel.st_posts := AdminPanel.st_posts (ui s);
              AdminPanel.formData :=
                {| AdminPanel.fd_title := po_title (pv_row post);
                   AdminPanel.fd_content := po_content (pv_row post);
                   AdminPanel.fd_type := po_type (pv_row post);
                   AdminPanel.fd_event_date := m |};
              AdminPanel.editingPost := Some post |}
           (db s) (log s))
    | None =>
        (Thrown "Invalid time value",
         MkSys
           {| AdminPanel.user := AdminPanel.user (ui s);
              AdminPanel.userProfile := AdminPanel.userProfile (ui s);
              AdminPanel.st_posts := AdminPanel.st_posts (ui s);
              AdminPanel.formData := AdminPanel.formData (ui s);
              AdminPanel.editingPost := Some post |}
           (db s) (log s))
    end.
Proof.
  unfold AdminPanel.openEditModal, AdminPanel.setEditingPost, AdminPanel.setFormData.
  unfold bind at 1. unfold bind at 2. unfold get_ui at 1, put_ui at 1.
  cbn [ui db log]. unfold bind.
  destruct (po_event_date (pv_row post)) as [d|]; [|reflexivity].
  destruct (JS.truthy d); [|reflexivity].
  destruct (isoMinutes d); reflexivity.
Qed.

(** Opening the edit modal and saving at once.  For a listed post with a
    title and a content that is not an event and has no event date, the save
    leaves the store as it was.  For a listed event whose event date reads as
    a date, the save changes the event date alone, to the minute form of the
    date that the modal shows.  When the stored event date does not read as a
    date, opening the modal fails with a RangeError: the post is marked as
    the one being edited, but the form keeps what it held and nothing is
    stored or reported. *)
Theorem open_then_save_post
    (isoMinutes : string -> option string) (post : PostView)
    (s : Sys AdminPanel.State) :
  posts (db s) !! pv_id post = Some (pv_row post) ->
  po_title (pv_row post) <> "" ->
  po_content (pv_row post) <> "" ->
  (po_type (pv_row post) <> "event" -> po_event_date (pv_row post) = None ->
   fst (AdminPanel.openEditModal isoMinutes post s) = Done tt
   /\ db (snd (AdminPanel.handleEditPost (opened isoMinutes post s))) = db s)
  /\ (forall d m,
        po_type (pv_row post) = "event" -> po_event_date (pv_row post) = Some d ->
        d <> "" -> isoMinutes d = Some m -> m <> "" ->
        fst (AdminPanel.openEditModal isoMinutes post s) = Done tt
        /\ posts (db (snd (AdminPanel.handleEditPost (opened isoMinutes post s))))
             !! pv_id post
           = Some {| po_title := po_title (pv_row post);
                     po_content := po_content (pv_row post);
                     po_type := po_type (pv_row post);
                     po_department := po_department (pv_row post);
                     po_author_id := po_author_id (pv_row post);
                     po_event_date := Some m;
                     po_status := po_status (pv_row post);
                     po_created_at := po_created_at (pv_row post) |})
  /\ (forall d,
        po_event_date (pv_row post) = Some d -> d <> "" -> isoMinutes d = None ->
        AdminPanel.openEditModal isoMinutes post s
        = (Thrown "Invalid time value",
           MkSys
             {| AdminPanel.user := AdminPanel.user (ui s);
                AdminPanel.userProfile := AdminPanel.userProfile (ui s);
                AdminPanel.st_posts := AdminPanel.st_posts (ui s);
                AdminPanel.formData := AdminPanel.formData (ui s);
                AdminPanel.editingPost := Some post |}
             (db s) (log s))).
Proof.
  intros Hk Ht Hc. unfold opened.
  split; [|split].
  - intros Hty Hd. rewrite openEditModal_run, Hd. cbn [fst snd].
    split; [reflexivity|].
    rewrite handleEditPost_db.
    cbn [ui db AdminPanel.formData AdminPanel.editingPost].
    unfold form_accepted.
    cbn [AdminPanel.fd_title AdminPanel.fd_content AdminPanel.fd_type
           AdminPanel.fd_event_date].
    rewrite (truthy_true _ Ht), (truthy_true _ Hc). cbn [andb].
    apply String.eqb_neq in Hty. rewrite Hty. cbn [andb negb].
    rewrite alter_id; [destruct (db s); reflexivity|].
    intros r Hr. rewrite Hk in Hr. injection Hr as <-.
    apply edited_unchanged; try reflexivity.
    unfold AdminPanel.event_date_of. cbn. rewrite Hty, Hd. reflexivity.
  - intros d m Hty Hd Hne Hiso Hm.
    rewrite openEditModal_run, Hd, (truthy_true _ Hne), Hiso. cbn [fst snd].
    split; [reflexivity|].
    rewrite handleEditPost_db.
    cbn [ui db AdminPanel.formData AdminPanel.editingPost].
    unfold form_accepted.
    cbn [AdminPanel.fd_title AdminPanel.fd_content AdminPanel.fd_type
           AdminPanel.fd_event_date].
    rewrite (truthy_true _ Ht), (truthy_true _ Hc), (truthy_true _ Hm).
    rewrite Hty. cbn [String.eqb Ascii.eqb Bool.eqb andb negb posts set_posts].
    setoid_rewrite lookup_alter_eq. rewrite Hk.
    unfold AdminPanel.edited, AdminPanel.event_date_of.
    cbn. reflexivity.
  - intros d Hd Hne Hiso.
    rewrite openEditModal_run, Hd, (truthy_true _ Hne), Hiso. reflexivity.
Qed.

Lemma open_then_save_post_witness :
  fst (AdminPanel.openEditModal (fun d => Some d)
         {| pv_id := "post-ced"; pv_row := ced_post "active";
            pv_author := None; pv_comment_count := 0 |}
         (ccs_panel feed_world)) = Done tt
  /\ db (snd (AdminPanel.handleEditPost
                (opened (fun d => Some d)
                   {| pv_id := "post-ced"; pv_row := ced_post "active";
                      pv_author := None; pv_comment_count := 0 |}
                   (ccs_panel feed_world))))
     = db (ccs_panel feed_world).
Proof.
  destruct (open_then_save_post (fun d => Some d)
              {| pv_id := "post-ced"; pv_row := ced_post "active";
                 pv_author := None; pv_comment_count := 0 |}
              (ccs_panel feed_world)) as (H & _).
  - reflexivity.
  - discriminate.
  - discriminate.
  - apply H; [discriminate | reflexivity].
Defined.

(** ** Comments in general *)

Lemma fetchComments_run (s : Sys PostDetail.State) :
  PostDetail.fetchComments s
  = (Done tt, reloaded s (db s) [] (PostDetail.newComment (ui s))).
Proof.
  unfold PostDetail.fetchComments, PostDetail.setComments, reloaded, comment_views.
  eff_unfold. cbn [ui db log]. rewrite app_nil_r. reflexivity.
Qed.

Lemma handleAddComment_run store_id now (s : Sys PostDetail.State) profile :
  JS.allWhiteSpace (PostDetail.newComment (ui s)) = false ->
  PostDetail.userProfile (ui s) = Some profile ->
  comments (db s) !! store_id = None ->
  PostDetail.handleAddComment store_id now s
  = (Done tt,
     reloaded s
       (set_comments (<[store_id := new_comment s profile now]> (comments (db s)))
          (db s))
       [ToastLoading "Adding comment..."; ToastSuccess "Comment added successfully!"]
       "").
Proof.
  intros Hw Hp Hk.
  assert (Ht : JS.truthy (JS.trim (PostDetail.newComment (ui s))) = true).
  { apply truthy_true. intros He. apply trim_empty_iff in He.
    rewrite He in Hw. discriminate. }
  destruct s as [[pid u up cs draft] [acc ses sas ads us ps cms] lg].
  cbn [ui db log PostDetail.newComment PostDetail.userProfile comments] in *.
  subst up.
  unfold PostDetail.handleAddComment, PostDetail.fetchComments,
    PostDetail.setNewComment, PostDetail.setComments, reloaded, comment_views,
    new_comment.
  eff_unfold. unfold Store.insert.
  cbn [ui db log PostDetail.newComment PostDetail.userProfile comments].
  rewrite Ht. cbn [negb ui db log comments]. rewrite Hk. cbn.
  rewrite <- !app_assoc. reflexivity.
Qed.

Lemma handleDeleteComment_run commentId (s : Sys PostDetail.State) :
  PostDetail.handleDeleteComment true commentId s
  = (Done tt,
     reloaded s (set_comments (base.delete commentId (comments (db s))) (db s))
       [ToastLoading "Deleting comment..."; ToastSuccess "Comment deleted successfully!"]
       (PostDetail.newComment (ui s))).
Proof.
  unfold PostDetail.handleDeleteComment, PostDetail.fetchComments,
    PostDetail.setComments, reloaded, comment_views, delete_from, Store.delete.
  eff_unfold. cbn. rewrite <- !app_assoc. reflexivity.
Qed.

Lemma In_comment_views post_id (w : World) (c : PostDetail.CommentView) :
  In c (comment_views post_id w)
  <-> comments w !! PostDetail.cv_id c = Some (PostDetail.cv_row c)
      /\ co_post_id (PostDetail.cv_row c) = post_id
      /\ PostDetail.cv_user c
         = match users w !! co_user_id (PostDetail.cv_row c) with
           | Some u => Some (us_name u, us_department u, us_role u,
                             us_profile_picture u)
           | None => None
           end.
Proof.
  unfold comment_views. rewrite in_map_iff. split.
  - intros ([k r] & <- & Hin). cbn.
    apply In_order, In_eq in Hin as [Hin Hp]. apply In_select in Hin.
    auto.
  - intros (Hk & Hp & Hu). exists (PostDetail.cv_id c, PostDetail.cv_row c).
    split; [destruct c; cbn in *; rewrite Hu; reflexivity|].
    apply In_order, In_eq. split; [apply In_select; exact Hk | exact Hp].
Qed.

(** fetchComments lists exactly the comments of the page's post, each once,
    with its author's name, department, role and picture when the author's
    users row exists, and oldest first; it changes neither the store nor the
    comment box and reports nothing. *)
Theorem fetchComments_lists_post_comments (s : Sys PostDetail.State) :
  (forall c,
      In c (PostDetail.st_comments (ui (snd (PostDetail.fetchComments s))))
      <-> comments (db s) !! PostDetail.cv_id c = Some (PostDetail.cv_row c)
          /\ co_post_id (PostDetail.cv_row c) = PostDetail.id (ui s)
          /\ PostDetail.cv_user c
             = match users (db s) !! co_user_id (PostDetail.cv_row c) with
               | Some u => Some (us_name u, us_department u, us_role u,
                                 us_profile_picture u)
               | None => None
               end)
  /\ List.NoDup
       (map PostDetail.cv_id
          (PostDetail.st_comments (ui (snd (PostDetail.fetchComments s)))))
  /\ (forall i j x y,
        i < j ->
        PostDetail.st_comments (ui (snd (PostDetail.fetchComments s))) !! i = Some x ->
        PostDetail.st_comments (ui (snd (PostDetail.fetchComments s))) !! j = Some y ->
        (co_created_at (PostDetail.cv_row x) <= co_created_at (PostDetail.cv_row y))%N)
  /\ db (snd (PostDetail.fetchComments s)) = db s
  /\ log (snd (PostDetail.fetchComments s)) = log s
  /\ PostDetail.newComment (ui (snd (PostDetail.fetchComments s)))
     = PostDetail.newComment (ui s).
Proof.
  rewrite fetchComments_run.
  cbn [snd ui db log reloaded PostDetail.st_comments PostDetail.newComment].
  split; [intros c; apply In_comment_views|].
  split; [|split; [|split; [reflexivity|split; [apply app_nil_r|reflexivity]]]].
  - unfold comment_views. rewrite map_map. cbn [PostDetail.cv_id].
    eapply Permutation_NoDup;
      [symmetry; apply Permutation_map, order_Permutation|].
    apply NoDup_fst_filter, NoDup_fst_select.
  - intros i j x y Hij Hx Hy. unfold comment_views in Hx, Hy.
    apply list_lookup_fmap_Some_1 in Hx as (x' & -> & Hx).
    apply list_lookup_fmap_Some_1 in Hy as (y' & -> & Hy).
    pose proof (StronglySorted_lookup _ _
                  (order_StronglySorted
                     (fun c : Store.Selected CommentRow => Some (co_created_at (snd c)))
                     true _) i j x' y' Hij Hx Hy) as H.
    cbn in H. apply N.leb_le. exact H.
Qed.

(** A comment that is added and then deleted leaves no trace.  For a viewer
    whose profile is loaded and a comment that is not blank, handleAddComment
    shows the new comment, trimmed, in the list and empties the comment box;
    deleting that comment then gives back the store as it was before, and the
    list that a reload of the page would have shown then. *)
Theorem comment_add_then_delete
    (store_id : string) (now : N) (s : Sys PostDetail.State)
    (profile : Store.Selected UserRow) :
  JS.allWhiteSpace (PostDetail.newComment (ui s)) = false ->
  PostDetail.userProfile (ui s) = Some profile ->
  comments (db s) !! store_id = None ->
  (exists c,
      In c (PostDetail.st_comments
              (ui (snd (PostDetail.handleAddComment store_id now s))))
      /\ PostDetail.cv_id c = store_id
      /\ PostDetail.cv_row c = new_comment s profile now)
  /\ PostDetail.newComment (ui (snd (PostDetail.handleAddComment store_id now s))) = ""
  /\ db (snd (PostDetail.handleDeleteComment true store_id
                (snd (PostDetail.handleAddComment store_id now s))))
     = db s
  /\ PostDetail.st_comments
       (ui (snd (PostDetail.handleDeleteComment true store_id
                   (snd (PostDetail.handleAddComment store_id now s)))))
     = PostDetail.st_comments (ui (snd (PostDetail.fetchComments s))).
Proof.
  intros Hw Hp Hk.
  rewrite (handleAddComment_run store_id now s profile Hw Hp Hk).
  rewrite handleDeleteComment_run, fetchComments_run.
  cbn [snd ui db log reloaded PostDetail.st_comments PostDetail.newComment
         PostDetail.id comments set_comments].
  assert (Hback :
    set_comments
      (base.delete store_id (<[store_id := new_comment s profile now]> (comments (db s))))
      (set_comments (<[store_id := new_comment s profile now]> (comments (db s))) (db s))
    = db s).
  { rewrite (delete_insert_id _ _ _ Hk). destruct (db s); reflexivity. }
  split; [|split; [reflexivity|split; [exact Hback|rewrite Hback; reflexivity]]].
  eexists {| PostDetail.cv_id := store_id;
             PostDetail.cv_row := new_comment s profile now;
             PostDetail.cv_user := _ |}.
  split; [|split; reflexivity].
  apply In_comment_views. cbn [PostDetail.cv_id PostDetail.cv_row PostDetail.cv_user
                                 comments users set_comments].
  split; [apply lookup_insert_eq|]. split; reflexivity.
Qed.

Lemma comment_add_then_delete_witness :
  db (snd (PostDetail.handleDeleteComment true "c-1"
             (snd (PostDetail.handleAddComment "c-1" 7
                     (comment_sys "  see you there  ")))))
  = feed_world.
Proof.
  destruct (comment_add_then_delete "c-1" 7 (comment_sys "  see you there  ")
              ("stu-1", approved_student "CCS")) as (_ & _ & H & _).
  - reflexivity.
  - reflexivity.
  - reflexivity.
  - exact H.
Defined.

(** handleDeleteComment, when the viewer cancels the dialog, does nothing at
    all.  When the viewer confirms, it removes the comment of that id and no
    other, whoever wrote it, leaves every other collection as it was, lists
    the remaining comments of the post, and reports success, also when no
    comment has that id. *)
Theorem handleDeleteComment_removes_one
    (commentId : string) (s : Sys PostDetail.State) :
  PostDetail.handleDeleteComment false commentId s = (Done tt, s)
  /\ db (snd (PostDetail.handleDeleteComment true commentId s))
     = set_comments (base.delete commentId (comments (db s))) (db s)
  /\ (forall k, k <> commentId ->
        comments (db (snd (PostDetail.handleDeleteComment true commentId s))) !! k
        = comments (db s) !! k)
  /\ comments (db (snd (PostDetail.handleDeleteComment true commentId s))) !! commentId
     = None
  /\ (forall c,
        In c (PostDetail.st_comments
                (ui (snd (PostDetail.handleDeleteComment true commentId s))))
        <-> In c (PostDetail.st_comments (ui (snd (PostDetail.fetchComments s))))
            /\ PostDetail.cv_id c <> commentId)
  /\ log (snd (PostDetail.handleDeleteComment true commentId s))
     = (log s ++ [ToastLoading "Deleting comment...";
                  ToastSuccess "Comment deleted successfully!"])%list.
Proof.
  rewrite handleDeleteComment_run, fetchComments_run.
  cbn [snd ui db log reloaded PostDetail.st_comments comments set_comments].
  split; [reflexivity|]. split; [reflexivity|].
  split; [intros k Hk; apply lookup_delete_ne; congruence|].
  split; [apply lookup_delete_eq|]. split; [|reflexivity].
  intros c. rewrite !In_comment_views.
  cbn [comments users set_comments].
  destruct (db s) as [acc ses sas ads us ps cs]. cbn [comments users].
  split.
  - intros (Hk & Hp & Hu).
    destruct (decide (PostDetail.cv_id c = commentId)) as [He|Hne].
    + rewrite He, lookup_delete_eq in Hk. discriminate.
    + rewrite lookup_delete_ne in Hk by congruence. auto.
  - intros ((Hk & Hp & Hu) & Hne).
    rewrite lookup_delete_ne by congruence. auto.
Qed.

Lemma length_filter_Permutation {A} (f : A -> bool) (l l' : list A) :
  Permutation l l' -> length (List.filter f l) = length (List.filter f l').
Proof.
  induction 1 as [|x l l' _ IH|x y l|l l' l'' _ IH1 _ IH2]; cbn.
  - reflexivity.
  - destruct (f x); cbn; congruence.
  - destruct (f x), (f y); reflexivity.
  - congruence.
Qed.

Lemma count_comments_insert post_id k (c : CommentRow) (t : gmap string CommentRow) :
  t !! k = None ->
  Store.count_comments post_id (<[k := c]> t)
  = (if co_post_id c =? post_id then 1 else 0) + Store.count_comments post_id t.
Proof.
  intros Hk. unfold Store.count_comments, Store.eq, Store.select.
  rewrite (length_filter_Permutation _ _ _ (map_to_list_insert t k c Hk)).
  cbn. destruct (co_post_id c =? post_id); reflexivity.
Qed.

Lemma count_comments_delete post_id k (c : CommentRow) (t : gmap string CommentRow) :
  t !! k = Some c ->
  (if co_post_id c =? post_id then 1 else 0)
  + Store.count_comments post_id (base.delete k t)
  = Store.count_comments post_id t.
Proof.
  intros Hk. unfold Store.count_comments, Store.eq, Store.select.
  rewrite <- (length_filter_Permutation _ _ _ (map_to_list_delete t k c Hk)).
  cbn. destruct (co_post_id c =? post_id); reflexivity.
Qed.

(** The comment count that the post lists show follows the comments.  An
    accepted handleAddComment raises the count of the page's post by exactly
    one and leaves the count of every other post; a confirmed
    handleDeleteComment of a stored comment lowers the count of that
    comment's post by exactly one and leaves the count of every other post. *)
Theorem comment_count_follows_comments
    (store_id : string) (now : N) (s : Sys PostDetail.State)
    (profile : Store.Selected UserRow) :
  PostDetail.userProfile (ui s) = Some profile ->
  (JS.allWhiteSpace (PostDetail.newComment (ui s)) = false ->
   comments (db s) !! store_id = None ->
   forall post_id,
     Store.count_comments post_id
       (comments (db (snd (PostDetail.handleAddComment store_id now s))))
     = (if decide (post_id = PostDetail.id (ui s)) then 1 else 0)
       + Store.count_comments post_id (comments (db s)))
  /\ (forall commentId c,
        comments (db s) !! commentId = Some c ->
        forall post_id,
          (if decide (post_id = co_post_id c) then 1 else 0)
          + Store.count_comments post_id
              (comments (db (snd (PostDetail.handleDeleteComment true commentId s))))
          = Store.count_comments post_id (comments (db s))).
Proof.
  intros Hp. split.
  - intros Hw Hk post_id.
    rewrite (handleAddComment_run store_id now s profile Hw Hp Hk).
    cbn [snd db reloaded comments set_comments].
    rewrite (count_comments_insert _ _ _ _ Hk). cbn [new_comment co_post_id].
    destruct (decide (post_id = PostDetail.id (ui s))) as [->|Hne].
    + rewrite String.eqb_refl. reflexivity.
    + destruct (String.eqb_spec (PostDetail.id (ui s)) post_id); congruence.
  - intros commentId c Hc post_id. rewrite handleDeleteComment_run.
    cbn [snd db reloaded comments set_comments].
    rewrite <- (count_comments_delete post_id _ _ _ Hc).
    destruct (decide (post_id = co_post_id c)) as [->|Hne].
    + rewrite String.eqb_refl. reflexivity.
    + destruct (String.eqb_spec (co_post_id c) post_id); congruence.
Qed.

Lemma comment_count_follows_comments_witness :
  Store.count_comments "post-ced"
    (comments (db (snd (PostDetail.handleAddComment "c-1" 7
                          (comment_sys "  see you there  ")))))
  = 1 + Store.count_comments "post-ced" (comments feed_world).
Proof.
  destruct (comment_count_follows_comments "c-1" 7 (comment_sys "  see you there  ")
              ("stu-1", approved_student "CCS")) as (H & _).
  - reflexivity.
  - apply (H eq_refl eq_refl "post-ced").
Defined.

(** ** The viewer's own profile *)

Lemma handleUpdateProfile_run (s : Sys ProfileSettings.State) id r :
  ProfileSettings.userProfile (ui s) = Some (id, r) ->
  ProfileSettings.fd_name (ProfileSettings.formData (ui s)) <> "" ->
  ProfileSettings.handleUpdateProfile s
  = (Done tt,
     MkSys
       {| ProfileSettings.user := ProfileSettings.user (ui s);
          ProfileSettings.userProfile :=
            Some (id, ProfileSettings.with_name
                        (ProfileSettings.fd_name (ProfileSettings.formData (ui s))) r);
          ProfileSettings.formData := ProfileSettings.formData (ui s);
          ProfileSettings.passwordData := ProfileSettings.passwordData (ui s) |}
       (set_users
          (alter (ProfileSettings.with_name
                    (ProfileSettings.fd_name (ProfileSettings.formData (ui s))))
             id (users (db s)))
          (db s))
       (log s ++ [ToastLoading "Updating profile...";
                  ToastSuccess "Profile updated successfully!"])%list).
Proof.
  intros Hp Hn.
  destruct s as [[u up fd pd] w lg].
  cbn [ui db log ProfileSettings.userProfile ProfileSettings.formData
         ProfileSettings.user ProfileSettings.passwordData] in *.
  subst up.
  unfold ProfileSettings.handleUpdateProfile, ProfileSettings.setUserProfile.
  eff_unfold. unfold Store.update.
  cbn [ui db log ProfileSettings.userProfile ProfileSettings.formData
         ProfileSettings.user ProfileSettings.passwordData].
  rewrite (truthy_true _ Hn). cbn. rewrite <- !app_assoc. reflexivity.
Qed.

(** handleUpdateProfile changes the viewer's name and nothing else.  With the
    viewer's row loaded and a name in the form, the viewer's row keeps its
    email (whatever the form's email field holds), role, department and
    approval, and takes the name of the form; every other users row and every
    other collection is as it was; and the profile the page holds is again
    the stored row.  With an empty name the handler only reports that a name
    is required. *)
Theorem handleUpdateProfile_changes_name_only
    (s : Sys ProfileSettings.State) (id : string) (r : UserRow) :
  ProfileSettings.userProfile (ui s) = Some (id, r) ->
  users (db s) !! id = Some r ->
  (ProfileSettings.fd_name (ProfileSettings.formData (ui s)) = "" ->
   ProfileSettings.handleUpdateProfile s
   = (Done tt, reported s (ToastError "Name is required")))
  /\ (ProfileSettings.fd_name (ProfileSettings.formData (ui s)) <> "" ->
      (exists r',
          users (db (snd (ProfileSettings.handleUpdateProfile s))) !! id = Some r'
          /\ ProfileSettings.userProfile (ui (snd (ProfileSettings.handleUpdateProfile s)))
             = Some (id, r')
          /\ us_name r' = ProfileSettings.fd_name (ProfileSettings.formData (ui s))
          /\ us_email r' = us_email r
          /\ us_role r' = us_role r
          /\ us_department r' = us_department r
          /\ us_is_approved r' = us_is_approved r
          /\ us_approved_by r' = us_approved_by r
          /\ us_approved_at r' = us_approved_at r
          /\ us_profile_picture r' = us_profile_picture r
          /\ us_created_at r' = us_created_at r)
      /\ (forall k, k <> id ->
            users (db (snd (ProfileSettings.handleUpdateProfile s))) !! k
            = users (db s) !! k)
      /\ db (snd (ProfileSettings.handleUpdateProfile s))
         = set_users (users (db (snd (ProfileSettings.handleUpdateProfile s)))) (db s)).
Proof.
  intros Hp Hk. split.
  - intros Hn. unfold ProfileSettings.handleUpdateProfile. eff_unfold.
    cbn [ui]. rewrite Hn. reflexivity.
  - intros Hn. rewrite (handleUpdateProfile_run s id r Hp Hn).
    cbn [snd ui db users set_users ProfileSettings.userProfile].
    split; [|split; [|reflexivity]].
    + eexists. split; [rewrite lookup_alter_eq, Hk; reflexivity|].
      split; [reflexivity|]. cbn. repeat split.
    + intros k Hne. apply lookup_alter_ne. congruence.
Qed.

Lemma handleUpdateProfile_changes_name_only_witness :
  users (db (snd (ProfileSettings.handleUpdateProfile
                    (profile_sys "stu-1" (approved_student "CCS") "New Name"))))
    !! "stu-9"
  = users feed_world !! "stu-9".
Proof.
  destruct (handleUpdateProfile_changes_name_only
              (profile_sys "stu-1" (approved_student "CCS") "New Name")
              "stu-1" (approved_student "CCS")) as (_ & H).
  - reflexivity.
  - reflexivity.
  - destruct H as (_ & H & _); [discriminate|]. apply H. discriminate.
Defined.

(** handleChangePassword checks the form before it turns to the identity
    provider: a form that fails a check gets one of the three error messages,
    whatever the provider would answer, and stays as typed.  A form that
    passes is cleared when the provider accepts the password and kept, with
    the provider's message reported, when it refuses.  The store is never
    written. *)
Theorem handleChangePassword_checks_first
    (updateUser_response : string -> option string) (s : Sys ProfileSettings.State) :
  (password_accepted (ProfileSettings.passwordData (ui s)) = false ->
   exists message,
     In message password_errors
     /\ ProfileSettings.handleChangePassword updateUser_response s
        = (Done tt, reported s (ToastError message)))
  /\ (password_accepted (ProfileSettings.passwordData (ui s)) = true ->
      match updateUser_response
              (ProfileSettings.newPassword (ProfileSettings.passwordData (ui s))) with
      | None =>
          ProfileSettings.handleChangePassword updateUser_response s
          = (Done tt,
             MkSys
               {| ProfileSettings.user := ProfileSettings.user (ui s);
                  ProfileSettings.userProfile := ProfileSettings.userProfile (ui s);
                  ProfileSettings.formData := ProfileSettings.formData (ui s);
                  ProfileSettings.passwordData :=
                    {| ProfileSettings.newPassword := "";
                       ProfileSettings.confirmPassword := "" |} |}
               (db s)
               (log s ++ [ToastLoading "Changing password...";
                          ToastSuccess "Password changed successfully!"])%list)
      | Some e =>
          ProfileSettings.handleChangePassword updateUser_response s
          = (Done tt,
             MkSys (ui s) (db s)
               (log s ++ [ToastLoading "Changing password..."; ToastError e])%list)
      end)
  /\ db (snd (ProfileSettings.handleChangePassword updateUser_response s)) = db s.
Proof.
  unfold password_accepted, password_errors,
    ProfileSettings.handleChangePassword, ProfileSettings.setPasswordData, reported.
  eff_unfold. cbn [ui db log].
  destruct (JS.truthy (ProfileSettings.newPassword (ProfileSettings.passwordData (ui s))));
    cbn -[Nat.ltb];
    [|split; [intros _; eexists; split; [left; reflexivity|reflexivity]
             |split; [discriminate|reflexivity]]].
  destruct (JS.truthy (ProfileSettings.confirmPassword
                         (ProfileSettings.passwordData (ui s))));
    cbn -[Nat.ltb];
    [|split; [intros _; eexists; split; [left; reflexivity|reflexivity]
             |split; [discriminate|reflexivity]]].
  destruct (String.length (ProfileSettings.newPassword
                             (ProfileSettings.passwordData (ui s))) <? 6)%nat;
    cbn -[Nat.ltb];
    [split; [intros _; eexists; split; [right; left; reflexivity|reflexivity]
            |split; [discriminate|reflexivity]]|].
  destruct (ProfileSettings.newPassword (ProfileSettings.passwordData (ui s))
            =? ProfileSettings.confirmPassword (ProfileSettings.passwordData (ui s)));
    cbn -[Nat.ltb];
    [|split; [intros _; eexists; split; [right; right; left; reflexivity|reflexivity]
             |split; [discriminate|reflexivity]]].
  split; [discriminate|].
  destruct (updateUser_response
              (ProfileSettings.newPassword (ProfileSettings.passwordData (ui s))));
    cbn; rewrite <- ?app_assoc; split; try reflexivity; intros _; reflexivity.
Qed.

Lemma handleChangePassword_checks_first_witness :
  ProfileSettings.handleChangePassword (fun _ => Some "New password should be different")
    (password_sys "secret1" "secret1")
  = (Done tt,
     MkSys (ui (password_sys "secret1" "secret1")) feed_world
       [ToastLoading "Changing password...";
        ToastError "New password should be different"]).
Proof.
  destruct (handleChangePassword_checks_first
              (fun _ => Some "New password should be different")
              (password_sys "secret1" "secret1")) as (_ & H & _).
  apply H. reflexivity.
Defined.

(** ** Storage paths and excerpts *)

Lemma split_nonempty sep s : ProfileSettings.split sep s <> [].
Proof.
  destruct s as [|c s]; cbn; [discriminate|].
  destruct (Ascii.eqb c sep); [discriminate|].
  destruct (ProfileSettings.split sep s); discriminate.
Qed.

Lemma split_free sep s :
  contains sep s = false -> ProfileSettings.split sep s = [s].
Proof.
  induction s as [|c s IH]; cbn; [reflexivity|].
  destruct (Ascii.eqb c sep); cbn; [discriminate|].
  intros H. rewrite (IH H). reflexivity.
Qed.

Lemma split_append sep a b :
  ProfileSettings.split sep (a ++ String sep b)
  = (ProfileSettings.split sep a ++ ProfileSettings.split sep b)%list.
Proof.
  induction a as [|c a IH].
  - rewrite append_Empty. cbn. rewrite Ascii.eqb_refl. reflexivity.
  - rewrite append_String. cbn. destruct (Ascii.eqb c sep).
    + rewrite IH. reflexivity.
    + rewrite IH. pose proof (split_nonempty sep a) as Hne.
      destruct (ProfileSettings.split sep a); [congruence|reflexivity].
Qed.

Lemma contains_append c a b :
  contains c (a ++ b) = contains c a || contains c b.
Proof.
  induction a as [|x a IH].
  - rewrite append_Empty. reflexivity.
  - rewrite append_String. cbn. rewrite IH. apply orb_assoc.
Qed.

Lemma split_segments_free c sep s w :
  contains c s = false -> In w (ProfileSettings.split sep s) -> contains c w = false.
Proof.
  revert w. induction s as [|x s IH]; cbn; intros w Hc Hin.
  - destruct Hin as [<-|[]]. reflexivity.
  - apply orb_false_iff in Hc as [Hx Hs].
    destruct (Ascii.eqb x sep).
    + destruct Hin as [<-|Hin]; [reflexivity|]. apply IH; assumption.
    + pose proof (split_nonempty sep s) as Hne.
      destruct (ProfileSettings.split sep s) as [|w0 ws]; [congruence|].
      destruct Hin as [<-|Hin].
      * cbn. rewrite Hx. apply IH; [assumption|left; reflexivity].
      * apply IH; [assumption|right; assumption].
Qed.

Lemma last_In_nonempty {A} (l : list A) d : l <> [] -> In (List.last l d) l.
Proof.
  induction l as [|x l IH]; [congruence|]. intros _.
  destruct l as [|y l]; [left; reflexivity|].
  right. apply IH. discriminate.
Qed.

Lemma fileExt_free c name :
  contains c name = false -> contains c (ProfileSettings.fileExt name) = false.
Proof.
  intros H. apply (split_segments_free c "." name); [exact H|].
  apply last_In_nonempty, split_nonempty.
Qed.

(** The extension that an upload takes from the file's name is what follows
    the last dot; a name without a dot is its own extension. *)
Lemma fileExt_after_last_dot (base ext : string) :
  contains "." ext = false ->
  ProfileSettings.fileExt (base ++ "." ++ ext) = ext
  /\ ProfileSettings.fileExt ext = ext.
Proof.
  intros H. unfold ProfileSettings.fileExt. split.
  - change ("." ++ ext) with (String "." ext).
    rewrite split_append, (split_free _ _ H). apply last_last.
  - rewrite (split_free _ _ H). reflexivity.
Qed.

(** The path under which an upload stores a picture is the path that a later
    upload or removal computes from the picture's address: for an address
    that ends in a slash and the stored path, oldPath gives back the stored
    path, when neither the viewer's id, the time stamp nor the file's name
    holds a slash. *)
Theorem oldPath_recovers_fileName (prefix id stamp name : string) :
  contains "/" id = false ->
  contains "/" stamp = false ->
  contains "/" name = false ->
  ProfileSettings.oldPath
    (prefix ++ "/" ++
       ProfileSettings.fileName id stamp (ProfileSettings.fileExt name))
  = ProfileSettings.fileName id stamp (ProfileSettings.fileExt name).
Proof.
  intros Hid Hstamp Hname.
  pose proof (fileExt_free "/" name Hname) as Hext.
  unfold ProfileSettings.oldPath, ProfileSettings.fileName.
  set (rest := stamp ++ "." ++ ProfileSettings.fileExt name).
  assert (Hrest : contains "/" rest = false).
  { unfold rest. rewrite !contains_append, Hstamp, Hext. reflexivity. }
  change ("/" ++ id ++ "/" ++ rest) with (String "/" (id ++ String "/" rest)).
  rewrite !split_append, (split_free _ _ Hid), (split_free _ _ Hrest).
  unfold ProfileSettings.slice_last.
  rewrite length_app. cbn [length app].
  replace (length (ProfileSettings.split "/" prefix) + 2 - 2)
    with (length (ProfileSettings.split "/" prefix)) by lia.
  rewrite skipn_app, skipn_all, Nat.sub_diag. reflexivity.
Qed.

Lemma oldPath_recovers_fileName_witness :
  ProfileSettings.oldPath
    ("https://project.supabase.co/storage/v1/object/public/profile-pictures" ++ "/" ++
       ProfileSettings.fileName "stu-1" "1700000000000"
         (ProfileSettings.fileExt "me.at.home.jpg"))
  = ProfileSettings.fileName "stu-1" "1700000000000"
      (ProfileSettings.fileExt "me.at.home.jpg").
Proof.
  apply (oldPath_recovers_fileName
           "https://project.supabase.co/storage/v1/object/public/profile-pictures"
           "stu-1" "1700000000000" "me.at.home.jpg"); reflexivity.
Defined.

Lemma length_append (a b : string) :
  String.length (a ++ b) = String.length a + String.length b.
Proof.
  induction a as [|c a IH]; [rewrite append_Empty; reflexivity|].
  rewrite append_String. cbn. rewrite IH. reflexivity.
Qed.

Lemma substring_head n (s : string) :
  n <= String.length s ->
  exists rest,
    s = String.substring 0 n s ++ rest
    /\ String.length (String.substring 0 n s) = n.
Proof.
  revert s. induction n as [|n IH]; intros s Hn.
  - exists s. destruct s; cbn; rewrite ?append_Empty; auto.
  - destruct s as [|c s]; cbn in Hn; [lia|].
    destruct (IH s) as (rest & Hs & Hl); [lia|].
    exists rest. cbn. rewrite append_String, <- Hs, Hl. auto.
Qed.

(** truncateText returns a text that fits whole, and otherwise the first
    maxLength code units of the text followed by three dots.  The result is
    never longer than maxLength + 3, and it is longer than the text itself
    when the text exceeds maxLength by one or two code units. *)
Theorem truncateText_bounds (text : string) (maxLength : nat) :
  String.length (Dashboard.truncateText text maxLength) <= maxLength + 3
  /\ (String.length text <= maxLength -> Dashboard.truncateText text maxLength = text)
  /\ (maxLength < String.length text ->
      exists head rest,
        text = head ++ rest
        /\ String.length head = maxLength
        /\ Dashboard.truncateText text maxLength = head ++ "...")
  /\ (maxLength < String.length text < maxLength + 3 ->
      String.length text < String.length (Dashboard.truncateText text maxLength)).
Proof.
  unfold Dashboard.truncateText.
  destruct (Nat.leb_spec (String.length text) maxLength) as [Hfit|Hlong].
  - split; [lia|]. split; [reflexivity|]. split; intros; lia.
  - destruct (substring_head maxLength text) as (rest & Hs & Hl); [lia|].
    rewrite length_append, Hl. cbn [String.length].
    split; [lia|]. split; [lia|]. split; [|lia].
    intros _. exists (String.substring 0 maxLength text), rest. auto.
Qed.

(** ** The archive view by tier, and logging out *)

Lemma Archive_checkAuth_run (s : Sys Archive.State) id :
  session (db s) = Some id ->
  Archive.checkAuth s =
    match super_admins (db s) !! id, admins (db s) !! id, users (db s) !! id with
    | Some sa, _, _ =>
        (Done tt,
         MkSys {| Archive.user := Some id;
                  Archive.userProfile := Some (Archive.SuperAdminProfile (id, sa));
                  Archive.userType := Some "super_admin";
                  Archive.st_posts := Archive.st_posts (ui s) |}
           (db s) (log s))
    | None, Some a, _ =>
        (Done tt,
         MkSys {| Archive.user := Some id;
                  Archive.userProfile := Some (Archive.AdminProfile (id, a));
                  Archive.userType := Some "admin";
                  Archive.st_posts := Archive.st_posts (ui s) |}
           (db s) (log s))
    | None, None, Some u =>
        (Done tt,
         MkSys {| Archive.user := Some id;
                  Archive.userProfile := Some (Archive.UserProfile (id, u));
                  Archive.userType := Some "user";
                  Archive.st_posts := Archive.st_posts (ui s) |}
           (db s) (log s))
    | None, None, None =>
        (Done tt,
         MkSys {| Archive.user := Some id;
                  Archive.userProfile := Archive.userProfile (ui s);
                  Archive.userType := Archive.userType (ui s);
                  Archive.st_posts := Archive.st_posts (ui s) |}
           (db s)
           (log s ++ [ToastError "User profile not found"; Navigate "/"])%list)
    end.
Proof.
  intros Hs.
  unfold Archive.checkAuth, Archive.setUser, Archive.setUserProfile,
    Archive.setUserType.
  eff_unfold. simpl. rewrite Hs. simpl.
  rewrite maybeSingle_eq_id. destruct (super_admins (db s) !! id); [reflexivity|].
  simpl. rewrite maybeSingle_eq_id.
  destruct (admins (db s) !! id); [reflexivity|].
  simpl. rewrite maybeSingle_eq_id.
  destruct (users (db s) !! id); [reflexivity|].
  simpl. rewrite <- app_assoc. reflexivity.
Qed.

Lemma Archive_fetchPosts_run (s : Sys Archive.State) profile t :
  Archive.userProfile (ui s) = Some profile ->
  Archive.userType (ui s) = Some t ->
  Archive.fetchPosts s =
    (Done tt,
     MkSys
       {| Archive.user := Archive.user (ui s);
          Archive.userProfile := Archive.userProfile (ui s);
          Archive.userType := Archive.userType (ui s);
          Archive.st_posts :=
            archive_posts
              (fun post =>
                 if t =? "admin"
                 then po_author_id (snd post) =? Archive.profile_id profile
                 else if t =? "user"
                      then po_department (snd post)
                           =? Archive.profile_department profile
                      else true)
              (db s) |}
       (db s) (log s)).
Proof.
  intros Hp Ht. destruct s as [[u up ut ps] w lg].
  cbn [ui db log Archive.userProfile Archive.userType] in *. subst up ut.
  unfold Archive.fetchPosts, Archive.setPosts, archive_posts,
    Archive.is_type, Store.eq.
  eff_unfold. cbn [ui db log Archive.userProfile Archive.userType].
  destruct (t =? "admin"); cbn; [reflexivity|].
  destruct (t =? "user"); cbn; [reflexivity|].
  rewrite (List.forallb_filter_id (fun _ : Store.Selected PostRow => true));
    [reflexivity|].
  apply forallb_forall. reflexivity.
Qed.

Lemma In_archive_posts keep (w : World) (p : PostView) :
  In p (archive_posts keep w)
  <-> posts w !! pv_id p = Some (pv_row p)
      /\ po_status (pv_row p) = "archived"
      /\ keep (pv_id p, pv_row p) = true
      /\ pv_author p
         = embed_author us_name us_department (users w) (po_author_id (pv_row p))
      /\ pv_comment_count p = Store.count_comments (pv_id p) (comments w).
Proof.
  unfold archive_posts.
  rewrite In_postsWithComments_iff, In_order, filter_In, In_eq, In_select.
  cbn. tauto.
Qed.

Lemma Archive_mount_run (w : World) id profile t :
  Archive.checkAuth (MkSys Archive.initial w [])
  = (Done tt,
     MkSys {| Archive.user := Some id;
              Archive.userProfile := Some profile;
              Archive.userType := Some t;
              Archive.st_posts := [] |} w []) ->
  archive_page w
  = MkSys
      {| Archive.user := Some id;
         Archive.userProfile := Some profile;
         Archive.userType := Some t;
         Archive.st_posts :=
           archive_posts
             (fun post =>
                if t =? "admin"
                then po_author_id (snd post) =? Archive.profile_id profile
                else if t =? "user"
                     then po_department (snd post)
                          =? Archive.profile_department profile
                     else true)
             w |}
      w [].
Proof.
  intros H. unfold archive_page, Archive.mount. unfold bind at 1. rewrite H.
  unfold bind, get_ui. cbn [ui Archive.user Archive.userProfile Archive.userType].
  rewrite (Archive_fetchPosts_run _ profile t); reflexivity.
Qed.

(** The archive view depends on the collection that holds the session's
    account, looked up in the order super_admins, admins, users.  A program
    head sees every archived post, of every department and author; an admin
    sees the archived posts whose author is the admin's own account and no
    others; each listed post carries the name and department of the users
    row that its author_id refers to, when there is one; an account in none
    of the three collections is told that the profile was not found and sent
    to the landing page, with nothing listed. *)
Theorem archive_view_by_tier (w : World) (id : string) :
  session w = Some id ->
  (forall sa,
      super_admins w !! id = Some sa ->
      Archive.userType (ui (archive_page w)) = Some "super_admin"
      /\ forall p,
           In p (Archive.st_posts (ui (archive_page w)))
           <-> posts w !! pv_id p = Some (pv_row p)
               /\ po_status (pv_row p) = "archived"
               /\ pv_author p
                  = embed_author us_name us_department (users w)
                      (po_author_id (pv_row p))
               /\ pv_comment_count p = Store.count_comments (pv_id p) (comments w))
  /\ (forall a,
        super_admins w !! id = None -> admins w !! id = Some a ->
        Archive.userType (ui (archive_page w)) = Some "admin"
        /\ forall p,
             In p (Archive.st_posts (ui (archive_page w)))
             <-> posts w !! pv_id p = Some (pv_row p)
                 /\ po_status (pv_row p) = "archived"
                 /\ po_author_id (pv_row p) = id
                 /\ pv_author p = embed_author us_name us_department (users w) id
                 /\ pv_comment_count p
                    = Store.count_comments (pv_id p) (comments w))
  /\ (super_admins w !! id = None -> admins w !! id = None ->
      users w !! id = None ->
      Archive.st_posts (ui (archive_page w)) = []
      /\ Archive.userType (ui (archive_page w)) = None
      /\ log (archive_page w) = [ToastError "User profile not found"; Navigate "/"]).
Proof.
  intros Hs.
  pose proof (Archive_checkAuth_run (MkSys Archive.initial w []) id Hs) as Hrun.
  cbn [ui db log Archive.initial Archive.st_posts Archive.userProfile
         Archive.userType app] in Hrun.
  split; [|split].
  - intros sa Hsa. rewrite Hsa in Hrun.
    rewrite (Archive_mount_run w id _ _ Hrun).
    cbn [ui Archive.userType Archive.st_posts]. split; [reflexivity|].
    intros p. rewrite In_archive_posts. cbn. tauto.
  - intros a Hsa Had. rewrite Hsa, Had in Hrun.
    rewrite (Archive_mount_run w id _ _ Hrun).
    cbn [ui Archive.userType Archive.st_posts]. split; [reflexivity|].
    intros p. rewrite In_archive_posts.
    cbn [String.eqb Ascii.eqb Bool.eqb Archive.profile_id fst snd].
    split.
    + intros (H1 & H2 & H3 & H4 & H5). apply String.eqb_eq in H3.
      rewrite H3 in H4. repeat split; assumption.
    + intros (H1 & H2 & H3 & H4 & H5). rewrite H3, String.eqb_refl.
      repeat split; assumption.
  - intros Hsa Had Hus. rewrite Hsa, Had, Hus in Hrun.
    assert (Hpage : archive_page w
                    = MkSys {| Archive.user := Some id;
                               Archive.userProfile := None;
                               Archive.userType := None;
                               Archive.st_posts := [] |}
                        w [ToastError "User profile not found"; Navigate "/"]).
    { unfold archive_page, Archive.mount. unfold bind at 1. rewrite Hrun.
      reflexivity. }
    rewrite Hpage. repeat split; reflexivity.
Qed.

Lemma archive_view_by_tier_witness :
  Archive.userType (ui (archive_page head_world)) = Some "super_admin".
Proof.
  destruct (archive_view_by_tier head_world "head-ccs") as (H & _).
  - reflexivity.
  - destruct (H (snd sample_head)) as (Ht & _); [reflexivity|exact Ht].
Defined.

Lemma closed_without_session (w : World) : session w = None -> closed_to_visitors w.
Proof.
  intros Hs. unfold closed_to_visitors.
  split; [|split; [|split; [|split; [|split]]]]; intros c l.
  - unfold LandingPage.checkUser. eff_unfold. cbn [db]. rewrite Hs. reflexivity.
  - unfold Dashboard.checkAuth. eff_unfold. cbn [db]. rewrite Hs. reflexivity.
  - unfold AdminPanel.checkAuth. eff_unfold. cbn [db]. rewrite Hs. reflexivity.
  - unfold Archive.checkAuth. eff_unfold. cbn [db]. rewrite Hs. reflexivity.
  - unfold ProfileSettings.checkAuth. eff_unfold. cbn [db]. rewrite Hs. reflexivity.
  - unfold SuperAdminDashboard.checkSuperAdmin. eff_unfold. cbn [db]. rewrite Hs.
    reflexivity.
Qed.

(** Logging out, from the general dashboard or from the program head's,
    ends the session and changes nothing else in the store; from then on
    every page that asks for a session sends the visitor to the landing
    page, where the visitor stays.  On the general dashboard the page's
    listener for SIGNED_OUT goes to the landing page as soon as the session
    has ended, before the success message, and the handler goes there once
    more after it; the program head's dashboard has no listener. *)
Theorem logout_closes_every_page
    (s : Sys Dashboard.State) (h : Sys SuperAdminDashboard.State) :
  db (snd (Dashboard.handleLogout s)) = set_session None (db s)
  /\ log (snd (Dashboard.handleLogout s))
     = (log s ++ [ToastLoading "Logging out..."; Navigate "/";
                  ToastSuccess "Logged out successfully"; Navigate "/"])%list
  /\ closed_to_visitors (db (snd (Dashboard.handleLogout s)))
  /\ db (snd (SuperAdminDashboard.handleLogout h)) = set_session None (db h)
  /\ log (snd (SuperAdminDashboard.handleLogout h))
     = (log h ++ [Navigate "/"; ToastSuccess "Logged out successfully"])%list
  /\ closed_to_visitors (db (snd (SuperAdminDashboard.handleLogout h))).
Proof.
  assert (Hd : Dashboard.handleLogout s
               = (Done tt,
                  MkSys (ui s) (set_session None (db s))
                    (log s ++ [ToastLoading "Logging out..."; Navigate "/";
                               ToastSuccess "Logged out successfully";
                               Navigate "/"])%list)).
  { unfold Dashboard.handleLogout, Dashboard.onAuthStateChange. eff_unfold. cbn.
    rewrite <- !app_assoc. reflexivity. }
  assert (Hh : SuperAdminDashboard.handleLogout h
               = (Done tt,
                  MkSys (ui h) (set_session None (db h))
                    (log h ++ [Navigate "/";
                               ToastSuccess "Logged out successfully"])%list)).
  { unfold SuperAdminDashboard.handleLogout. eff_unfold. cbn.
    rewrite <- !app_assoc. reflexivity. }
  rewrite Hd, Hh. cbn [snd db log].
  split; [reflexivity|]. split; [reflexivity|].
  split; [apply closed_without_session; reflexivity|].
  split; [reflexivity|]. split; [reflexivity|].
  apply closed_without_session; reflexivity.
Qed.
